(** * XML de/serialization and error reporting of aas-core-codegen

    A shallow embedding of

    - [aas_core_codegen/java/reporting/_generate.py]: the path segments, the
      error object and the two path renderers of the emitted [Reporting]
      class;
    - [aas_core_codegen/csharp/xmlization/_generate.py]: the emitted
      [DeserializeImplementation], [Deserialize], [VisitorWithWriter] and
      [Serialize] classes, as functions of the symbol table the generator
      is run on.

    The generator is a set of templates; what is embedded is the behaviour
    of the emitted code, with the generation-time dispatch (on the type
    annotation of a property, on the number of constructor arguments)
    performed by the embedding where the generator performs it. *)

From Stdlib Require Import String Ascii List ZArith Lia Bool Arith.
From Stdlib Require Import DecimalString DecimalZ.
Import ListNotations.
Local Open Scope string_scope.
Local Open Scope list_scope.
Local Open Scope nat_scope.

Set Implicit Arguments.

(** ** Characters the templates name by escape sequences *)

Definition TAB : ascii := "009"%char.
Definition BACKSPACE : ascii := "008"%char.
Definition NEWLINE : ascii := "010"%char.
Definition CARRIAGE_RETURN : ascii := "013"%char.
Definition FORM_FEED : ascii := "012"%char.
Definition DOUBLE_QUOTE : ascii := "034"%char.
Definition BACKSLASH : ascii := "092"%char.
Definition APOSTROPHE : ascii := "039"%char.

Definition str1 (c : ascii) : string := String c EmptyString.

(** ** Reporting *)

Module Reporting.

Local Open Scope string_scope.

(** [Segment], [NameSegment], [IndexSegment]. *)
Inductive Segment : Type :=
| NameSegment (name : string)
| IndexSegment (index : Z).

(** [String.replace(target, replacement)] for a target of one character,
    which is how every call of the emitted code uses it. *)
Fixpoint replace (target : ascii) (replacement : string) (s : string)
  : string :=
  match s with
  | EmptyString => EmptyString
  | String c rest =>
      if Ascii.eqb c target
      then replacement ++ replace target replacement rest
      else String c (replace target replacement rest)
  end.

(** [String.join(separator, parts)]. *)
Fixpoint join (separator : string) (parts : list string) : string :=
  match parts with
  | [] => EmptyString
  | [p] => p
  | p :: rest => p ++ separator ++ join separator rest
  end.

(** Decimal text of a Java [int] / C# [int] in a string concatenation. *)
Definition string_of_Z (z : Z) : string :=
  NilZero.string_of_int (Z.to_int z).

Definition is_letter_or_underscore (c : ascii) : bool :=
  let n := nat_of_ascii c in
  (((65 <=? n) && (n <=? 90)) || ((97 <=? n) && (n <=? 122))
   || (n =? 95))%nat.

Definition is_digit (c : ascii) : bool :=
  let n := nat_of_ascii c in ((48 <=? n) && (n <=? 57))%nat.

Fixpoint all_chars (p : ascii -> bool) (s : string) : bool :=
  match s with
  | EmptyString => true
  | String c rest => p c && all_chars p rest
  end.

(** [variableNameRe.matcher(name).matches()] for the pattern
    [^[a-zA-Z_][a-zA-Z_0-9]*$]. *)
Definition variableNameRe_matches (name : string) : bool :=
  match name with
  | EmptyString => false
  | String c rest =>
      is_letter_or_underscore c
      && all_chars (fun d => is_letter_or_underscore d || is_digit d) rest
  end.

(** The chain of [replace] calls of [generateJsonPath], in the order of
    the emitted code. *)
Definition escaped (name : string) : string :=
  replace BACKSLASH (String BACKSLASH (str1 BACKSLASH))
    (replace DOUBLE_QUOTE (String BACKSLASH (str1 DOUBLE_QUOTE))
       (replace FORM_FEED (String BACKSLASH "f")
          (replace CARRIAGE_RETURN (String BACKSLASH "r")
             (replace NEWLINE (String BACKSLASH "n")
                (replace BACKSPACE (String BACKSLASH "b")
                   (replace TAB (String BACKSLASH "t") name)))))).

(** The body of the [for] loop of [generateJsonPath]: the part for one
    segment at position [i]. *)
Definition jsonPathPart (i : nat) (segment : Segment) : string :=
  match segment with
  | NameSegment name =>
      if variableNameRe_matches name
      then (if Nat.eqb i 0 then name else "." ++ name ++ "")
      else "[" ++ str1 DOUBLE_QUOTE ++ escaped name
               ++ str1 DOUBLE_QUOTE ++ "]"
  | IndexSegment index => "[" ++ string_of_Z index ++ "]"
  end.

Fixpoint jsonPathParts (i : nat) (segments : list Segment) : list string :=
  match segments with
  | [] => []
  | segment :: rest => jsonPathPart i segment :: jsonPathParts (S i) rest
  end.

Definition generateJsonPath (segments : list Segment) : string :=
  join "" (jsonPathParts 0 segments).

Definition escapeForXPath (text : string) : string :=
  replace APOSTROPHE "&apos;"
    (replace DOUBLE_QUOTE "&quot;"
       (replace ">" "&gt;"
          (replace "<" "&lt;"
             (replace "/" "&#47;"
                (replace "&" "&amp;" text))))).

Definition relativeXPathPart (segment : Segment) : string :=
  match segment with
  | NameSegment name => escapeForXPath name
  | IndexSegment index => "*[" ++ string_of_Z index ++ "]"
  end.

Definition generateRelativeXPath (segments : list Segment) : string :=
  join "/" (map relativeXPathPart segments).

(** [Error]: the cause and the path segments, with [PrependSegment].
    The cause is kept abstract here; the de-serializer instantiates it. *)
Record Error (Cause : Type) : Type := mkError {
  cause : Cause;
  pathSegments : list Segment
}.

Definition newError {Cause : Type} (c : Cause) : Error Cause :=
  mkError c [].

Definition PrependSegment {Cause : Type} (segment : Segment)
  (error : Error Cause) : Error Cause :=
  mkError (cause error) (segment :: pathSegments error).

(** The escaping the documentation of the renderer describes: every one of
    the seven characters replaced, once, by a backslash and its letter.
    This is the reading of the specification, not a function of the
    emitted code; [escaped] above is the code. *)
Definition escape_char_once (c : ascii) : string :=
  if Ascii.eqb c TAB then String BACKSLASH "t"
  else if Ascii.eqb c BACKSPACE then String BACKSLASH "b"
  else if Ascii.eqb c NEWLINE then String BACKSLASH "n"
  else if Ascii.eqb c CARRIAGE_RETURN then String BACKSLASH "r"
  else if Ascii.eqb c FORM_FEED then String BACKSLASH "f"
  else if Ascii.eqb c DOUBLE_QUOTE then String BACKSLASH (str1 DOUBLE_QUOTE)
  else if Ascii.eqb c BACKSLASH then String BACKSLASH (str1 BACKSLASH)
  else str1 c.

Fixpoint escaped_once (name : string) : string :=
  match name with
  | EmptyString => EmptyString
  | String c rest => escape_char_once c ++ escaped_once rest
  end.

End Reporting.

(** ** System.Xml: the document cursor and the document sink

    [XmlReader] and [XmlWriter] are the platform's, not the generator's.
    They are modelled as far as the emitted code uses them: the reader as
    the list of the nodes still ahead, the current node first; the writer
    as the elements still open with the nodes written inside each, and the
    nodes of the elements already closed. *)

Module XmlNodeType.
Inductive t : Type :=
| None
| Element
| EndElement
| Text
| Whitespace
| Comment.

Definition eqb (a b : t) : bool :=
  match a, b with
  | None, None | Element, Element | EndElement, EndElement
  | Text, Text | Whitespace, Whitespace | Comment, Comment => true
  | _, _ => false
  end.
End XmlNodeType.

Record XmlNode : Type := mkNode {
  node_NodeType : XmlNodeType.t;
  node_Name : string;
  node_LocalName : string;
  node_NamespaceURI : string;
  node_IsEmptyElement : bool;
  node_Value : string
}.

(** ** The intermediate representation, as the generator reads it

    The module [aas_core_codegen.intermediate] is not part of the sources at
    hand; the records below carry the attributes the two generators read.
    The Python objects refer to each other directly; here a symbol is
    referred to by its name and looked up in the symbol table. *)

Module intermediate.

Definition Identifier : Type := string.

Inductive PrimitiveType : Type := BOOL | INT | FLOAT | STR | BYTEARRAY.

Inductive TypeAnnotation : Type :=
| PrimitiveTypeAnnotation (a_type : PrimitiveType)
| OurTypeAnnotation (symbol : Identifier)
| ListTypeAnnotation (items : TypeAnnotation)
| OptionalTypeAnnotation (value : TypeAnnotation).

Record Property : Type := mkProperty {
  prop_name : Identifier;
  prop_type_annotation : TypeAnnotation
}.

Record Argument : Type := mkArgument {
  arg_name : Identifier;
  arg_type_annotation : TypeAnnotation
}.

Record Interface : Type := mkInterface {
  interface_name : Identifier;
  implementers : list Identifier
}.

Record Enumeration : Type := mkEnumeration {
  enum_name : Identifier;
  literals : list (Identifier * string)
}.

Record ConstrainedPrimitive : Type := mkConstrainedPrimitive {
  constrained_name : Identifier;
  constrainee : PrimitiveType
}.

Record AbstractClass : Type := mkAbstractClass {
  abstract_name : Identifier;
  abstract_interface : option Interface;
  abstract_is_implementation_specific : bool
}.

Record ConcreteClass : Type := mkConcreteClass {
  cls_name : Identifier;
  properties : list Property;
  constructor_arguments : list Argument;
  concrete_descendants : list Identifier;
  interface : option Interface;
  is_implementation_specific : bool
}.

Inductive Symbol : Type :=
| SymEnumeration (enumeration : Enumeration)
| SymConstrainedPrimitive (constrained : ConstrainedPrimitive)
| SymAbstractClass (cls : AbstractClass)
| SymConcreteClass (cls : ConcreteClass).

Definition symbol_name (symbol : Symbol) : Identifier :=
  match symbol with
  | SymEnumeration e => enum_name e
  | SymConstrainedPrimitive c => constrained_name c
  | SymAbstractClass c => abstract_name c
  | SymConcreteClass c => cls_name c
  end.

Definition SymbolTable : Type := list Symbol.

(** The symbol a type annotation or a list of implementers refers to. *)
Definition find_symbol (symbol_table : SymbolTable) (name : Identifier)
  : option Symbol :=
  find (fun symbol => String.eqb (symbol_name symbol) name) symbol_table.

Definition find_concrete_class (symbol_table : SymbolTable)
  (name : Identifier) : option ConcreteClass :=
  match find_symbol symbol_table name with
  | Some (SymConcreteClass cls) => Some cls
  | _ => None
  end.

(** Modelled from the spec: [intermediate.beneath_optional] is not among
    the sources; a property is optional or not, and its type is what lies
    beneath the [Optional]. *)
Fixpoint beneath_optional (type_annotation : TypeAnnotation)
  : TypeAnnotation :=
  match type_annotation with
  | OptionalTypeAnnotation value => beneath_optional value
  | _ => type_annotation
  end.

Definition is_optional (type_annotation : TypeAnnotation) : bool :=
  match type_annotation with
  | OptionalTypeAnnotation _ => true
  | _ => false
  end.

Definition PrimitiveType_eqb (a b : PrimitiveType) : bool :=
  match a, b with
  | BOOL, BOOL | INT, INT | FLOAT, FLOAT | STR, STR
  | BYTEARRAY, BYTEARRAY => true
  | _, _ => false
  end.

(** Modelled from the spec: [intermediate.type_annotations_equal] is not
    among the sources; two annotations are equal when they have the same
    shape and refer to the same symbols. *)
Fixpoint type_annotations_equal (a b : TypeAnnotation) : bool :=
  match a, b with
  | PrimitiveTypeAnnotation x, PrimitiveTypeAnnotation y =>
      PrimitiveType_eqb x y
  | OurTypeAnnotation x, OurTypeAnnotation y => String.eqb x y
  | ListTypeAnnotation x, ListTypeAnnotation y => type_annotations_equal x y
  | OptionalTypeAnnotation x, OptionalTypeAnnotation y =>
      type_annotations_equal x y
  | _, _ => false
  end.

Definition properties_by_name (cls : ConcreteClass) (name : Identifier)
  : option Property :=
  find (fun prop => String.eqb (prop_name prop) name) (properties cls).

End intermediate.

(** ** Causes of errors

    The emitted code reports an error as a message.  A cause below stands
    for one message template of the generator, with the values the template
    is filled with; the comment quotes the beginning of the message. *)

Inductive Cause : Type :=
(** "Expected an element within a namespace ..., but got: ..." *)
| NamespaceMismatch (ns actual : string)
(** "The property ... of an instance of class ... can not be de-serialized
    from a self-closing element since it needs content" *)
| NeedsContent (prop cls : intermediate.Identifier)
(** "Expected an XML content representing the property ... of an instance
    of class ..., but reached the end-of-file" *)
| ContentAtEndOfFile (prop cls : intermediate.Identifier)
(** "The property ... of an instance of class ... could not be
    de-serialized: ..." (also "... as a string: ...") *)
| CouldNotBeDeserialized (prop cls : intermediate.Identifier)
(** "The property ... could not be de-serialized from an unexpected
    enumeration literal: ..." *)
| UnexpectedEnumerationLiteral (prop cls : intermediate.Identifier)
    (text : string)
(** "Expected an XML element within the element ... representing the
    property ..., but encountered a self-closing element ..." *)
| SelfClosingInsteadOfElement (elementName : string)
    (prop cls : intermediate.Identifier)
(** "Expected an XML element within the element ... representing the
    property ..., but reached the end-of-file" *)
| ElementOfPropertyAtEndOfFile (elementName : string)
    (prop cls : intermediate.Identifier)
(** "Expected an XML element representing a property of an instance of
    class ..., but reached the end-of-file" *)
| PropertyAtEndOfFile (cls : intermediate.Identifier)
(** "We expected properties of the class ..., but got an unexpected element
    with the name ..." *)
| UnexpectedProperty (cls : intermediate.Identifier) (elementName : string)
(** "Expected an XML end element to conclude a property of class ... with
    the element name ..., but got the end-of-file." *)
| PropertyEndAtEndOfFile (cls : intermediate.Identifier)
    (elementName : string)
(** "... but got the node of type ... with the value ..." *)
| PropertyEndUnexpectedNode (cls : intermediate.Identifier)
    (elementName : string) (kind : XmlNodeType.t) (value : string)
(** "... but got the end element with the name ..." *)
| PropertyEndMismatch (cls : intermediate.Identifier)
    (elementName : string) (actual : string)
(** "The required property ... has not been given in the XML
    representation of an instance of class ..." *)
| RequiredPropertyMissing (prop cls : intermediate.Identifier)
(** "Expected an XML element representing an instance of class ..., but
    reached the end-of-file" *)
| InstanceAtEndOfFile (cls : intermediate.Identifier)
(** "Expected an XML element representing an instance of class ..., but got
    a node of type ... with value ..." *)
| InstanceUnexpectedNode (cls : intermediate.Identifier)
    (kind : XmlNodeType.t) (value : string)
(** "Expected an element representing an instance of class ... with element
    name ..., but got: ..." *)
| InstanceElementName (cls : intermediate.Identifier)
    (xml_name elementName : string)
(** "Expected an XML end element concluding an instance of class ..., but
    reached the end-of-file" *)
| InstanceEndAtEndOfFile (cls : intermediate.Identifier)
(** "Expected an XML end element concluding an instance of class ..., but
    got a node of type ... with value ..." *)
| InstanceEndUnexpectedNode (cls : intermediate.Identifier)
    (kind : XmlNodeType.t) (value : string)
(** "Expected an XML end element with an name ..., but got: ..." *)
| InstanceEndMismatch (elementName endElementName : string)
(** "Expected an XML element, but reached end-of-file" *)
| ElementAtEndOfFile
(** "Expected an XML element, but got a node of type ... with value ..." *)
| ElementUnexpectedNode (kind : XmlNodeType.t) (value : string)
(** "Unexpected element with the name ..." *)
| UnexpectedElement (elementName : string).

(** ** Outcomes of emitted code

    A call of an emitted method either returns, or an exception leaves it.
    [OutOfFuel] is the embedding's own: the recursive descent is defined by
    recursion on a step bound.  [NoGeneratedCode] stands for the places
    where the generator emits nothing of its own: one of its assertions
    fails on the symbol table, or the class is implementation-specific and
    its snippet comes from outside. *)

Inductive Exception : Type :=
| InvalidOperationException
| FormatException
| ArgumentException
| NullReferenceException
| InvalidCastException
(** [Xmlization.Exception(path, cause)] *)
| XmlizationException (path : string) (cause : Cause).

Inductive Completion (A : Type) : Type :=
| Returns (a : A)
| Throws (exception : Exception)
| OutOfFuel
| NoGeneratedCode.

Arguments Returns {A} a.
Arguments Throws {A} exception.
Arguments OutOfFuel {A}.
Arguments NoGeneratedCode {A}.

Definition bind {A B : Type} (c : Completion A) (k : A -> Completion B)
  : Completion B :=
  match c with
  | Returns a => k a
  | Throws e => Throws e
  | OutOfFuel => OutOfFuel
  | NoGeneratedCode => NoGeneratedCode
  end.

Notation "x <- c ;; k" := (bind c (fun x => k))
  (at level 61, c at next level, right associativity).
Notation "' pat <- c ;; k" := (bind c (fun x => match x with pat => k end))
  (at level 61, pat pattern, c at next level, right associativity).

Module XmlReader.

Definition t : Type := list XmlNode.

Definition EOF (reader : t) : bool :=
  match reader with [] => true | _ => false end.

Definition NodeType (reader : t) : XmlNodeType.t :=
  match reader with [] => XmlNodeType.None | n :: _ => node_NodeType n end.

Definition Name (reader : t) : string :=
  match reader with [] => EmptyString | n :: _ => node_Name n end.

Definition LocalName (reader : t) : string :=
  match reader with [] => EmptyString | n :: _ => node_LocalName n end.

Definition NamespaceURI (reader : t) : string :=
  match reader with [] => EmptyString | n :: _ => node_NamespaceURI n end.

Definition IsEmptyElement (reader : t) : bool :=
  match reader with [] => false | n :: _ => node_IsEmptyElement n end.

Definition Value (reader : t) : string :=
  match reader with [] => EmptyString | n :: _ => node_Value n end.

Definition Read (reader : t) : t := tl reader.

(** The node kinds on which the [ReadContentAs...] methods may be called;
    on an element start they throw [InvalidOperationException]. *)
Definition CanReadContentAs (kind : XmlNodeType.t) : bool :=
  match kind with
  | XmlNodeType.Text | XmlNodeType.Whitespace | XmlNodeType.Comment
  | XmlNodeType.EndElement => true
  | _ => false
  end.

(** The text from the current position up to the next element start or end:
    text and white space concatenated, comments passed over.  The reader is
    left on the node that ended the content. *)
Fixpoint content (reader : t) : string * t :=
  match reader with
  | [] => (EmptyString, [])
  | n :: rest =>
      match node_NodeType n with
      | XmlNodeType.Text | XmlNodeType.Whitespace =>
          let (s, reader') := content rest in
          (append (node_Value n) s, reader')
      | XmlNodeType.Comment => content rest
      | _ => (EmptyString, reader)
      end
  end.

Definition ReadContentAsString (reader : t) : Completion (string * t) :=
  if CanReadContentAs (NodeType reader)
  then Returns (content reader)
  else Throws InvalidOperationException.

(** [ReadContentAsBoolean], [ReadContentAsLong], [ReadContentAsDouble]: the
    content converted by the given conversion of [XmlConvert]; text that
    does not convert raises a format fault. *)
Definition ReadContentAs {A : Type} (convert : string -> option A)
  (reader : t) : Completion (A * t) :=
  '(text, reader') <- ReadContentAsString reader ;;
  match convert text with
  | Some a => Returns (a, reader')
  | Datatypes.None => Throws FormatException
  end.

End XmlReader.

Module XmlWriter.

Record t : Type := mk {
  openElements : list (XmlNode * list XmlNode);
  written : list XmlNode
}.

Definition empty : t := mk [] [].

(** Nodes added at the current position: inside the innermost open element,
    or at the top level of the document. *)
Definition emit (nodes : list XmlNode) (writer : t) : t :=
  match openElements writer with
  | [] => mk [] (written writer ++ nodes)
  | (start, inside) :: outer =>
      mk ((start, inside ++ nodes) :: outer) (written writer)
  end.

Definition qualified (prefix : option string) (localName : string) : string :=
  match prefix with
  | Some (String c p) => append (String c p) (append ":" localName)
  | _ => localName
  end.

Definition startNode (prefix : option string) (localName : string)
  (ns : option string) : XmlNode :=
  mkNode XmlNodeType.Element (qualified prefix localName) localName
    (match ns with Some uri => uri | Datatypes.None => EmptyString end)
    false EmptyString.

Definition endNode (start : XmlNode) : XmlNode :=
  mkNode XmlNodeType.EndElement (node_Name start) (node_LocalName start)
    (node_NamespaceURI start) false EmptyString.

Definition emptyNode (start : XmlNode) : XmlNode :=
  mkNode XmlNodeType.Element (node_Name start) (node_LocalName start)
    (node_NamespaceURI start) true EmptyString.

(** What a reader sees of an element that was started, filled with
    [inside] and ended.  [WriteEndElement], unlike [WriteFullEndElement],
    closes an element in which nothing was written in the short form
    [<e />]; otherwise there are a start tag, the content and an end
    tag. *)
Definition element (start : XmlNode) (inside : list XmlNode) : list XmlNode :=
  match inside with
  | [] => [emptyNode start]
  | _ => start :: inside ++ [endNode start]
  end.

(** A prefix needs a namespace to be bound to. *)
Definition WriteStartElement (prefix : option string) (localName : string)
  (ns : option string) (writer : t) : Completion t :=
  match prefix, ns with
  | Some (String _ _), Datatypes.None
  | Some (String _ _), Some EmptyString => Throws ArgumentException
  | _, _ =>
      Returns (mk ((startNode prefix localName ns, []) :: openElements writer)
                 (written writer))
  end.

Definition WriteEndElement (writer : t) : Completion t :=
  match openElements writer with
  | [] => Throws InvalidOperationException
  | (start, inside) :: outer =>
      Returns (emit (element start inside) (mk outer (written writer)))
  end.

Definition is_white_space (c : ascii) : bool :=
  Ascii.eqb c " " || Ascii.eqb c TAB || Ascii.eqb c NEWLINE
  || Ascii.eqb c CARRIAGE_RETURN.

Definition textNode (text : string) : XmlNode :=
  mkNode (if Reporting.all_chars is_white_space text
          then XmlNodeType.Whitespace else XmlNodeType.Text)
    EmptyString EmptyString EmptyString false text.

(** Character data; also what [WriteValue] and [WriteBase64] come down to
    once the value has its text.  The empty text leaves nothing in the
    document, and no node for the reader. *)
Definition WriteString (text : string) (writer : t) : Completion t :=
  match text with
  | EmptyString => Returns writer
  | _ => Returns (emit [textNode text] writer)
  end.

End XmlWriter.


(** ** Xmlization *)

Module Xmlization.

Import Reporting.
Import intermediate.

#[local] Set Warnings "-register-all".

Definition Error : Type := Reporting.Error Cause.

(** [System.Xml.XmlConvert], as the reader and the writer use it for typed
    content.  Floating point is not modelled: [double] is any type with a
    text form. *)
Record XmlConvert (double : Type) : Type := mkXmlConvert {
  ToString_bool : bool -> string;
  ToBoolean : string -> option bool;
  ToString_long : Z -> string;
  ToInt64 : string -> option Z;
  ToString_double : double -> string;
  ToDouble : string -> option double;
  ToBase64String : list Byte.byte -> string;
  FromBase64String : string -> option (list Byte.byte)
}.

(** [aas_core_codegen.naming], which is not among the sources: the element
    names of a property and of a class. *)
Record Naming : Type := mkNaming {
  xml_property : Identifier -> string;
  xml_class_name : Identifier -> string
}.

Section Generated.

Variable double : Type.
Variable convert : XmlConvert double.
Variable naming : Naming.
Variable symbol_table : SymbolTable.

(** *** Instances of the meta-model

    [VObject cls fields] is an instance of the emitted class [cls] with the
    values of its properties in the order of their declaration; [None] is
    [null]. *)

Inductive Value : Type :=
| VBool (b : bool)
| VLong (z : Z)
| VDouble (d : double)
| VString (s : string)
| VBytes (bytes : list Byte.byte)
| VEnum (enumeration literal : Identifier)
| VList (items : list Value)
| VObject (cls : Identifier) (fields : list (option Value)).

(** What a de-serialization method hands back: the result, the [out]
    parameter [error], and the reader where the method left it. *)
Definition Out : Type := (option Value * option Error * XmlReader.t)%type.

Definition return_null (error : Error) (reader : XmlReader.t)
  : Completion Out :=
  Returns (None, Some error, reader).

(** The temporaries [the_...] of [...FromSequence], one for each property. *)
Definition Temporaries : Type := Identifier -> option Value.

Definition all_null : Temporaries := fun _ => None.

Definition assign (the : Temporaries) (prop : Property)
  (value : option Value) : Temporaries :=
  fun name => if String.eqb name (prop_name prop) then value else the name.

(** How the statements of one [case] of the [switch] end: at [break], with
    the value assigned to the temporary, or at a [return null] with the
    error set. *)
Inductive CaseExit : Type :=
| Break (value : option Value) (reader : XmlReader.t)
| ReturnNull (error : Error) (reader : XmlReader.t).

(** How the part of [...FromSequence] for a non-empty sequence ends: by
    falling out of the [while] loop, or at a [return null]. *)
Inductive LoopExit : Type :=
| LoopDone (the : Temporaries) (reader : XmlReader.t)
| LoopReturnNull (error : Error) (reader : XmlReader.t).

(** *** DeserializeImplementation *)

Fixpoint SkipNoneWhitespaceAndComments (reader : XmlReader.t)
  : XmlReader.t :=
  match reader with
  | [] => []
  | n :: rest =>
      match node_NodeType n with
      | XmlNodeType.None | XmlNodeType.Whitespace | XmlNodeType.Comment =>
          SkipNoneWhitespaceAndComments rest
      | _ => reader
      end
  end.

(** [reader.ReadContentAsBase64(buffer, 0, count)] on content of which
    [pending] is still to be handed out: the bytes read into the buffer and
    what remains pending. *)
Definition ReadContentAsBase64 (count : nat) (pending : list Byte.byte)
  : list Byte.byte * list Byte.byte :=
  (firstn count pending, skipn count pending).

(** The [while] loop of [ReadWholeContentAsBase64]; it is entered again at
    most once for every pending byte and once more. *)
Fixpoint ReadWholeContentAsBase64_loop (rounds : nat)
  (pending stream : list Byte.byte) : list Byte.byte :=
  match rounds with
  | O => stream
  | S rounds' =>
      let (buffer, pending') := ReadContentAsBase64 1024 pending in
      if 0 <? length buffer
      then ReadWholeContentAsBase64_loop rounds' pending' (stream ++ buffer)
      else stream
  end.

Definition ReadWholeContentAsBase64 (reader : XmlReader.t)
  : Completion (list Byte.byte * XmlReader.t) :=
  '(bytes, reader') <-
     XmlReader.ReadContentAs (FromBase64String convert) reader ;;
  Returns (ReadWholeContentAsBase64_loop (S (length bytes)) bytes [],
           reader').

Definition TryElementName (reader : XmlReader.t) (ns : option string)
  : Completion (string * option Error) :=
  match XmlReader.NodeType reader with
  | XmlNodeType.Element | XmlNodeType.EndElement =>
      match ns with
      | None => Returns (XmlReader.Name reader, None)
      | Some ns' =>
          if negb (String.eqb ns' (XmlReader.NamespaceURI reader))
          then Returns (EmptyString,
                        Some (newError (NamespaceMismatch ns'
                                          (XmlReader.NamespaceURI reader))))
          else Returns (XmlReader.LocalName reader, None)
      end
  | _ => Throws InvalidOperationException
  end.

(** The [deserialization_expr] of a primitive type. *)
Definition deserialization_expr (a_type : PrimitiveType)
  (reader : XmlReader.t) : Completion (Value * XmlReader.t) :=
  match a_type with
  | BOOL =>
      '(b, reader') <- XmlReader.ReadContentAs (ToBoolean convert) reader ;;
      Returns (VBool b, reader')
  | INT =>
      '(z, reader') <- XmlReader.ReadContentAs (ToInt64 convert) reader ;;
      Returns (VLong z, reader')
  | FLOAT =>
      '(d, reader') <- XmlReader.ReadContentAs (ToDouble convert) reader ;;
      Returns (VDouble d, reader')
  | STR =>
      '(s, reader') <- XmlReader.ReadContentAsString reader ;;
      Returns (VString s, reader')
  | BYTEARRAY =>
      '(bytes, reader') <- ReadWholeContentAsBase64 reader ;;
      Returns (VBytes bytes, reader')
  end.

Definition name_segment (prop : Property) : Segment :=
  NameSegment (xml_property naming (prop_name prop)).

(** [_generate_deserialize_primitive_property] *)
Definition deserialize_primitive_property (a_type : PrimitiveType)
  (prop : Property) (cls : ConcreteClass) (isEmptyProperty : bool)
  (reader : XmlReader.t) : Completion CaseExit :=
  if isEmptyProperty
  then
    match a_type with
    | STR => Returns (Break (Some (VString EmptyString)) reader)
    | _ =>
        Returns (ReturnNull
                   (PrependSegment (name_segment prop)
                      (newError (NeedsContent (prop_name prop)
                                   (cls_name cls))))
                   reader)
    end
  else
    if XmlReader.EOF reader
    then Returns (ReturnNull
                    (newError (ContentAtEndOfFile (prop_name prop)
                                 (cls_name cls)))
                    reader)
    else
      match deserialization_expr a_type reader with
      | Returns (value, reader') => Returns (Break (Some value) reader')
      | Throws FormatException =>
          Returns (ReturnNull
                     (PrependSegment (name_segment prop)
                        (newError (CouldNotBeDeserialized (prop_name prop)
                                     (cls_name cls))))
                     reader)
      | Throws exception => Throws exception
      | OutOfFuel => OutOfFuel
      | NoGeneratedCode => NoGeneratedCode
      end.

(** Modelled from the spec: the emitted [Stringification] is not among the
    sources; de-serialization of an enumeration looks the literal up by its
    text, and an unknown text gives no literal. *)
Definition FromString (enumeration : Enumeration) (text : string)
  : option Identifier :=
  option_map fst
    (find (fun literal => String.eqb (snd literal) text)
       (literals enumeration)).

(** Modelled from the spec: serialization of an enumeration looks the text
    up by the literal. *)
Definition ToString (enumeration : Enumeration) (literal : Identifier)
  : option string :=
  option_map snd
    (find (fun l => String.eqb (fst l) literal) (literals enumeration)).

(** [_generate_deserialize_enumeration_property] *)
Definition deserialize_enumeration_property (enumeration : Enumeration)
  (prop : Property) (cls : ConcreteClass) (isEmptyProperty : bool)
  (reader : XmlReader.t) : Completion CaseExit :=
  if isEmptyProperty
  then Returns (ReturnNull
                  (PrependSegment (name_segment prop)
                     (newError (NeedsContent (prop_name prop)
                                  (cls_name cls))))
                  reader)
  else
    if XmlReader.EOF reader
    then Returns (ReturnNull
                    (newError (ContentAtEndOfFile (prop_name prop)
                                 (cls_name cls)))
                    reader)
    else
      match XmlReader.ReadContentAsString reader with
      | Returns (text, reader') =>
          match FromString enumeration text with
          | Some literal =>
              Returns (Break (Some (VEnum (enum_name enumeration) literal))
                         reader')
          | None =>
              Returns (ReturnNull
                         (PrependSegment (name_segment prop)
                            (newError (UnexpectedEnumerationLiteral
                                         (prop_name prop) (cls_name cls)
                                         text)))
                         reader')
          end
      | Throws FormatException =>
          Returns (ReturnNull
                     (PrependSegment (name_segment prop)
                        (newError (CouldNotBeDeserialized (prop_name prop)
                                     (cls_name cls))))
                     reader)
      | Throws exception => Throws exception
      | OutOfFuel => OutOfFuel
      | NoGeneratedCode => NoGeneratedCode
      end.

(** The method a list property de-serializes its items with. *)
Inductive ItemMethod : Type :=
| ItemInterface (interface : Interface)
| ItemClass (cls : ConcreteClass).

(** The [...FromElement] of the interface of a symbol.  For an
    implementation-specific symbol the method is a snippet from outside. *)
Definition interface_method (specific : bool) (interface : option Interface)
  : option Interface :=
  if specific then None else interface.

(** The choice of [deserialize_method] in
    [_generate_deserialize_list_property], with its assertion. *)
Definition deserialize_method (items : TypeAnnotation) : option ItemMethod :=
  match items with
  | OurTypeAnnotation symbol =>
      match find_symbol symbol_table symbol with
      | Some (SymAbstractClass a) =>
          option_map ItemInterface
            (interface_method (abstract_is_implementation_specific a)
               (abstract_interface a))
      | Some (SymConcreteClass c) =>
          if 0 <? length (concrete_descendants c)
          then option_map ItemInterface
                 (interface_method (is_implementation_specific c)
                    (interface c))
          else Some (ItemClass c)
      | _ => None
      end
  | _ => None
  end.

(** The assertion of [_generate_serialize_list_property_as_content] on the
    items of a list. *)
Definition items_are_classes (items : TypeAnnotation) : bool :=
  match items with
  | OurTypeAnnotation symbol =>
      match find_symbol symbol_table symbol with
      | Some (SymAbstractClass _) | Some (SymConcreteClass _) => true
      | _ => false
      end
  | _ => false
  end.

(** The chain of [isinstance] tests of [_generate_deserialize_property] and
    of [_generate_serialize_property_as_content] on the type beneath the
    [Optional].  A constrained primitive goes the way of the primitive it
    constrains, which is what [intermediate.try_primitive_type] gives for
    it.  [AsInterface None] is an interface whose [...FromElement] the
    generator does not emit itself. *)
Inductive Dispatch : Type :=
| AsPrimitive (a_type : PrimitiveType)
| AsEnumeration (enumeration : Enumeration)
| AsInterface (interface : option Interface)
| AsClass (cls : ConcreteClass)
| AsList (items : TypeAnnotation)
| Unsupported.

Definition dispatch (type_anno : TypeAnnotation) : Dispatch :=
  match type_anno with
  | PrimitiveTypeAnnotation a_type => AsPrimitive a_type
  | OurTypeAnnotation symbol =>
      match find_symbol symbol_table symbol with
      | Some (SymEnumeration e) => AsEnumeration e
      | Some (SymConstrainedPrimitive c) => AsPrimitive (constrainee c)
      | Some (SymAbstractClass a) =>
          AsInterface
            (interface_method (abstract_is_implementation_specific a)
               (abstract_interface a))
      | Some (SymConcreteClass c) =>
          if 0 <? length (concrete_descendants c)
          then AsInterface
                 (interface_method (is_implementation_specific c)
                    (interface c))
          else AsClass c
      | None => Unsupported
      end
  | ListTypeAnnotation items => AsList items
  | OptionalTypeAnnotation _ => Unsupported
  end.

(** The de-serialization methods call each other; the bodies below take the
    methods they call as arguments, and the knot is tied further down. *)
Section Bodies.

Variable ClsFromSequence :
  ConcreteClass -> XmlReader.t -> bool -> option string -> Completion Out.
Variable ClsFromElement :
  ConcreteClass -> XmlReader.t -> option string -> Completion Out.
Variable InterfaceFromElement :
  Interface -> XmlReader.t -> option string -> Completion Out.

(** [_generate_deserialize_interface_property] *)
Definition deserialize_interface_property (interface : Interface)
  (prop : Property) (cls : ConcreteClass) (elementName : string)
  (isEmptyProperty : bool) (reader : XmlReader.t) (ns : option string)
  : Completion CaseExit :=
  if isEmptyProperty
  then Returns (ReturnNull
                  (newError (SelfClosingInsteadOfElement elementName
                               (prop_name prop) (cls_name cls)))
                  reader)
  else
    if XmlReader.EOF reader
    then Returns (ReturnNull
                    (newError (ElementOfPropertyAtEndOfFile elementName
                                 (prop_name prop) (cls_name cls)))
                    reader)
    else
      '(result, error, reader') <- InterfaceFromElement interface reader ns ;;
      match error with
      | Some e =>
          Returns (ReturnNull (PrependSegment (name_segment prop) e) reader')
      | None => Returns (Break result reader')
      end.

(** [_generate_deserialize_cls_property] *)
Definition deserialize_cls_property (target : ConcreteClass)
  (prop : Property) (isEmptyProperty : bool) (reader : XmlReader.t)
  (ns : option string) : Completion CaseExit :=
  '(result, error, reader') <-
     ClsFromSequence target reader isEmptyProperty ns ;;
  match error with
  | Some e =>
      Returns (ReturnNull (PrependSegment (name_segment prop) e) reader')
  | None => Returns (Break result reader')
  end.

Variable sequence_loop :
  ConcreteClass -> Temporaries -> XmlReader.t -> option string ->
  Completion LoopExit.
Variable list_loop :
  ItemMethod -> Z -> list Value -> XmlReader.t -> option string ->
  Completion CaseExit.

Definition call_item_method (method : ItemMethod) (reader : XmlReader.t)
  (ns : option string) : Completion Out :=
  match method with
  | ItemInterface i => InterfaceFromElement i reader ns
  | ItemClass c => ClsFromElement c reader ns
  end.

(** The [while] loop of [_generate_deserialize_list_property], from its
    test onwards; [the_list] holds the items added so far.  The index is
    an [int]; a list has no more items than an [int] counts, so the index
    does not wrap. *)
Definition list_loop_body (method : ItemMethod) (index : Z)
  (the_list : list Value) (reader : XmlReader.t) (ns : option string)
  : Completion CaseExit :=
  if XmlNodeType.eqb (XmlReader.NodeType reader) XmlNodeType.Element
  then
    '(item, error, reader') <- call_item_method method reader ns ;;
    match error with
    | Some e =>
        Returns (ReturnNull (PrependSegment (IndexSegment index) e) reader')
    | None =>
        match item with
        | None => Throws InvalidOperationException
        | Some value =>
            list_loop method (index + 1)%Z (the_list ++ [value])
              (SkipNoneWhitespaceAndComments reader') ns
        end
    end
  else Returns (Break (Some (VList the_list)) reader).

(** [_generate_deserialize_list_property] *)
Definition deserialize_list_property (items : TypeAnnotation)
  (isEmptyProperty : bool) (reader : XmlReader.t) (ns : option string)
  : Completion CaseExit :=
  match deserialize_method items with
  | None => NoGeneratedCode
  | Some method =>
      if negb isEmptyProperty
      then list_loop method 0%Z []
             (SkipNoneWhitespaceAndComments reader) ns
      else Returns (Break (Some (VList [])) reader)
  end.

(** [_generate_deserialize_property]: the statements of the [case] of
    [prop]. *)
Definition deserialize_property (prop : Property) (cls : ConcreteClass)
  (elementName : string) (isEmptyProperty : bool) (reader : XmlReader.t)
  (ns : option string) : Completion CaseExit :=
  match dispatch (beneath_optional (prop_type_annotation prop)) with
  | AsPrimitive a_type =>
      deserialize_primitive_property a_type prop cls isEmptyProperty reader
  | AsEnumeration enumeration =>
      deserialize_enumeration_property enumeration prop cls isEmptyProperty
        reader
  | AsInterface (Some interface) =>
      deserialize_interface_property interface prop cls elementName
        isEmptyProperty reader ns
  | AsInterface None => NoGeneratedCode
  | AsClass target =>
      deserialize_cls_property target prop isEmptyProperty reader ns
  | AsList items => deserialize_list_property items isEmptyProperty reader ns
  | Unsupported => NoGeneratedCode
  end.

(** The [case] label that matches [elementName], if any; [None] is the
    [default] label. *)
Definition case_of (cls : ConcreteClass) (elementName : string)
  : option Property :=
  find (fun prop =>
          String.eqb (xml_property naming (prop_name prop)) elementName)
    (properties cls).

(** The end of one round of the [while] loop of [...FromSequence], after the
    [switch]: the end element of a property that was not self-closing. *)
Definition read_end_of_property (cls : ConcreteClass) (elementName : string)
  (isEmptyProperty : bool) (reader : XmlReader.t) (ns : option string)
  : Completion (option Error * XmlReader.t) :=
  let reader := SkipNoneWhitespaceAndComments reader in
  if negb isEmptyProperty
  then
    if XmlReader.EOF reader
    then Returns (Some (newError (PropertyEndAtEndOfFile (cls_name cls)
                                    elementName)), reader)
    else
      if negb (XmlNodeType.eqb (XmlReader.NodeType reader)
                 XmlNodeType.EndElement)
      then Returns (Some (newError (PropertyEndUnexpectedNode (cls_name cls)
                                      elementName
                                      (XmlReader.NodeType reader)
                                      (XmlReader.Value reader))), reader)
      else
        '(endElementName, error) <- TryElementName reader ns ;;
        match error with
        | Some e => Returns (Some e, reader)
        | None =>
            if negb (String.eqb endElementName elementName)
            then Returns (Some (newError (PropertyEndMismatch (cls_name cls)
                                            elementName
                                            (XmlReader.Name reader))),
                          reader)
            else Returns (None,
                          SkipNoneWhitespaceAndComments
                            (XmlReader.Read reader))
        end
  else Returns (None, reader).

(** The [while] loop of [...FromSequence], from its test onwards. *)
Definition sequence_loop_body (cls : ConcreteClass) (the : Temporaries)
  (reader : XmlReader.t) (ns : option string) : Completion LoopExit :=
  if XmlNodeType.eqb (XmlReader.NodeType reader) XmlNodeType.Element
  then
    '(elementName, error) <- TryElementName reader ns ;;
    match error with
    | Some e => Returns (LoopReturnNull e reader)
    | None =>
        let isEmptyProperty := XmlReader.IsEmptyElement reader in
        let reader := XmlReader.Read reader in
        match case_of cls elementName with
        | None =>
            Returns (LoopReturnNull
                       (newError (UnexpectedProperty (cls_name cls)
                                    elementName))
                       reader)
        | Some prop =>
            exit <- deserialize_property prop cls elementName
                      isEmptyProperty reader ns ;;
            match exit with
            | ReturnNull e reader => Returns (LoopReturnNull e reader)
            | Break value reader =>
                let the := assign the prop value in
                '(error, reader) <- read_end_of_property cls elementName
                                      isEmptyProperty reader ns ;;
                match error with
                | Some e => Returns (LoopReturnNull e reader)
                | None =>
                    if XmlReader.EOF reader
                    then Returns (LoopDone the reader)
                    else sequence_loop cls the reader ns
                end
            end
        end
    end
  else Returns (LoopDone the reader).

(** The block [if (!isEmptySequence) { ... }] of [...FromSequence]. *)
Definition read_sequence (cls : ConcreteClass) (reader : XmlReader.t)
  (isEmptySequence : bool) (ns : option string) : Completion LoopExit :=
  if negb isEmptySequence
  then
    let reader := SkipNoneWhitespaceAndComments reader in
    if XmlReader.EOF reader
    then Returns (LoopReturnNull
                    (newError (PropertyAtEndOfFile (cls_name cls))) reader)
    else sequence_loop cls all_null reader ns
  else Returns (LoopDone all_null reader).

(** The first property, in the order of declaration, whose check
    [if (the_... == null)] is emitted and fires. *)
Definition first_missing (cls : ConcreteClass) (the : Temporaries)
  : option Property :=
  find (fun prop =>
          negb (is_optional (prop_type_annotation prop))
          && match the (prop_name prop) with None => true | Some _ => false end)
    (properties cls).

Definition names_coincide (cls : ConcreteClass) : bool :=
  forallb (fun prop =>
             existsb (fun arg => String.eqb (arg_name arg) (prop_name prop))
               (constructor_arguments cls))
    (properties cls)
  && forallb (fun arg =>
                existsb (fun prop =>
                           String.eqb (arg_name arg) (prop_name prop))
                  (properties cls))
       (constructor_arguments cls).

Definition types_match (cls : ConcreteClass) : bool :=
  forallb (fun arg =>
             match properties_by_name cls (arg_name arg) with
             | None => false
             | Some prop =>
                 type_annotations_equal (arg_type_annotation arg)
                   (prop_type_annotation prop)
                 || type_annotations_equal
                      (beneath_optional (arg_type_annotation arg))
                      (prop_type_annotation prop)
             end)
    (constructor_arguments cls).

(** Modelled from the spec: the emitted constructor is not among the
    sources; it takes one argument for every property and the instance
    holds each argument as the property of the same name. *)
Definition new (cls : ConcreteClass) (the : Temporaries) : Value :=
  VObject (cls_name cls)
    (map (fun prop => the (prop_name prop)) (properties cls)).

(** [_generate_deserialize_impl_cls_from_sequence].  The assertions of the
    generator on the constructor, which make it emit nothing, are placed
    where the statement they guard would stand.  The [?? throw] on the
    argument of a required property cannot fire behind the checks for the
    required properties and is left out. *)
Definition ClsFromSequence_body (cls : ConcreteClass) (reader : XmlReader.t)
  (isEmptySequence : bool) (ns : option string) : Completion Out :=
  if is_implementation_specific cls then NoGeneratedCode
  else
    if length (constructor_arguments cls) =? 0
    then Returns (Some (new cls all_null), None, reader)
    else
      exit <- read_sequence cls reader isEmptySequence ns ;;
      match exit with
      | LoopReturnNull e reader => return_null e reader
      | LoopDone the reader =>
          match first_missing cls the with
          | Some prop =>
              return_null
                (newError (RequiredPropertyMissing (prop_name prop)
                             (cls_name cls)))
                reader
          | None =>
              if names_coincide cls && types_match cls
              then Returns (Some (new cls the), None, reader)
              else NoGeneratedCode
          end
      end.

(** [_generate_deserialize_impl_concrete_cls_from_element] *)
Definition ClsFromElement_body (cls : ConcreteClass) (reader : XmlReader.t)
  (ns : option string) : Completion Out :=
  if is_implementation_specific cls then NoGeneratedCode
  else
    let reader := SkipNoneWhitespaceAndComments reader in
    if XmlReader.EOF reader
    then return_null (newError (InstanceAtEndOfFile (cls_name cls))) reader
    else
      if negb (XmlNodeType.eqb (XmlReader.NodeType reader)
                 XmlNodeType.Element)
      then return_null
             (newError (InstanceUnexpectedNode (cls_name cls)
                          (XmlReader.NodeType reader)
                          (XmlReader.Value reader)))
             reader
      else
        '(elementName, error) <- TryElementName reader ns ;;
        match error with
        | Some e => return_null e reader
        | None =>
            if negb (String.eqb elementName
                       (xml_class_name naming (cls_name cls)))
            then return_null
                   (newError (InstanceElementName (cls_name cls)
                                (xml_class_name naming (cls_name cls))
                                elementName))
                   reader
            else
              let isEmptyElement := XmlReader.IsEmptyElement reader in
              let reader := XmlReader.Read reader in
              '(result, error, reader) <-
                 ClsFromSequence cls reader isEmptyElement ns ;;
              match error with
              | Some e => return_null e reader
              | None =>
                  let reader := SkipNoneWhitespaceAndComments reader in
                  if negb isEmptyElement
                  then
                    if XmlReader.EOF reader
                    then return_null
                           (newError (InstanceEndAtEndOfFile (cls_name cls)))
                           reader
                    else
                      if negb (XmlNodeType.eqb (XmlReader.NodeType reader)
                                 XmlNodeType.EndElement)
                      then return_null
                             (newError (InstanceEndUnexpectedNode
                                          (cls_name cls)
                                          (XmlReader.NodeType reader)
                                          (XmlReader.Value reader)))
                             reader
                      else
                        '(endElementName, error) <-
                           TryElementName reader ns ;;
                        match error with
                        | Some e => return_null e reader
                        | None =>
                            if negb (String.eqb endElementName elementName)
                            then return_null
                                   (newError (InstanceEndMismatch elementName
                                                endElementName))
                                   reader
                            else Returns (result, None,
                                          XmlReader.Read reader)
                        end
                  else Returns (result, None, reader)
              end
        end.

(** [_generate_deserialize_impl_interface_from_element] *)
Definition InterfaceFromElement_body (interface : Interface)
  (reader : XmlReader.t) (ns : option string) : Completion Out :=
  let reader := SkipNoneWhitespaceAndComments reader in
  if XmlReader.EOF reader
  then return_null (newError ElementAtEndOfFile) reader
  else
    if negb (XmlNodeType.eqb (XmlReader.NodeType reader) XmlNodeType.Element)
    then return_null
           (newError (ElementUnexpectedNode (XmlReader.NodeType reader)
                        (XmlReader.Value reader)))
           reader
    else
      '(elementName, error) <- TryElementName reader ns ;;
      match error with
      | Some e => return_null e reader
      | None =>
          match find (fun implementer =>
                        String.eqb (xml_class_name naming implementer)
                          elementName)
                  (implementers interface) with
          | Some implementer =>
              match find_concrete_class symbol_table implementer with
              | Some cls => ClsFromElement cls reader ns
              | None => NoGeneratedCode
              end
          | None => return_null (newError (UnexpectedElement elementName))
                      reader
          end
      end.

End Bodies.

(** The methods of [DeserializeImplementation].  [fuel] bounds the depth of
    the calls and the rounds of the loops. *)
Fixpoint ClsFromSequence (fuel : nat) (cls : ConcreteClass)
  (reader : XmlReader.t) (isEmptySequence : bool) (ns : option string)
  {struct fuel} : Completion Out :=
  match fuel with
  | O => OutOfFuel
  | S fuel' =>
      ClsFromSequence_body (sequence_loop fuel') cls reader isEmptySequence ns
  end
with sequence_loop (fuel : nat) (cls : ConcreteClass) (the : Temporaries)
  (reader : XmlReader.t) (ns : option string) {struct fuel}
  : Completion LoopExit :=
  match fuel with
  | O => OutOfFuel
  | S fuel' =>
      sequence_loop_body (ClsFromSequence fuel') (InterfaceFromElement fuel')
        (sequence_loop fuel') (list_loop fuel') cls the reader ns
  end
with list_loop (fuel : nat) (method : ItemMethod) (index : Z)
  (the_list : list Value) (reader : XmlReader.t) (ns : option string)
  {struct fuel} : Completion CaseExit :=
  match fuel with
  | O => OutOfFuel
  | S fuel' =>
      list_loop_body (ClsFromElement fuel') (InterfaceFromElement fuel')
        (list_loop fuel') method index the_list reader ns
  end
with ClsFromElement (fuel : nat) (cls : ConcreteClass)
  (reader : XmlReader.t) (ns : option string) {struct fuel}
  : Completion Out :=
  match fuel with
  | O => OutOfFuel
  | S fuel' => ClsFromElement_body (ClsFromSequence fuel') cls reader ns
  end
with InterfaceFromElement (fuel : nat) (interface : Interface)
  (reader : XmlReader.t) (ns : option string) {struct fuel}
  : Completion Out :=
  match fuel with
  | O => OutOfFuel
  | S fuel' =>
      InterfaceFromElement_body (ClsFromElement fuel') interface reader ns
  end.

(** *** Deserialize: the facade

    [_generate_deserialize_from] emits the same method for a class and for
    an interface, around the [...FromElement] of the implementation.  The
    emitted C# [Reporting.GenerateRelativeXPath] is not among the sources;
    [generateRelativeXPath] of the Java generator above renders the same
    segments. *)
Definition deserialize_from (FromElement : Completion Out)
  : Completion (Value * XmlReader.t) :=
  '(result, error, reader) <- FromElement ;;
  match error with
  | Some e =>
      Throws (XmlizationException (generateRelativeXPath (pathSegments e))
                (cause e))
  | None =>
      match result with
      | Some value => Returns (value, reader)
      | None => Throws InvalidOperationException
      end
  end.

Definition ClsFrom (fuel : nat) (cls : ConcreteClass) (reader : XmlReader.t)
  (ns : option string) : Completion (Value * XmlReader.t) :=
  deserialize_from (ClsFromElement fuel cls reader ns).

Definition InterfaceFrom (fuel : nat) (interface : Interface)
  (reader : XmlReader.t) (ns : option string)
  : Completion (Value * XmlReader.t) :=
  deserialize_from (InterfaceFromElement fuel interface reader ns).

(** How the facade answers what the implementation hands back: what the
    statement about the facade says, for any of its instances. *)
Definition facade_answers (implementation : Completion Out)
  (facade : Completion (Value * XmlReader.t)) : Prop :=
  match implementation with
  | Returns (_, Some e, _) =>
      facade
      = Throws (XmlizationException (generateRelativeXPath (pathSegments e))
                  (cause e))
  | Returns (result, None, reader) =>
      exists value, result = Some value /\ facade = Returns (value, reader)
  | Throws exception => facade = Throws exception
  | OutOfFuel => facade = OutOfFuel
  | NoGeneratedCode => facade = NoGeneratedCode
  end.

(** *** WrappedXmlWriter *)

Record WrappedXmlWriter : Type := mkWrapped {
  _writer : XmlWriter.t;
  _prefix : option string;
  _ns : option string
}.

Definition on_writer (f : XmlWriter.t -> Completion XmlWriter.t)
  (writer : WrappedXmlWriter) : Completion WrappedXmlWriter :=
  w <- f (_writer writer) ;;
  Returns (mkWrapped w (_prefix writer) (_ns writer)).

Definition WriteStartElement (localName : string)
  (writer : WrappedXmlWriter) : Completion WrappedXmlWriter :=
  on_writer (XmlWriter.WriteStartElement (_prefix writer) localName
               (_ns writer))
    writer.

Definition WriteEndElement (writer : WrappedXmlWriter)
  : Completion WrappedXmlWriter :=
  on_writer XmlWriter.WriteEndElement writer.

(** [WriteValue(bool)], [WriteValue(long)], [WriteValue(double)]: the text
    form of the value as character data. *)
Definition WriteValue_bool (value : bool) :=
  on_writer (XmlWriter.WriteString (ToString_bool convert value)).

Definition WriteValue_long (value : Z) :=
  on_writer (XmlWriter.WriteString (ToString_long convert value)).

Definition WriteValue_double (value : double) :=
  on_writer (XmlWriter.WriteString (ToString_double convert value)).

(** [WriteValue(string?)]: [null] writes nothing. *)
Definition WriteValue_string (value : option string) :=
  on_writer (match value with
             | Some text => XmlWriter.WriteString text
             | None => fun w => Returns w
             end).

Definition WriteBase64 (buffer : list Byte.byte) :=
  on_writer (XmlWriter.WriteString (ToBase64String convert buffer)).

(** *** VisitorWithWriter

    The values of the embedding are untyped.  Where C# would not let a
    value of the wrong type reach a statement, the embedding throws
    [InvalidCastException]. *)

(** [writer.WriteValue(that.Prop)] and [writer.WriteBase64(that.Prop)] of
    [_generate_serialize_primitive_property_as_content]. *)
Definition write_primitive (a_type : PrimitiveType) (field : option Value)
  (writer : WrappedXmlWriter) : Completion WrappedXmlWriter :=
  match a_type, field with
  | BOOL, Some (VBool b) => WriteValue_bool b writer
  | INT, Some (VLong z) => WriteValue_long z writer
  | FLOAT, Some (VDouble d) => WriteValue_double d writer
  | STR, Some (VString s) => WriteValue_string (Some s) writer
  | STR, None => WriteValue_string None writer
  | BYTEARRAY, Some (VBytes buffer) => WriteBase64 buffer writer
  | BYTEARRAY, None => Throws NullReferenceException
  | _, _ => Throws InvalidCastException
  end.

Definition is_null (field : option Value) : bool :=
  match field with None => true | Some _ => false end.

(** A block wrapped in [if (that.Prop != null)] (or [HasValue]) when the
    type of the property is optional. *)
Definition unless_optional_and_null (prop : Property) (field : option Value)
  (block : WrappedXmlWriter -> Completion WrappedXmlWriter)
  (writer : WrappedXmlWriter) : Completion WrappedXmlWriter :=
  if is_optional (prop_type_annotation prop) && is_null field
  then Returns writer
  else block writer.

(** A block between [WriteStartElement] of the property and
    [WriteEndElement]. *)
Definition in_property_element (prop : Property)
  (block : WrappedXmlWriter -> Completion WrappedXmlWriter)
  (writer : WrappedXmlWriter) : Completion WrappedXmlWriter :=
  w <- WriteStartElement (xml_property naming (prop_name prop)) writer ;;
  w <- block w ;;
  WriteEndElement w.

(** [_generate_serialize_primitive_property_as_content] *)
Definition serialize_primitive_property_as_content (a_type : PrimitiveType)
  (prop : Property) (field : option Value) :=
  unless_optional_and_null prop field
    (in_property_element prop (write_primitive a_type field)).

(** [_generate_serialize_enumeration_property_as_content] *)
Definition serialize_enumeration_property_as_content
  (enumeration : Enumeration) (prop : Property) (field : option Value) :=
  unless_optional_and_null prop field
    (in_property_element prop
       (fun w =>
          match field with
          | Some (VEnum e literal) =>
              if String.eqb e (enum_name enumeration)
              then match ToString enumeration literal with
                   | Some text => WriteValue_string (Some text) w
                   | None => Throws ArgumentException
                   end
              else Throws InvalidCastException
          | _ => Throws InvalidCastException
          end)).

Section Bodies.

Variable Visit :
  option Value -> WrappedXmlWriter -> Completion WrappedXmlWriter.
Variable ClsToSequence :
  ConcreteClass -> option Value -> WrappedXmlWriter ->
  Completion WrappedXmlWriter.

(** [_generate_serialize_interface_property_as_content] *)
Definition serialize_interface_property_as_content (prop : Property)
  (field : option Value) :=
  unless_optional_and_null prop field
    (in_property_element prop (Visit field)).

(** [_generate_serialize_concrete_class_property_as_sequence] *)
Definition serialize_concrete_class_property_as_sequence
  (target : ConcreteClass) (prop : Property) (field : option Value) :=
  unless_optional_and_null prop field
    (in_property_element prop (ClsToSequence target field)).

(** [foreach (var item in that.Prop) { this.Visit(item, writer); }] *)
Fixpoint foreach_Visit (items : list Value) (writer : WrappedXmlWriter)
  : Completion WrappedXmlWriter :=
  match items with
  | [] => Returns writer
  | item :: rest =>
      w <- Visit (Some item) writer ;;
      foreach_Visit rest w
  end.

(** [_generate_serialize_list_property_as_content] *)
Definition serialize_list_property_as_content (items : TypeAnnotation)
  (prop : Property) (field : option Value) :=
  if items_are_classes items
  then
    unless_optional_and_null prop field
      (in_property_element prop
         (fun w =>
            match field with
            | Some (VList the_list) => foreach_Visit the_list w
            | None => Throws NullReferenceException
            | _ => Throws InvalidCastException
            end))
  else fun _ => NoGeneratedCode.

(** [_generate_serialize_property_as_content] *)
Definition serialize_property_as_content (prop : Property)
  (field : option Value) (writer : WrappedXmlWriter)
  : Completion WrappedXmlWriter :=
  match dispatch (beneath_optional (prop_type_annotation prop)) with
  | AsPrimitive a_type =>
      serialize_primitive_property_as_content a_type prop field writer
  | AsEnumeration enumeration =>
      serialize_enumeration_property_as_content enumeration prop field writer
  | AsInterface _ => serialize_interface_property_as_content prop field writer
  | AsClass target =>
      serialize_concrete_class_property_as_sequence target prop field writer
  | AsList items => serialize_list_property_as_content items prop field writer
  | Unsupported => NoGeneratedCode
  end.

(** The blocks of [_generate_class_to_sequence], one for every property in
    the order of declaration, each on the value of its property. *)
Fixpoint serialize_properties (props : list Property)
  (fields : list (option Value)) (writer : WrappedXmlWriter)
  : Completion WrappedXmlWriter :=
  match props, fields with
  | [], _ => Returns writer
  | prop :: props', field :: fields' =>
      w <- serialize_property_as_content prop field writer ;;
      serialize_properties props' fields' w
  | _ :: _, [] => Throws InvalidCastException
  end.

(** [_generate_class_to_sequence] *)
Definition ClsToSequence_body (cls : ConcreteClass) (that : option Value)
  (writer : WrappedXmlWriter) : Completion WrappedXmlWriter :=
  if is_implementation_specific cls then NoGeneratedCode
  else
    match that with
    | Some (VObject name fields) =>
        if String.eqb name (cls_name cls)
        then serialize_properties (properties cls) fields writer
        else Throws InvalidCastException
    | None =>
        match properties cls with
        | [] => Returns writer
        | _ => Throws NullReferenceException
        end
    | _ => Throws InvalidCastException
    end.

(** [_generate_visit_for_class], reached from [Visit(IClass, writer)] by the
    double dispatch on the class of [that]. *)
Definition Visit_body (that : option Value) (writer : WrappedXmlWriter)
  : Completion WrappedXmlWriter :=
  match that with
  | Some (VObject name fields) =>
      match find_concrete_class symbol_table name with
      | Some cls =>
          if is_implementation_specific cls then NoGeneratedCode
          else
            w <- WriteStartElement (xml_class_name naming (cls_name cls))
                   writer ;;
            w <- ClsToSequence cls that w ;;
            WriteEndElement w
      | None => Throws InvalidCastException
      end
  | None => Throws NullReferenceException
  | _ => Throws InvalidCastException
  end.

End Bodies.

Fixpoint Visit (fuel : nat) (that : option Value) (writer : WrappedXmlWriter)
  {struct fuel} : Completion WrappedXmlWriter :=
  match fuel with
  | O => OutOfFuel
  | S fuel' => Visit_body (ClsToSequence fuel') that writer
  end
with ClsToSequence (fuel : nat) (cls : ConcreteClass) (that : option Value)
  (writer : WrappedXmlWriter) {struct fuel} : Completion WrappedXmlWriter :=
  match fuel with
  | O => OutOfFuel
  | S fuel' =>
      ClsToSequence_body (Visit fuel') (ClsToSequence fuel') cls that writer
  end.

(** *** Serialize *)

Definition To (fuel : nat) (that : Value) (writer : XmlWriter.t)
  (prefix ns : option string) : Completion XmlWriter.t :=
  w <- Visit fuel (Some that) (mkWrapped writer prefix ns) ;;
  Returns (_writer w).

(** *** Valid instances and schemas

    None of this is emitted code: these are the conditions under which the
    statements below speak of an instance of a class. *)

(** A reader freshly created over a document stands before its first
    node. *)
Definition Create (document : list XmlNode) : XmlReader.t :=
  mkNode XmlNodeType.None EmptyString EmptyString EmptyString false
    EmptyString
  :: document.

Fixpoint forall2b {A B : Type} (f : A -> B -> bool) (la : list A)
  (lb : list B) : bool :=
  match la, lb with
  | [], [] => true
  | a :: la', b :: lb' => f a b && forall2b f la' lb'
  | _, _ => false
  end.

Fixpoint nodupb (names : list string) : bool :=
  match names with
  | [] => true
  | name :: rest => negb (existsb (String.eqb name) rest) && nodupb rest
  end.

Definition valid_primitive (a_type : PrimitiveType) (value : Value) : bool :=
  match a_type, value with
  | BOOL, VBool _ | INT, VLong _ | FLOAT, VDouble _ | STR, VString _
  | BYTEARRAY, VBytes _ => true
  | _, _ => false
  end.

Section Validity.

Variable valid_object : ConcreteClass -> Value -> bool.

(** An instance of one of the implementers of an interface. *)
Definition valid_implementer (interface : Interface) (value : Value) : bool :=
  match value with
  | VObject name _ =>
      existsb (String.eqb name) (implementers interface)
      && match find_concrete_class symbol_table name with
         | Some cls => valid_object cls value
         | None => false
         end
  | _ => false
  end.

(** The value of a property: [null] only where the type is optional, and
    otherwise a value of the type beneath the [Optional]. *)
Definition valid_property (prop : Property) (field : option Value) : bool :=
  match field with
  | None => is_optional (prop_type_annotation prop)
  | Some value =>
      match dispatch (beneath_optional (prop_type_annotation prop)) with
      | AsPrimitive a_type => valid_primitive a_type value
      | AsEnumeration enumeration =>
          match value with
          | VEnum name literal =>
              String.eqb name (enum_name enumeration)
              && existsb (fun l => String.eqb (fst l) literal)
                   (literals enumeration)
          | _ => false
          end
      | AsInterface (Some interface) => valid_implementer interface value
      | AsInterface None => false
      | AsClass target => valid_object target value
      | AsList items =>
          match value, deserialize_method items with
          | VList the_list, Some (ItemClass cls) =>
              forallb (valid_object cls) the_list
          | VList the_list, Some (ItemInterface interface) =>
              forallb (valid_implementer interface) the_list
          | _, _ => false
          end
      | Unsupported => false
      end
  end.

End Validity.

(** [that] is an instance of the class [cls], nested at most [depth]
    deep. *)
Fixpoint valid_object (depth : nat) (cls : ConcreteClass) (that : Value)
  {struct depth} : bool :=
  match depth with
  | O => false
  | S depth' =>
      match that with
      | VObject name fields =>
          String.eqb name (cls_name cls)
          && forall2b (valid_property (valid_object depth')) (properties cls)
               fields
      | _ => false
      end
  end.

(** No byte array anywhere in the instance is empty. *)
Fixpoint no_empty_bytes (value : Value) : bool :=
  match value with
  | VBytes [] => false
  | VList the_list => forallb no_empty_bytes the_list
  | VObject _ fields =>
      forallb (fun field =>
                 match field with
                 | Some v => no_empty_bytes v
                 | None => true
                 end)
        fields
  | _ => true
  end.

Definition wf_interface (interface : option Interface) : bool :=
  match interface with
  | None => true
  | Some i =>
      nodupb (map (xml_class_name naming) (implementers i))
      && forallb (fun implementer =>
                    match find_concrete_class symbol_table implementer with
                    | Some _ => true
                    | None => false
                    end)
           (implementers i)
  end.

Definition wf_property (prop : Property) : bool :=
  match dispatch (beneath_optional (prop_type_annotation prop)) with
  | AsInterface None | Unsupported => false
  | AsList items =>
      match deserialize_method items with
      | Some _ => true
      | None => false
      end
  | _ => true
  end.

(** The conditions on a symbol under which the generator emits code for it
    and the emitted code compiles: distinct [case] labels, the assertions
    of the generator on the constructor, texts of enumeration literals that
    are distinct and not empty. *)
Definition wf_symbol (symbol : Symbol) : bool :=
  match symbol with
  | SymEnumeration e =>
      nodupb (map snd (literals e))
      && forallb (fun l => negb (String.eqb (snd l) EmptyString)) (literals e)
  | SymConstrainedPrimitive _ => true
  | SymAbstractClass a => wf_interface (abstract_interface a)
  | SymConcreteClass c =>
      negb (is_implementation_specific c)
      && nodupb (map prop_name (properties c))
      && nodupb (map (fun prop => xml_property naming (prop_name prop))
                   (properties c))
      && names_coincide c && types_match c
      && forallb wf_property (properties c)
      && wf_interface (interface c)
  end.

Definition wf_symbol_table : bool := forallb wf_symbol symbol_table.

(** What the reader gives back of what the writer was given: a value
    written as content reads back as the same value, and has a text. *)
Definition Lossless : Prop :=
  (forall b, ToBoolean convert (ToString_bool convert b) = Some b
             /\ ToString_bool convert b <> EmptyString)
  /\ (forall z, ToInt64 convert (ToString_long convert z) = Some z
                /\ ToString_long convert z <> EmptyString)
  /\ (forall d, ToDouble convert (ToString_double convert d) = Some d
                /\ ToString_double convert d <> EmptyString)
  /\ (forall bytes,
        FromBase64String convert (ToBase64String convert bytes) = Some bytes
        /\ (bytes <> [] -> ToBase64String convert bytes <> EmptyString)).

(** *** Vocabulary of the round trip *)

(** The temporaries after the elements of the properties [props] with the
    values [fields] have been read: a property that is [null] has no
    element. *)
Fixpoint assign_all (the : Temporaries) (props : list Property)
  (fields : list (option Value)) : Temporaries :=
  match props, fields with
  | prop :: props', Some value :: fields' =>
      assign_all (assign the prop (Some value)) props' fields'
  | _ :: props', None :: fields' => assign_all the props' fields'
  | _, _ => the
  end.

(** Nodes that begin, if there are any, with the start of an element. *)
Definition elements (nodes : list XmlNode) : Prop :=
  match nodes with
  | [] => True
  | node :: _ => node_NodeType node = XmlNodeType.Element
  end.

(** A reader that stands at a node the de-serializer does not skip. *)
Definition settled (reader : XmlReader.t) : Prop :=
  SkipNoneWhitespaceAndComments reader = reader.

Definition is_nil {A : Type} (l : list A) : bool :=
  match l with [] => true | _ => false end.

(** A class of the symbol table: the class found under its own name. *)
Definition in_table (cls : ConcreteClass) : Prop :=
  find_concrete_class symbol_table (cls_name cls) = Some cls.

(** The wrapped writer over [writer], with the prefix and the namespace. *)
Definition after_emit (prefix ns : option string) (nodes : list XmlNode)
  (writer : XmlWriter.t) : Completion WrappedXmlWriter :=
  Returns (mkWrapped (XmlWriter.emit nodes writer) prefix ns).

(** The nodes of character data: none for the empty text. *)
Definition text_nodes (text : string) : list XmlNode :=
  match text with
  | EmptyString => []
  | _ => [XmlWriter.textNode text]
  end.

(** A block of the serializer that, whatever was written before, adds
    [nodes] at the current position. *)
Definition writes (prefix ns : option string)
  (block : WrappedXmlWriter -> Completion WrappedXmlWriter)
  (nodes : list XmlNode) : Prop :=
  forall writer,
    block (mkWrapped writer prefix ns) = after_emit prefix ns nodes writer.

(** What follows the content [inside] of an element in the reader: the end
    of the element, unless the element is self-closing. *)
Definition closing (start : XmlNode) (inside : list XmlNode)
  (rest : XmlReader.t) : XmlReader.t :=
  match inside with
  | [] => rest
  | _ => XmlWriter.endNode start :: rest
  end.

(** The properties of [that] written as a sequence and read back. *)
Definition sequence_round_trip (prefix ns : option string)
  (cls : ConcreteClass) (that : Value) : Prop :=
  exists inside fuel0,
    elements inside
    /\ (forall fuel, fuel0 <= fuel ->
        writes prefix ns (ClsToSequence fuel cls (Some that)) inside)
    /\ (forall fuel rest,
          fuel0 <= fuel ->
          settled rest ->
          (inside <> [] ->
           XmlReader.NodeType rest <> XmlNodeType.Element) ->
          ClsFromSequence fuel cls (inside ++ rest) (is_nil inside) ns
          = Returns (Some that, None, rest)).

(** [that] written as an element and read back. *)
Definition element_round_trip (prefix ns : option string)
  (cls : ConcreteClass) (that : Value) : Prop :=
  exists inside fuel0,
    let nodes :=
      XmlWriter.element
        (XmlWriter.startNode prefix (xml_class_name naming (cls_name cls)) ns)
        inside in
    (forall fuel, fuel0 <= fuel ->
                  writes prefix ns (Visit fuel (Some that)) nodes)
    /\ (forall fuel rest,
          fuel0 <= fuel ->
          settled rest ->
          ClsFromElement fuel cls (nodes ++ rest) ns
          = Returns (Some that, None, rest)).

(** An item of a list written as an element and read back by the method
    of the list. *)
Definition item_round_trip (prefix ns : option string) (method : ItemMethod)
  (item : Value) : Prop :=
  exists nodes fuel0,
    nodes <> [] /\ elements nodes
    /\ (forall fuel, fuel0 <= fuel ->
                     writes prefix ns (Visit fuel (Some item)) nodes)
    /\ (forall fuel rest,
          fuel0 <= fuel ->
          settled rest ->
          call_item_method (ClsFromElement fuel) (InterfaceFromElement fuel)
            method (nodes ++ rest) ns
          = Returns (Some item, None, rest)).

(** The items of a list written one after the other and read back by the
    loop of the list, which had read [the_list] before. *)
Definition items_round_trip (prefix ns : option string) (method : ItemMethod)
  (items : list Value) : Prop :=
  exists nodes fuel0,
    elements nodes /\ (nodes = [] -> items = [])
    /\ (forall fuel, fuel0 <= fuel ->
                     writes prefix ns (foreach_Visit (Visit fuel) items) nodes)
    /\ (forall fuel rest index the_list,
          fuel0 <= fuel ->
          settled rest ->
          XmlReader.NodeType rest <> XmlNodeType.Element ->
          list_loop fuel method index the_list (nodes ++ rest) ns
          = Returns (Break (Some (VList (the_list ++ items))) rest)).

(** The value of a property written as the element of the property and its
    content read back by the [case] of the property. *)
Definition property_round_trip (prefix ns : option string)
  (cls : ConcreteClass) (prop : Property) (value : Value) : Prop :=
  exists inside fuel0,
    let start :=
      XmlWriter.startNode prefix (xml_property naming (prop_name prop)) ns in
    (forall fuel,
        fuel0 <= fuel ->
        writes prefix ns
          (serialize_property_as_content (Visit fuel) (ClsToSequence fuel)
             prop (Some value))
          (XmlWriter.element start inside))
    /\ (forall fuel rest,
          fuel0 <= fuel ->
          settled rest ->
          deserialize_property (ClsFromSequence fuel)
            (InterfaceFromElement fuel) (list_loop fuel) prop cls
            (xml_property naming (prop_name prop)) (is_nil inside)
            (inside ++ closing start inside rest) ns
          = Returns (Break (Some value) (closing start inside rest))).

(** The values [fields] of the properties [props] written one after the
    other and read back by the loop of the sequence. *)
Definition properties_round_trip (prefix ns : option string)
  (cls : ConcreteClass) (props : list Property)
  (fields : list (option Value)) : Prop :=
  exists inside fuel0,
    elements inside
    /\ (forall fuel,
          fuel0 <= fuel ->
          writes prefix ns
            (serialize_properties (Visit fuel) (ClsToSequence fuel) props
               fields)
            inside)
    /\ (inside = [] -> forall the, assign_all the props fields = the)
    /\ (forall fuel rest the,
          fuel0 <= fuel ->
          settled rest ->
          XmlReader.NodeType rest <> XmlNodeType.Element ->
          sequence_loop fuel cls the (inside ++ rest) ns
          = Returns (LoopDone (assign_all the props fields) rest)).

End Generated.

Arguments VBool {double} b.
Arguments VLong {double} z.
Arguments VDouble {double} d.
Arguments VString {double} s.
Arguments VBytes {double} bytes.
Arguments VEnum {double} enumeration literal.
Arguments VList {double} items.
Arguments VObject {double} cls fields.
Arguments ReturnNull {double} error reader.
Arguments LoopReturnNull {double} error reader.
Arguments return_null {double} error reader.
Arguments all_null {double} _.

(** A prefix is only written together with a namespace. *)
Definition namespace_ok (prefix ns : option string) : bool :=
  match prefix, ns with
  | Some (String _ _), None | Some (String _ _), Some EmptyString => false
  | _, _ => true
  end.

End Xmlization.

(** ** A small meta-model to run the emitted code on *)

Module Example.

Import intermediate Xmlization.

(** Stand-ins for the platform's conversions: [true] and [false], decimal
    numbers, and for byte arrays the characters with the bytes as codes. *)
Definition parse_Z (text : string) : option Z :=
  match NilZero.int_of_string text with
  | Some d => Some (Z.of_int d)
  | None => None
  end.

Definition parse_bool (text : string) : option bool :=
  if String.eqb text "true" then Some true
  else if String.eqb text "false" then Some false
  else None.

Definition convert : XmlConvert Z :=
  mkXmlConvert
    (fun b : bool => if b then "true" else "false")%string
    parse_bool
    Reporting.string_of_Z parse_Z
    Reporting.string_of_Z parse_Z
    string_of_list_byte
    (fun text => Some (list_byte_of_string text)).

Definition naming : Naming := mkNaming (fun name => name) (fun name => name).

Definition a_class (name : Identifier) (props : list Property)
  : ConcreteClass :=
  mkConcreteClass name props
    (map (fun prop => mkArgument (prop_name prop) (prop_type_annotation prop))
       props)
    [] None false.

Definition Named : ConcreteClass :=
  a_class "Named" [mkProperty "name" (PrimitiveTypeAnnotation STR)].

Definition Counted : ConcreteClass :=
  a_class "Counted" [mkProperty "name" (PrimitiveTypeAnnotation INT)].

Definition Blob : ConcreteClass :=
  a_class "Blob" [mkProperty "data" (PrimitiveTypeAnnotation BYTEARRAY)].

Definition Item : ConcreteClass :=
  a_class "Item" [mkProperty "value" (PrimitiveTypeAnnotation INT)].

Definition Container : ConcreteClass :=
  a_class "Container"
    [mkProperty "items" (ListTypeAnnotation (OurTypeAnnotation "Item"))].

Definition Pair : ConcreteClass :=
  a_class "Pair"
    [mkProperty "a" (PrimitiveTypeAnnotation INT);
     mkProperty "b" (PrimitiveTypeAnnotation INT)].

Definition Nothing : ConcreteClass := a_class "Nothing" [].

Definition Circle : ConcreteClass :=
  a_class "Circle" [mkProperty "radius" (PrimitiveTypeAnnotation INT)].

Definition Square : ConcreteClass :=
  a_class "Square" [mkProperty "side" (PrimitiveTypeAnnotation INT)].

Definition Shape : AbstractClass :=
  mkAbstractClass "Shape" (Some (mkInterface "Shape" ["Circle"; "Square"]))
    false.

Definition Kind : Enumeration :=
  mkEnumeration "Kind" [("First", "first"); ("Second", "second")].

Definition Drawing : ConcreteClass :=
  a_class "Drawing"
    [mkProperty "title" (PrimitiveTypeAnnotation STR);
     mkProperty "visible" (PrimitiveTypeAnnotation BOOL);
     mkProperty "layer"
       (OptionalTypeAnnotation (PrimitiveTypeAnnotation INT));
     mkProperty "thumbnail"
       (OptionalTypeAnnotation (PrimitiveTypeAnnotation BYTEARRAY));
     mkProperty "kind" (OurTypeAnnotation "Kind");
     mkProperty "outline" (OurTypeAnnotation "Shape");
     mkProperty "origin" (OptionalTypeAnnotation (OurTypeAnnotation "Pair"));
     mkProperty "marker"
       (OptionalTypeAnnotation (OurTypeAnnotation "Nothing"));
     mkProperty "shapes" (ListTypeAnnotation (OurTypeAnnotation "Shape"));
     mkProperty "items"
       (OptionalTypeAnnotation
          (ListTypeAnnotation (OurTypeAnnotation "Item")))].

Definition symbol_table : SymbolTable :=
  [SymConcreteClass Named; SymConcreteClass Counted; SymConcreteClass Blob;
   SymConcreteClass Item; SymConcreteClass Container; SymConcreteClass Pair;
   SymConcreteClass Nothing; SymConcreteClass Circle; SymConcreteClass Square;
   SymAbstractClass Shape; SymEnumeration Kind; SymConcreteClass Drawing].

(** The nodes of a document without namespace. *)
Definition start (name : string) : XmlNode :=
  XmlWriter.startNode None name None.

Definition self_closing (name : string) : XmlNode :=
  XmlWriter.emptyNode (start name).

Definition close (name : string) : XmlNode := XmlWriter.endNode (start name).

Definition text (content : string) : XmlNode := XmlWriter.textNode content.

Definition FromElement (fuel : nat) (cls : ConcreteClass)
  (document : list XmlNode) : Completion (Out Z) :=
  ClsFromElement convert naming symbol_table fuel cls document None.

Definition From (fuel : nat) (cls : ConcreteClass) (document : list XmlNode)
  : Completion (Value Z * XmlReader.t) :=
  ClsFrom convert naming symbol_table fuel cls document None.

Definition To (fuel : nat) (that : Value Z) : Completion XmlWriter.t :=
  Xmlization.To convert naming symbol_table fuel that XmlWriter.empty None
    None.

(** [<Named><bogus/></Named>] *)
Definition unknown_element : list XmlNode :=
  [start "Named"; self_closing "bogus"; close "Named"].

(** [<Named><name/></Named>] and [<Counted><name/></Counted>] *)
Definition named_self_closing : list XmlNode :=
  [start "Named"; self_closing "name"; close "Named"].

Definition counted_self_closing : list XmlNode :=
  [start "Counted"; self_closing "name"; close "Counted"].

(** [<Blob><data/></Blob>], and the instance it is written for. *)
Definition blob_self_closing : list XmlNode :=
  [start "Blob"; self_closing "data"; close "Blob"].

Definition empty_blob : Value Z := VObject "Blob" [Some (VBytes [])].

(** [<Container><items><Item><value>1</value></Item>
    <Item><value>2</value></Item><Item><value/></Item></items></Container>] *)
Definition third_item_fails : list XmlNode :=
  [start "Container"; start "items";
   start "Item"; start "value"; text "1"; close "value"; close "Item";
   start "Item"; start "value"; text "2"; close "value"; close "Item";
   start "Item"; self_closing "value"; close "Item";
   close "items"; close "Container"].

(** [<Pair><a>1</a>] and then the end of the document. *)
Definition pair_cut_short : list XmlNode :=
  [start "Pair"; start "a"; text "1"; close "a"].

Definition a_drawing : Value Z :=
  VObject "Drawing"
    [Some (VString "plan"); Some (VBool true); None;
     Some (VBytes [Byte.x00; Byte.x01; Byte.x02]);
     Some (VEnum "Kind" "Second");
     Some (VObject "Circle" [Some (VLong 3)]);
     Some (VObject "Pair" [Some (VLong 1); Some (VLong (-2))]);
     Some (VObject "Nothing" []);
     Some (VList [VObject "Square" [Some (VLong 4)];
                  VObject "Circle" [Some (VLong 5)]]);
     Some (VList [])].

(** A meta-model with an enumeration literal whose text is empty. *)
Definition Blank : Enumeration :=
  mkEnumeration "Blank" [("Unset", ""); ("Set", "set")].

Definition Tagged : ConcreteClass :=
  a_class "Tagged" [mkProperty "tag" (OurTypeAnnotation "Blank")].

Definition blank_table : SymbolTable :=
  [SymEnumeration Blank; SymConcreteClass Tagged].

Definition untagged : Value Z := VObject "Tagged" [Some (VEnum "Blank" "Unset")].

End Example.

(** ** A meta-model with a class of optional properties only *)

Module Optionals.

Import intermediate Xmlization Example.

Definition Note : ConcreteClass :=
  a_class "Note"
    [mkProperty "text" (OptionalTypeAnnotation (PrimitiveTypeAnnotation STR));
     mkProperty "items"
       (OptionalTypeAnnotation
          (ListTypeAnnotation (OurTypeAnnotation "Item")))].

Definition symbol_table : SymbolTable :=
  [SymConcreteClass Item; SymConcreteClass Note].

(** The note without text and without items. *)
Definition blank : Value Z := VObject "Note" [None; None].

End Optionals.

(** ** Python, as far as the generators use it

    The generators are Python functions from the symbol table to the text
    of a file.  A Python exception ends a function; [Result] is what a
    call comes to. *)

Module Python.

#[local] Set Warnings "-register-all".

Local Open Scope string_scope.
Local Open Scope nat_scope.

Inductive Raised : Type :=
| AssertionError
(** what a contract of [icontract] raises *)
| ViolationError
(** what a dictionary raises for a key it does not hold *)
| KeyError.

Inductive Result (A : Type) : Type :=
| Ok (a : A)
| Raises (raised : Raised).

Arguments Ok {A} a.
Arguments Raises {A} raised.

Definition and_then {A B : Type} (r : Result A) (k : A -> Result B)
  : Result B :=
  match r with
  | Ok a => k a
  | Raises raised => Raises raised
  end.

Notation "x <~ r ;; k" := (and_then r (fun x => k))
  (at level 61, r at next level, right associativity).
Notation "' pat <~ r ;; k" :=
  (and_then r (fun x => match x with pat => k end))
  (at level 61, pat pattern, r at next level, right associativity).

(** A list comprehension, or a loop that appends one block for every
    element, over a body that may raise. *)
Fixpoint for_each {A B : Type} (body : A -> Result B) (l : list A)
  : Result (list B) :=
  match l with
  | [] => Ok []
  | a :: rest =>
      b <~ body a ;;
      bs <~ for_each body rest ;;
      Ok (b :: bs)
  end.

(** A loop that carries a state from one element to the next. *)
Fixpoint for_state {A S : Type} (body : A -> S -> Result S) (l : list A)
  (state : S) : Result S :=
  match l with
  | [] => Ok state
  | a :: rest =>
      state' <~ body a state ;;
      for_state body rest state'
  end.

(** [common.Error(node, message, underlying)]; the node of the parsed
    source is left out. *)
Inductive Error : Type :=
| mkError (message : string) (underlying : list Error).

Definition nl : string := str1 NEWLINE.

Definition quote : string := str1 DOUBLE_QUOTE.

(** [text.startswith(prefix)] and [text.endswith(suffix)] for one
    character. *)
Definition starts_with (c : ascii) (text : string) : bool :=
  match text with
  | String d _ => Ascii.eqb d c
  | EmptyString => false
  end.

Fixpoint ends_with (c : ascii) (text : string) : bool :=
  match text with
  | EmptyString => false
  | String d EmptyString => Ascii.eqb d c
  | String _ rest => ends_with c rest
  end.

Definition is_None {A : Type} (value : option A) : bool :=
  match value with None => true | Some _ => false end.

End Python.

(** ** The generator of the Java structures

    [aas_core_codegen/java/structure/_generate.py], embedded as it is
    written.  What it calls and is not among the sources is a parameter:
    the naming functions of [java_naming], [java_common.generate_type],
    [java_common.WARNING], the indentations [I] and [II],
    [textwrap.indent], [repr], and the constructor [Stripped], which may
    refuse a text. *)

Module JavaStructure.

Import intermediate Python.

Local Open Scope string_scope.
Local Open Scope nat_scope.

(** What the generator reads of a property, of a method and of a class of
    the intermediate representation.  [specified_for] and the inheritances
    are objects in Python; here they are the names of the classes, which
    are unique in a symbol table, and [specified_for is not cls] compares
    the names. *)
Record Property : Type := mkProperty {
  prop_name : Identifier;
  prop_type_annotation : TypeAnnotation;
  prop_specified_for : Identifier
}.

Record Method : Type := mkMethod {
  method_name : Identifier;
  returns : option TypeAnnotation;
  arguments : list Argument;
  method_specified_for : Identifier
}.

Record Class : Type := mkClass {
  name : Identifier;
  inheritances : list Identifier;
  properties : list Property;
  methods : list Method
}.

Inductive OurType : Type :=
| Enumeration (enumeration_name : Identifier)
| ConstrainedPrimitive (constrained_name : Identifier)
| AbstractClass (cls : Class)
| ConcreteClass (cls : Class).

Section Generator.

(** [java_naming] *)
Variable interface_name : Identifier -> string.
Variable getter_name : Identifier -> string.
Variable setter_name : Identifier -> string.
Variable naming_method_name : Identifier -> string.
Variable argument_name : Identifier -> string.
Variable property_name : Identifier -> string.

(** [java_common] *)
Variable generate_type : TypeAnnotation -> string.
Variable WARNING : string.
Variables I II : string.

(** [textwrap.indent(text, prefix)] and [repr(text)] *)
Variable indent : string -> string -> string.
Variable repr : string -> string.

(** [common.Stripped(text)] *)
Variable Stripped : string -> Result string.

(** [verify] *)
Definition verify (symbol_table : list OurType)
  : Result (option (list OurType) * option (list Error)) :=
  let result := (Some symbol_table, @None (list Error)) in
  (* @ensure: (result[0] is None) ^ (result[1] is None) *)
  if xorb (is_None (fst result)) (is_None (snd result))
  then Ok result
  else Raises ViolationError.

Definition specified_for_cls (cls : Class) (specified_for : Identifier)
  : bool :=
  String.eqb specified_for (name cls).

(** The beginning of the interface, up to the opening brace. *)
Definition write_extends (cls : Class) : Result string :=
  let interface := interface_name (name cls) in
  let inherited :=
    match inheritances cls with
    | [] => ["Class"]
    | given => given
    end in
  let inheritance_names := map interface_name inherited in
  if negb (0 <? length inherited) then Raises AssertionError
  else
    match inheritance_names with
    | [single] =>
        Ok ("public interface " ++ interface ++ " extends " ++ single ++ nl
            ++ "{" ++ nl)
    | _ =>
        Ok ("public interface " ++ interface ++ " extends" ++ nl
            ++ String.concat ("," ++ nl)
                 (map (fun inheritance_name => indent inheritance_name II)
                    inheritance_names)
            ++ nl ++ "{" ++ nl)
    end.

(** The two blocks of the first loop over the properties. *)
Definition getter_and_setter (prop : Property) : Result (list string) :=
  let prop_type := generate_type (prop_type_annotation prop) in
  let getter := getter_name (prop_name prop) in
  let setter := setter_name (prop_name prop) in
  first <~ Stripped ("public " ++ prop_type ++ " " ++ getter ++ " ();") ;;
  second <~ Stripped ("public " ++ prop_type ++ " " ++ setter ++ " ();") ;;
  Ok [first; second].

(** The block of the loop over the methods. *)
Definition signature (method : Method) : Result string :=
  let return_type :=
    match returns method with
    | Some type_annotation => generate_type type_annotation
    | None => "void"
    end in
  arg_codes <~
    for_each
      (fun arg =>
         let arg_type := generate_type (arg_type_annotation arg) in
         let argument := argument_name (arg_name arg) in
         Stripped (arg_type ++ " " ++ argument))
      (arguments method) ;;
  let signature_name := naming_method_name (method_name method) in
  signature_blocks <~
    (if 2 <? length arg_codes
     then
       let arg_block := String.concat ("," ++ nl) arg_codes in
       let arg_block_indented := indent arg_block I in
       block <~ Stripped ("public " ++ return_type ++ " " ++ signature_name
                          ++ "(" ++ nl ++ arg_block_indented ++ ");") ;;
       Ok [block]
     else
       if length arg_codes =? 1
       then
         block <~ Stripped ("public " ++ return_type ++ " " ++ signature_name
                            ++ "(" ++ nth 0 arg_codes "" ++ ");") ;;
         Ok [block]
       else
         if negb (length arg_codes =? 0) then Raises AssertionError
         else
           block <~ Stripped ("public " ++ return_type ++ " " ++ signature_name
                              ++ "();") ;;
           Ok [block]) ;;
  Stripped (String.concat nl signature_blocks).

(** The block of the second loop over the properties, for an optional
    list. *)
Definition over_or_empty (prop : Property) : Result (list string) :=
  match prop_type_annotation prop with
  | OptionalTypeAnnotation (ListTypeAnnotation items) =>
      let property := property_name (prop_name prop) in
      let items_type := generate_type items in
      block <~
        Stripped
          ("/**" ++ nl
           ++ " * Iterate over " ++ property
           ++ ", if set, and otherwise return an empty enumerable." ++ nl
           ++ " */" ++ nl
           ++ "public Iterable<" ++ items_type ++ "> over" ++ property
           ++ "OrEmpty();") ;;
      Ok [block]
  | _ => Ok []
  end.

(** The list [blocks] at the end of the three loops. *)
Definition blocks_of (cls : Class) : Result (list string) :=
  let own_properties :=
    filter (fun prop => specified_for_cls cls (prop_specified_for prop))
      (properties cls) in
  let own_methods :=
    filter (fun method => specified_for_cls cls (method_specified_for method))
      (methods cls) in
  accessors <~ for_each getter_and_setter own_properties ;;
  signatures <~ for_each signature own_methods ;;
  iterations <~ for_each over_or_empty own_properties ;;
  Ok (concat accessors ++ signatures ++ concat iterations)%list.

(** [_generate_interface] *)
Definition _generate_interface (cls : Class)
  : Result (option string * option Error) :=
  extends <~ write_extends cls ;;
  blocks <~ blocks_of cls ;;
  blocks <~
    (if length blocks =? 0
     then
       block <~ Stripped "// Intentionally empty." ;;
       Ok [block]
     else Ok blocks) ;;
  let written :=
    extends
    ++ String.concat (nl ++ nl) (map (fun code => indent code I) blocks)
    ++ nl ++ "}" in
  code <~ Stripped written ;;
  let result := (Some code, @None Error) in
  (* @ensure: (result[0] is None) ^ (result[1] is None) *)
  if xorb (is_None (fst result)) (is_None (snd result))
  then Ok result
  else Raises ViolationError.

(** The first block of [generate]: the interface [IClass]. *)
Definition IClass : string :=
  String.concat nl
    ["/**";
     " * Represent a general class of an AAS model.";
     " */";
     "public interface IClass";
     "{";
     I ++ "/**";
     I ++ " * Iterate over all the class instances referenced from this instance";
     I ++ " * without further recursion.";
     I ++ " */";
     I ++ "public Iterable<IClass> descendOnce();";
     "";
     I ++ "/**";
     I ++ " * Iterate recursively over all the class instances referenced from this instance.";
     I ++ " */";
     I ++ "public Iterable<IClass> descend();";
     "";
     I ++ "/**";
     I ++ " * Accept the {@code visitor} to visit this instance";
     I ++ " * for double dispatch.";
     I ++ " */";
     I ++ "public void accept(Visitation.IVisitor visitor);";
     "";
     I ++ "/**";
     I ++ " * Accept the visitor to visit this instance for double dispatch";
     I ++ " * with the {@code context}.";
     I ++ " */";
     I ++ "public <TContext> void accept(";
     II ++ "Visitation.IVisitorWithContext<TContext> visitor,";
     II ++ "TContext context);";
     "";
     I ++ "/**";
     I ++ " * Accept the {@code transformer} to transform this instance";
     I ++ " * for double dispatch.";
     I ++ " */";
     I ++ "public <T> T transform(Visitation.ITransformer<T> transformer);";
     "";
     I ++ "/**";
     I ++ " * Accept the {@code transformer} to visit this instance";
     I ++ " * for double dispatch with the {@code context}.";
     I ++ " */";
     I ++ "public <TContext, T> T transform(";
     II ++ "Visitation.ITransformerWithContext<TContext, T> transformer,";
     II ++ "TContext context);";
     "}"].

(** The loop of [generate] over the types of the symbol table, from the
    blocks and the errors collected so far. *)
Fixpoint collect (our_types : list OurType) (code_blocks : list string)
  (errors : list Error) : Result (list string * list Error) :=
  match our_types with
  | [] => Ok (code_blocks, errors)
  | AbstractClass cls :: rest =>
      '(code, error) <~ _generate_interface cls ;;
      match error with
      | Some e =>
          collect rest code_blocks
            (errors
             ++ [mkError
                   ("Failed to generate the interface code for the class "
                    ++ repr (name cls))
                   [e]])%list
      | None =>
          match code with
          | None => Raises AssertionError
          | Some code => collect rest (code_blocks ++ [code])%list errors
          end
      end
  | _ :: rest => collect rest code_blocks errors
  end.

(** [generate] *)
Definition generate (symbol_table : list OurType) (package : string)
  : Result (option string * option (list Error)) :=
  first <~ Stripped IClass ;;
  '(code_blocks, errors) <~ collect symbol_table [first] [] ;;
  result <~
    (if 0 <? length errors
     then Ok (@None string, Some errors)
     else
       let code_blocks_joined := String.concat (nl ++ nl) code_blocks in
       packaged <~
         Stripped ("package " ++ package ++ ";" ++ nl ++ nl
                   ++ code_blocks_joined ++ nl
                   ++ "// package " ++ package) ;;
       let blocks := [WARNING; packaged; WARNING] in
       Ok (Some (String.concat (nl ++ nl) blocks ++ nl), None)) ;;
  (* @ensure: (result[0] is not None) ^ (result[1] is not None) *)
  if negb (xorb (negb (is_None (fst result))) (negb (is_None (snd result))))
  then Raises ViolationError
  else
    (* @ensure: not (result[0] is not None) or result[0].endswith('\n') *)
    if match fst result with
       | Some text => ends_with NEWLINE text
       | None => true
       end
    then Ok result
    else Raises ViolationError.

End Generator.

End JavaStructure.

(** ** Classes to run the generator of the Java structures on *)

Module JavaExample.

Import intermediate Python JavaStructure.

Local Open Scope string_scope.

(** Stand-ins for what the generator calls: names as they are, one type
    for every annotation, and an indentation that puts the prefix in front
    of a text of one line. *)
Definition as_it_is (identifier : Identifier) : string := identifier.

Definition generate_type (type_annotation : TypeAnnotation) : string :=
  "Object".

Definition indent (text prefix : string) : string := prefix ++ text.

Definition accepted (text : string) : Result string := Ok text.

Definition _generate_interface : Class -> Result (option string * option Error) :=
  JavaStructure._generate_interface as_it_is as_it_is as_it_is as_it_is
    as_it_is as_it_is generate_type "    " "        " indent accepted.

Definition generate : list OurType -> string ->
                      Result (option string * option (list Error)) :=
  JavaStructure.generate as_it_is as_it_is as_it_is as_it_is as_it_is
    as_it_is generate_type "// generated" "    " "        " indent
    as_it_is accepted.

(** [def less_than(self, left: int, right: int) -> bool] *)
Definition Ordered : Class :=
  mkClass "Ordered" [] []
    [mkMethod "less_than" (Some (PrimitiveTypeAnnotation BOOL))
       [mkArgument "left" (PrimitiveTypeAnnotation INT);
        mkArgument "right" (PrimitiveTypeAnnotation INT)]
       "Ordered"].

(** [def accept(self, visitor: Visitor) -> None] *)
Definition Visited : Class :=
  mkClass "Visited" [] []
    [mkMethod "accept" None
       [mkArgument "visitor" (OurTypeAnnotation "Visitor")]
       "Visited"].


Definition blocks_of : Class -> Result (list string) :=
  JavaStructure.blocks_of as_it_is as_it_is as_it_is as_it_is as_it_is
    generate_type "    " indent accepted.

End JavaExample.

(** ** The generator of the C# file, above the methods

    The functions of [aas_core_codegen/csharp/xmlization/_generate.py] that
    put the file together: [_generate_deserialize_impl],
    [_generate_deserialize_from], [_generate_deserialize],
    [_generate_visitor], [_generate_serialize] and [generate].  They are
    embedded as they are written, as functions to text and errors, and
    with them [_generate_deserialize_impl_cls_from_sequence], the one
    function among those that emit a method which hands back errors, with
    the functions it calls for the properties.  The other functions that
    emit one method each are parameters here: what matters above them is
    their text, and the behaviour of the methods they emit is the subject
    of [Xmlization].  Parameters as well are what is not among the
    sources: [csharp_naming], [csharp_common], [naming.xml_property],
    [textwrap.indent], [indent_but_first_line], [repr] and [str], the
    snippets [spec_impls], and the constructors [Stripped] and
    [ImplementationKey], which may refuse a text. *)

Module XmlizationGenerator.

Import intermediate Python.

Local Open Scope list_scope.
Local Open Scope string_scope.
Local Open Scope nat_scope.

(** [symbol.is_implementation_specific] and [symbol.interface] of a
    class. *)
Definition symbol_is_implementation_specific (symbol : Symbol) : bool :=
  match symbol with
  | SymAbstractClass cls => abstract_is_implementation_specific cls
  | SymConcreteClass cls => is_implementation_specific cls
  | _ => false
  end.

Definition symbol_interface (symbol : Symbol) : option Interface :=
  match symbol with
  | SymAbstractClass cls => abstract_interface cls
  | SymConcreteClass cls => interface cls
  | _ => None
  end.

Definition is_class (symbol : Symbol) : bool :=
  match symbol with
  | SymAbstractClass _ | SymConcreteClass _ => true
  | _ => false
  end.

(** Modelled from the spec: [intermediate.try_primitive_type] is not among
    the sources; it gives the primitive type of an annotation of a
    primitive type and of a constrained primitive, and nothing for any
    other annotation. *)
Definition try_primitive_type (symbol_table : SymbolTable)
  (type_anno : TypeAnnotation) : option PrimitiveType :=
  match type_anno with
  | PrimitiveTypeAnnotation a_type => Some a_type
  | OurTypeAnnotation name =>
      match find_symbol symbol_table name with
      | Some (SymConstrainedPrimitive constrained) =>
          Some (constrainee constrained)
      | _ => None
      end
  | _ => None
  end.

(** [id(prop) in cls.property_id_set]: the objects of Python are values
    here, and a property is one of the class when the class has a property
    with its name and its type. *)
Definition in_property_id_set (prop : Property) (cls : ConcreteClass)
  : bool :=
  existsb
    (fun other =>
       String.eqb (prop_name other) (prop_name prop)
       && type_annotations_equal (prop_type_annotation other)
            (prop_type_annotation prop))
    (properties cls).

Section Generator.

(** [csharp_naming] and [csharp_common] *)
Variable naming_class_name : Identifier -> string.
Variable naming_interface_name : Identifier -> string.
Variable naming_variable_name : Identifier -> string.
Variable naming_property_name : Identifier -> string.
Variable naming_enum_name : Identifier -> string.
Variable generate_type : TypeAnnotation -> string.
Variable string_literal : string -> string.
Variable WARNING : string.
Variables I II III IIII IIIII : string.

(** [naming.xml_property] *)
Variable xml_property : Identifier -> string.

(** [textwrap.indent(text, prefix)], [indent_but_first_line(text, prefix)],
    [common.Stripped(text)] and
    [specific_implementations.ImplementationKey(text)] *)
Variable indent : string -> string -> string.
Variable indent_but_first_line : string -> string -> string.
Variable Stripped : string -> Result string.
Variable ImplementationKey : string -> Result string.

(** [repr(text)] of an identifier and [str(type_annotation)] *)
Variable repr : string -> string.
Variable str : TypeAnnotation -> string.

(** [spec_impls.get(key, None)] *)
Variable spec_impls : string -> option string.

(** The functions that emit one method or one class each. *)
Variable _generate_skip_whitespace_and_comments : Result string.
Variable _generate_read_whole_content_as_base_64 : Result string.
Variable _generate_extract_element_name : Result string.
Variable _generate_deserialize_impl_interface_from_element :
  Interface -> Result string.
Variable _generate_deserialize_impl_concrete_cls_from_element :
  ConcreteClass -> Result string.
Variable _generate_class_to_sequence : ConcreteClass -> Result string.
Variable _generate_visit_for_class : ConcreteClass -> Result string.
Variable _generate_wrapped_writer : Result string.

(** *** The texts of the templates *)

(** The beginning and the end of the class [DeserializeImplementation]. *)
Definition DeserializeImplementation_opening : string :=
  "/// <summary>" ++ nl
  ++ "/// Implement the deserialization of meta-model classes from XML." ++ nl
  ++ "/// </summary>" ++ nl
  ++ "/// <remarks>" ++ nl
  ++ "/// The implementation propagates an <see cref=" ++ quote ++ "Reporting.Error" ++ quote ++ " /> instead of" ++ nl
  ++ "/// relying on exceptions. Under the assumption that incorrect data is much less" ++ nl
  ++ "/// frequent than correct data, this makes the deserialization more" ++ nl
  ++ "/// efficient." ++ nl
  ++ "///" ++ nl
  ++ "/// However, we do not want to force the client to deal with" ++ nl
  ++ "/// the <see cref=" ++ quote ++ "Reporting.Error" ++ quote ++ " /> class as this is not intuitive." ++ nl
  ++ "/// Therefore we distinguish the implementation, realized in" ++ nl
  ++ "/// <see cref=" ++ quote ++ "DeserializeImplementation" ++ quote ++ " />, and the facade given in" ++ nl
  ++ "/// <see cref=" ++ quote ++ "Deserialize" ++ quote ++ " /> class." ++ nl
  ++ "/// </remarks>" ++ nl
  ++ "internal static class DeserializeImplementation" ++ nl
  ++ "{" ++ nl.

Definition DeserializeImplementation_closing : string :=
  nl
  ++ "}  // internal static class DeserializeImplementation".

(** The three parts of a method [...From] of the facade. *)
Definition From_documentation (name : string) : string :=
  "/// <summary>" ++ nl
  ++ "/// Deserialize an instance of " ++ name ++ " from <paramref name=" ++ quote ++ "reader" ++ quote ++ " />." ++ nl
  ++ "/// </summary>" ++ nl
  ++ "/// <param name=" ++ quote ++ "reader" ++ quote ++ ">Initialized XML reader with cursor set to the element</param>" ++ nl
  ++ "/// <param name=" ++ quote ++ "ns" ++ quote ++ ">" ++ nl
  ++ "/// The expected namespace that the XML elements live in." ++ nl
  ++ "/// If not specified, assume the element names as-are instead of the local names." ++ nl
  ++ "/// </param>" ++ nl
  ++ "/// <exception cref=" ++ quote ++ "Xmlization.Exception" ++ quote ++ ">" ++ nl
  ++ "/// Thrown when the element is not a valid XML" ++ nl
  ++ "/// representation of " ++ name ++ "." ++ nl
  ++ "/// </exception>" ++ nl.

Definition From_attribute : string :=
  "[CodeAnalysis.SuppressMessage(" ++ quote ++ "ReSharper" ++ quote ++ ", " ++ quote ++ "InconsistentNaming" ++ quote ++ ")]".

Definition From_method (name : string) : string :=
  "public static Aas." ++ name ++ " " ++ name ++ "From(" ++ nl
  ++ I ++ "Xml.XmlReader reader," ++ nl
  ++ I ++ "string? ns = null)" ++ nl
  ++ "{" ++ nl
  ++ I ++ "Aas." ++ name ++ "? result = (" ++ nl
  ++ II ++ "DeserializeImplementation." ++ name ++ "FromElement(" ++ nl
  ++ III ++ "reader," ++ nl
  ++ III ++ "ns," ++ nl
  ++ III ++ "out Reporting.Error? error));" ++ nl
  ++ I ++ "if (error != null)" ++ nl
  ++ I ++ "{" ++ nl
  ++ II ++ "throw new Xmlization.Exception(" ++ nl
  ++ III ++ "Reporting.GenerateRelativeXPath(error.PathSegments)," ++ nl
  ++ III ++ "error.Cause);" ++ nl
  ++ I ++ "}" ++ nl
  ++ I ++ "return result" ++ nl
  ++ II ++ "?? throw new System.InvalidOperationException(" ++ nl
  ++ III ++ quote ++ "Unexpected output null when error is null" ++ quote ++ ");" ++ nl
  ++ "}".

(** The parts of the class [Deserialize]. *)
Definition Deserialize_summary : string :=
  "/// <summary>" ++ nl
  ++ "/// Deserialize instances of meta-model classes from XML." ++ nl
  ++ "/// </summary>" ++ nl.

Definition Deserialize_examples (the_cls_name : string) (an_instance_variable : string) : string :=
  "/// <example>" ++ nl
  ++ "/// Here is an example how to parse an instance of class " ++ the_cls_name ++ ":" ++ nl
  ++ "/// <code>" ++ nl
  ++ "/// var reader = new System.Xml.XmlReader(/* some arguments */);" ++ nl
  ++ "/// Aas." ++ the_cls_name ++ " " ++ an_instance_variable ++ " = Deserialize." ++ the_cls_name ++ "From(" ++ nl
  ++ "/// " ++ I ++ "reader);" ++ nl
  ++ "/// </code>" ++ nl
  ++ "/// </example>" ++ nl
  ++ "///" ++ nl
  ++ "/// <example>" ++ nl
  ++ "/// If the elements live in a namespace, you have to supply it. For example:" ++ nl
  ++ "/// <code>" ++ nl
  ++ "/// var reader = new System.Xml.XmlReader(/* some arguments */);" ++ nl
  ++ "/// Aas." ++ the_cls_name ++ " " ++ an_instance_variable ++ " = Deserialize." ++ the_cls_name ++ "From(" ++ nl
  ++ "/// " ++ I ++ "reader," ++ nl
  ++ "/// " ++ I ++ quote ++ "http://www.example.com/5/12" ++ quote ++ ");" ++ nl
  ++ "/// </code>" ++ nl
  ++ "/// </example>" ++ nl.

Definition Deserialize_opening : string :=
  "public static class Deserialize" ++ nl
  ++ "{" ++ nl.

Definition Deserialize_closing : string :=
  nl
  ++ "}  // public static class Deserialize".

(** The beginning and the end of the class [VisitorWithWriter]. *)
Definition VisitorWithWriter_opening : string :=
  "/// <summary>" ++ nl
  ++ "/// Serialize recursively the instances as XML elements." ++ nl
  ++ "/// </summary>" ++ nl
  ++ "internal class VisitorWithWriter" ++ nl
  ++ I ++ ": Visitation.AbstractVisitorWithContext<WrappedXmlWriter>" ++ nl
  ++ "{" ++ nl.

Definition VisitorWithWriter_closing : string :=
  nl
  ++ "}  // internal class VisitorWithWriter".

(** The parts of the class [Serialize]. *)
Definition Serialize_visitor : string :=
  "[CodeAnalysis.SuppressMessage(" ++ quote ++ "ReSharper" ++ quote ++ ", " ++ quote ++ "InconsistentNaming" ++ quote ++ ")]" ++ nl
  ++ "private static readonly VisitorWithWriter _visitorWithWriter = (" ++ nl
  ++ I ++ "new VisitorWithWriter());".

Definition Serialize_To : string :=
  "/// <summary>" ++ nl
  ++ "/// Serialize an instance of the meta-model to XML." ++ nl
  ++ "/// </summary>" ++ nl
  ++ "public static void To(" ++ nl
  ++ I ++ "Aas.IClass that," ++ nl
  ++ I ++ "Xml.XmlWriter writer," ++ nl
  ++ I ++ "string? prefix = null," ++ nl
  ++ I ++ "string? ns = null)" ++ nl
  ++ "{" ++ nl
  ++ I ++ "var wrappedWriter = new WrappedXmlWriter(" ++ nl
  ++ II ++ "writer, prefix, ns);" ++ nl
  ++ nl
  ++ I ++ "Serialize._visitorWithWriter.Visit(" ++ nl
  ++ II ++ "that, wrappedWriter);" ++ nl
  ++ "}".

Definition Serialize_summary : string :=
  "/// <summary>" ++ nl
  ++ "/// Serialize instances of meta-model classes to XML." ++ nl
  ++ "/// </summary>" ++ nl.

Definition Serialize_examples (the_cls_name : string) (an_instance_variable : string) : string :=
  "/// <example>" ++ nl
  ++ "/// Here is an example how to serialize an instance of " ++ the_cls_name ++ ":" ++ nl
  ++ "/// <code>" ++ nl
  ++ "/// var " ++ an_instance_variable ++ " = new Aas." ++ the_cls_name ++ "(" ++ nl
  ++ "///     /* ... some constructor arguments ... */" ++ nl
  ++ "/// );" ++ nl
  ++ "/// var writer = new System.Xml.XmlWriter( /* some arguments */ );" ++ nl
  ++ "/// Serialize.To(" ++ nl
  ++ "/// " ++ I ++ an_instance_variable ++ "," ++ nl
  ++ "/// " ++ I ++ "writer);" ++ nl
  ++ "/// </code>" ++ nl
  ++ "///" ++ nl
  ++ "/// </example>" ++ nl
  ++ "/// <example>" ++ nl
  ++ "/// You can also set the namespace and the prefix:" ++ nl
  ++ "/// <code>" ++ nl
  ++ "/// var " ++ an_instance_variable ++ " = new Aas." ++ the_cls_name ++ "(" ++ nl
  ++ "///     /* ... some constructor arguments ... */" ++ nl
  ++ "/// );" ++ nl
  ++ "/// var writer = new System.Xml.XmlWriter( /* some arguments */ );" ++ nl
  ++ "/// Serialize.To(" ++ nl
  ++ "/// " ++ I ++ an_instance_variable ++ "," ++ nl
  ++ "/// " ++ I ++ "writer," ++ nl
  ++ "/// " ++ I ++ quote ++ "somePrefix" ++ quote ++ "," ++ nl
  ++ "/// " ++ I ++ quote ++ "https://some-namespace.com" ++ quote ++ ");" ++ nl
  ++ "/// </code>" ++ nl
  ++ "/// </example>" ++ nl.

Definition Serialize_opening : string :=
  "public static class Serialize" ++ nl
  ++ "{" ++ nl.

Definition Serialize_closing : string :=
  nl
  ++ "}  // public static class Serialize".

(** The parts of the file. *)
Definition Exception_class : string :=
  "/// <summary>" ++ nl
  ++ "/// Represent a critical error during the deserialization." ++ nl
  ++ "/// </summary>" ++ nl
  ++ "public class Exception : System.Exception" ++ nl
  ++ "{" ++ nl
  ++ I ++ "public readonly string Path;" ++ nl
  ++ I ++ "public readonly string Cause;" ++ nl
  ++ I ++ "public Exception(string path, string cause)" ++ nl
  ++ II ++ ": base($" ++ quote ++ "{cause} at: {path}" ++ quote ++ ")" ++ nl
  ++ I ++ "{" ++ nl
  ++ II ++ "Path = path;" ++ nl
  ++ II ++ "Cause = cause;" ++ nl
  ++ I ++ "}" ++ nl
  ++ "}".

Definition Xmlization_opening (namespace : string) : string :=
  "namespace " ++ namespace ++ nl
  ++ "{" ++ nl
  ++ I ++ "/// <summary>" ++ nl
  ++ I ++ "/// Provide de/serialization of meta-model classes to/from XML." ++ nl
  ++ I ++ "/// </summary>" ++ nl
  ++ I ++ "public static class Xmlization" ++ nl
  ++ I ++ "{" ++ nl.

Definition Xmlization_closing : string :=
  nl
  ++ I ++ "}  // public static class Xmlization".

Definition namespace_closing (namespace : string) : string :=
  nl
  ++ "}  // namespace " ++ namespace.

Definition usings : string :=
  "using CodeAnalysis = System.Diagnostics.CodeAnalysis;" ++ nl
  ++ "using Xml = System.Xml;" ++ nl
  ++ "using System.Collections.Generic;  // can't alias".

(** The blocks and the errors collected so far. *)
Definition Collected : Type := (list string * list Error)%type.

Definition append_block (block : string) (collected : Collected)
  : Collected :=
  ((fst collected ++ [block])%list, snd collected).

Definition append_error (error : Error) (collected : Collected)
  : Collected :=
  (fst collected, (snd collected ++ [error])%list).

(** The blocks written one after the other, each indented, with an empty
    line between two of them. *)
Definition write_blocks (prefix : string) (blocks : list string) : string :=
  String.concat (nl ++ nl) (map (fun block => indent block prefix) blocks).

(** The error for a snippet that [spec_impls] does not have. *)
Definition snippet_is_missing (symbol : Symbol) (implementation_key : string)
  : Error :=
  mkError
    ("The xmlization snippet is missing for the implementation-specific class " ++ symbol_name symbol ++ ": " ++ implementation_key)
    [].

(** The texts of the [implementation_keys] of a symbol, for
    [DeserializeImplementation] and for [VisitorWithWriter]. *)
Definition deserialize_impl_keys (symbol : Symbol) : list string :=
  ["Xmlization/DeserializeImplementation/" ++ symbol_name symbol ++ "_from_element.cs";
   "Xmlization/DeserializeImplementation/" ++ symbol_name symbol ++ "_from_sequence.cs"].

Definition visitor_keys (symbol : Symbol) : list string :=
  ["Xmlization/VisitorWithWriter/visit_" ++ symbol_name symbol ++ ".cs";
   "Xmlization/VisitorWithWriter/" ++ symbol_name symbol ++ "_to_sequence.cs"].

(** The loop over the [implementation_keys] of a symbol. *)
Definition snippets (symbol : Symbol) (implementation_keys : list string)
  (collected : Collected) : Collected :=
  fold_left
    (fun collected implementation_key =>
       match spec_impls implementation_key with
       | None =>
           append_error (snippet_is_missing symbol implementation_key)
             collected
       | Some implementation => append_block implementation collected
       end)
    implementation_keys collected.

(** *** The method [...FromSequence] of a class

    The texts of the templates first. *)

(** [_generate_deserialize_primitive_property] *)
Definition ReadWholeContentAsBase64_call : string :=
  "DeserializeImplementation.ReadWholeContentAsBase64(" ++ nl
  ++ I ++ "reader)".

Definition primitive_of_empty_string (target_var : string) : string :=
  target_var ++ " = " ++ quote ++ quote ++ ";".

Definition primitive_needs_content
  (the_prop_name : string) (the_cls_name : string)
  (xml_prop_name_literal : string)
  : string :=
  "error = new Reporting.Error(" ++ nl
  ++ I ++ quote ++ "The property " ++ the_prop_name ++ " of an instance of class " ++ the_cls_name ++ " " ++ quote ++ " +" ++ nl
  ++ I ++ quote ++ "can not be de-serialized from a self-closing element " ++ quote ++ " +" ++ nl
  ++ I ++ quote ++ "since it needs content" ++ quote ++ ");" ++ nl
  ++ "error.PrependSegment(" ++ nl
  ++ I ++ "new Reporting.NameSegment(" ++ nl
  ++ II ++ xml_prop_name_literal ++ "));" ++ nl
  ++ "return null;".

Definition primitive_property
  (empty_handling_body : string) (the_prop_name : string)
  (the_cls_name : string) (target_var : string)
  (deserialization_expr : string) (xml_prop_name_literal : string)
  : string :=
  "if (isEmptyProperty)" ++ nl
  ++ "{" ++ nl
  ++ I ++ indent_but_first_line empty_handling_body I ++ nl
  ++ "}" ++ nl
  ++ "else" ++ nl
  ++ "{" ++ nl
  ++ I ++ "if (reader.EOF)" ++ nl
  ++ I ++ "{" ++ nl
  ++ II ++ "error = new Reporting.Error(" ++ nl
  ++ III ++ quote ++ "Expected an XML content representing " ++ quote ++ " +" ++ nl
  ++ III ++ quote ++ "the property " ++ the_prop_name ++ " of an instance of class " ++ the_cls_name ++ ", " ++ quote ++ " +" ++ nl
  ++ III ++ quote ++ "but reached the end-of-file" ++ quote ++ ");" ++ nl
  ++ II ++ "return null;" ++ nl
  ++ I ++ "}" ++ nl
  ++ nl
  ++ I ++ "try" ++ nl
  ++ I ++ "{" ++ nl
  ++ II ++ target_var ++ " = " ++ indent_but_first_line deserialization_expr I ++ ";" ++ nl
  ++ I ++ "}" ++ nl
  ++ I ++ "catch (System.Exception exception)" ++ nl
  ++ I ++ "{" ++ nl
  ++ II ++ "if (exception is System.FormatException" ++ nl
  ++ III ++ "|| exception is System.Xml.XmlException)" ++ nl
  ++ II ++ "{" ++ nl
  ++ III ++ "error = new Reporting.Error(" ++ nl
  ++ IIII ++ quote ++ "The property " ++ the_prop_name ++ " of an instance of class " ++ the_cls_name ++ " " ++ quote ++ " +" ++ nl
  ++ IIII ++ "$" ++ quote ++ "could not be de-serialized: {exception}" ++ quote ++ ");" ++ nl
  ++ III ++ "error.PrependSegment(" ++ nl
  ++ IIII ++ "new Reporting.NameSegment(" ++ nl
  ++ IIIII ++ xml_prop_name_literal ++ "));" ++ nl
  ++ III ++ "return null;" ++ nl
  ++ II ++ "}" ++ nl
  ++ nl
  ++ II ++ "throw;" ++ nl
  ++ I ++ "}" ++ nl
  ++ "}".

(** [_generate_deserialize_enumeration_property] *)
Definition enumeration_property
  (the_prop_name : string) (the_cls_name : string)
  (xml_prop_name_literal : string) (text_var : string) (target_var : string)
  (the_enum_name : string)
  : string :=
  "if (isEmptyProperty)" ++ nl
  ++ "{" ++ nl
  ++ I ++ "error = new Reporting.Error(" ++ nl
  ++ II ++ quote ++ "The property " ++ the_prop_name ++ " of an instance of class " ++ the_cls_name ++ " " ++ quote ++ " +" ++ nl
  ++ II ++ quote ++ "can not be de-serialized from a self-closing element " ++ quote ++ " +" ++ nl
  ++ II ++ quote ++ "since it needs content" ++ quote ++ ");" ++ nl
  ++ I ++ "error.PrependSegment(" ++ nl
  ++ II ++ "new Reporting.NameSegment(" ++ nl
  ++ III ++ xml_prop_name_literal ++ "));" ++ nl
  ++ I ++ "return null;" ++ nl
  ++ "}" ++ nl
  ++ nl
  ++ I ++ "if (reader.EOF)" ++ nl
  ++ "{" ++ nl
  ++ II ++ "error = new Reporting.Error(" ++ nl
  ++ III ++ quote ++ "Expected an XML content representing " ++ quote ++ " +" ++ nl
  ++ III ++ quote ++ "the property " ++ the_prop_name ++ " of an instance of class " ++ the_cls_name ++ ", " ++ quote ++ " +" ++ nl
  ++ III ++ quote ++ "but reached the end-of-file" ++ quote ++ ");" ++ nl
  ++ II ++ "return null;" ++ nl
  ++ "}" ++ nl
  ++ nl
  ++ "string " ++ text_var ++ ";" ++ nl
  ++ "try" ++ nl
  ++ "{" ++ nl
  ++ I ++ text_var ++ " = reader.ReadContentAsString();" ++ nl
  ++ "}" ++ nl
  ++ "catch (System.FormatException exception)" ++ nl
  ++ "{" ++ nl
  ++ I ++ "error = new Reporting.Error(" ++ nl
  ++ II ++ quote ++ "The property " ++ the_prop_name ++ " of an instance of class " ++ the_cls_name ++ " " ++ quote ++ " +" ++ nl
  ++ II ++ "$" ++ quote ++ "could not be de-serialized as a string: {exception}" ++ quote ++ ");" ++ nl
  ++ I ++ "error.PrependSegment(" ++ nl
  ++ II ++ "new Reporting.NameSegment(" ++ nl
  ++ III ++ xml_prop_name_literal ++ "));" ++ nl
  ++ I ++ "return null;" ++ nl
  ++ "}" ++ nl
  ++ nl
  ++ target_var ++ " = Stringification." ++ the_enum_name ++ "FromString(" ++ nl
  ++ I ++ text_var ++ ");" ++ nl
  ++ nl
  ++ "if (" ++ target_var ++ " == null)" ++ nl
  ++ "{" ++ nl
  ++ I ++ "error = new Reporting.Error(" ++ nl
  ++ II ++ quote ++ "The property " ++ the_prop_name ++ " of an instance of class " ++ the_cls_name ++ " " ++ quote ++ " +" ++ nl
  ++ II ++ quote ++ "could not be de-serialized from an unexpected enumeration literal: " ++ quote ++ " +" ++ nl
  ++ II ++ text_var ++ ");" ++ nl
  ++ I ++ "error.PrependSegment(" ++ nl
  ++ II ++ "new Reporting.NameSegment(" ++ nl
  ++ III ++ xml_prop_name_literal ++ "));" ++ nl
  ++ I ++ "return null;" ++ nl
  ++ "}".

(** [_generate_deserialize_interface_property] *)
Definition interface_property
  (the_prop_name : string) (the_cls_name : string) (target_var : string)
  (the_interface_name : string) (xml_prop_name_literal : string)
  : string :=
  "if (isEmptyProperty)" ++ nl
  ++ "{" ++ nl
  ++ I ++ "error = new Reporting.Error(" ++ nl
  ++ II ++ "$" ++ quote ++ "Expected an XML element within the element {elementName} representing " ++ quote ++ " +" ++ nl
  ++ II ++ quote ++ "the property " ++ the_prop_name ++ " of an instance of class " ++ the_cls_name ++ ", " ++ quote ++ " +" ++ nl
  ++ II ++ quote ++ "but encountered a self-closing element {elementName}" ++ quote ++ ");" ++ nl
  ++ I ++ "return null;" ++ nl
  ++ "}" ++ nl
  ++ nl
  ++ "if (reader.EOF)" ++ nl
  ++ "{" ++ nl
  ++ I ++ "error = new Reporting.Error(" ++ nl
  ++ II ++ "$" ++ quote ++ "Expected an XML element within the element {elementName} representing " ++ quote ++ " +" ++ nl
  ++ II ++ quote ++ "the property " ++ the_prop_name ++ " of an instance of class " ++ the_cls_name ++ ", " ++ quote ++ " +" ++ nl
  ++ II ++ quote ++ "but reached the end-of-file" ++ quote ++ ");" ++ nl
  ++ I ++ "return null;" ++ nl
  ++ "}" ++ nl
  ++ nl
  ++ target_var ++ " = " ++ the_interface_name ++ "FromElement(" ++ nl
  ++ I ++ "reader, ns, out error);" ++ nl
  ++ nl
  ++ "if (error != null)" ++ nl
  ++ "{" ++ nl
  ++ I ++ "error.PrependSegment(" ++ nl
  ++ II ++ "new Reporting.NameSegment(" ++ nl
  ++ III ++ xml_prop_name_literal ++ "));" ++ nl
  ++ I ++ "return null;" ++ nl
  ++ "}".

(** [_generate_deserialize_cls_property] *)
Definition cls_property
  (target_var : string) (target_cls_name : string)
  (xml_prop_name_literal : string)
  : string :=
  target_var ++ " = " ++ target_cls_name ++ "FromSequence(" ++ nl
  ++ I ++ "reader, isEmptyProperty, ns, out error);" ++ nl
  ++ nl
  ++ "if (error != null)" ++ nl
  ++ "{" ++ nl
  ++ I ++ "error.PrependSegment(" ++ nl
  ++ II ++ "new Reporting.NameSegment(" ++ nl
  ++ III ++ xml_prop_name_literal ++ "));" ++ nl
  ++ I ++ "return null;" ++ nl
  ++ "}".

(** [_generate_deserialize_list_property] *)
Definition list_of_non_empty_property
  (index_var : string) (item_type : string) (deserialize_method : string)
  (target_var : string)
  : string :=
  "SkipNoneWhitespaceAndComments(reader);" ++ nl
  ++ nl
  ++ "int " ++ index_var ++ " = 0;" ++ nl
  ++ "while (reader.NodeType == Xml.XmlNodeType.Element)" ++ nl
  ++ "{" ++ nl
  ++ I ++ item_type ++ "? item = " ++ deserialize_method ++ "(" ++ nl
  ++ II ++ "reader, ns, out error);" ++ nl
  ++ nl
  ++ I ++ "if (error != null)" ++ nl
  ++ I ++ "{" ++ nl
  ++ II ++ "error.PrependSegment(" ++ nl
  ++ III ++ "new Reporting.IndexSegment(" ++ nl
  ++ IIII ++ index_var ++ "));" ++ nl
  ++ II ++ "return null;" ++ nl
  ++ I ++ "}" ++ nl
  ++ nl
  ++ I ++ target_var ++ ".Add(" ++ nl
  ++ II ++ "item" ++ nl
  ++ III ++ "?? throw new System.InvalidOperationException(" ++ nl
  ++ IIII ++ quote ++ "Unexpected item null when error null" ++ quote ++ "));" ++ nl
  ++ nl
  ++ I ++ index_var ++ "++;" ++ nl
  ++ I ++ "SkipNoneWhitespaceAndComments(reader);" ++ nl
  ++ "}".

Definition list_property
  (target_var : string) (item_type : string)
  (body_for_non_empty_property : string)
  : string :=
  target_var ++ " = new List<" ++ item_type ++ ">();" ++ nl
  ++ nl
  ++ "if (!isEmptyProperty)" ++ nl
  ++ "{" ++ nl
  ++ I ++ indent_but_first_line body_for_non_empty_property I ++ nl
  ++ "}".

(** [_generate_deserialize_impl_cls_from_sequence] *)
Definition FromSequence_description (name : string) : string :=
  "/// <summary>" ++ nl
  ++ "/// Deserialize an instance of class " ++ name ++ " from a sequence of XML elements." ++ nl
  ++ "/// </summary>" ++ nl
  ++ "/// <remarks>" ++ nl
  ++ "/// If <paramref name=" ++ quote ++ "isEmptySequence" ++ quote ++ " /> is set, we should try to deserialize" ++ nl
  ++ "/// the instance from an empty sequence. That is, the parent element" ++ nl
  ++ "/// was a self-closing element." ++ nl
  ++ "/// </remarks>".

Definition FromSequence_hard_wired
  (description : string) (name : string)
  : string :=
  description ++ nl
  ++ "internal static Aas." ++ name ++ " " ++ name ++ "FromSequence(" ++ nl
  ++ I ++ "Xml.XmlReader reader," ++ nl
  ++ I ++ "bool isEmptySequence," ++ nl
  ++ I ++ "string? ns," ++ nl
  ++ I ++ "out Reporting.Error? error)" ++ nl
  ++ "{" ++ nl
  ++ I ++ "error = null;" ++ nl
  ++ I ++ "return new Aas." ++ name ++ "();" ++ nl
  ++ "}  // internal static Aas." ++ name ++ "? " ++ name ++ "FromSequence".

Definition FromSequence_at_end_of_file (name : string) : string :=
  "SkipNoneWhitespaceAndComments(reader);" ++ nl
  ++ "if (reader.EOF)" ++ nl
  ++ "{" ++ nl
  ++ I ++ "error = new Reporting.Error(" ++ nl
  ++ II ++ quote ++ "Expected an XML element representing " ++ quote ++ " +" ++ nl
  ++ II ++ quote ++ "a property of an instance of class " ++ name ++ ", " ++ quote ++ " +" ++ nl
  ++ II ++ quote ++ "but reached the end-of-file" ++ quote ++ ");" ++ nl
  ++ I ++ "return null;" ++ nl
  ++ "}".

Definition FromSequence_case
  (xml_prop_name_literal : string) (case_body : string)
  : string :=
  "case " ++ xml_prop_name_literal ++ ":" ++ nl
  ++ "{" ++ nl
  ++ I ++ indent_but_first_line case_body I ++ nl
  ++ I ++ "break;" ++ nl
  ++ "}".

Definition FromSequence_default (name : string) : string :=
  "default:" ++ nl
  ++ I ++ "error = new Reporting.Error(" ++ nl
  ++ II ++ quote ++ "We expected properties of the class " ++ name ++ ", " ++ quote ++ " +" ++ nl
  ++ II ++ quote ++ "but got an unexpected element " ++ quote ++ " +" ++ nl
  ++ II ++ "$" ++ quote ++ "with the name {elementName}" ++ quote ++ ");" ++ nl
  ++ I ++ "return null;".

Definition FromSequence_loop
  (switch_body : string) (name : string)
  : string :=
  "while (reader.NodeType == Xml.XmlNodeType.Element)" ++ nl
  ++ "{" ++ nl
  ++ I ++ "string elementName = TryElementName(" ++ nl
  ++ II ++ "reader, ns, out error);" ++ nl
  ++ I ++ "if (error != null)" ++ nl
  ++ I ++ "{" ++ nl
  ++ II ++ "return null;" ++ nl
  ++ I ++ "}" ++ nl
  ++ nl
  ++ I ++ "bool isEmptyProperty = reader.IsEmptyElement;" ++ nl
  ++ nl
  ++ I ++ "// Skip the expected element" ++ nl
  ++ I ++ "reader.Read();" ++ nl
  ++ nl
  ++ I ++ "switch (elementName)" ++ nl
  ++ I ++ "{" ++ nl
  ++ II ++ indent_but_first_line switch_body II ++ nl
  ++ I ++ "}" ++ nl
  ++ nl
  ++ I ++ "SkipNoneWhitespaceAndComments(reader);" ++ nl
  ++ nl
  ++ I ++ "if (!isEmptyProperty)" ++ nl
  ++ I ++ "{" ++ nl
  ++ II ++ "// Read the end element" ++ nl
  ++ nl
  ++ II ++ "if (reader.EOF)" ++ nl
  ++ II ++ "{" ++ nl
  ++ III ++ "error = new Reporting.Error(" ++ nl
  ++ IIII ++ quote ++ "Expected an XML end element to conclude a property of class " ++ name ++ " " ++ quote ++ " +" ++ nl
  ++ IIII ++ "$" ++ quote ++ "with the element name {elementName}, " ++ quote ++ " +" ++ nl
  ++ IIII ++ quote ++ "but got the end-of-file." ++ quote ++ ");" ++ nl
  ++ III ++ "return null;" ++ nl
  ++ II ++ "}" ++ nl
  ++ II ++ "if (reader.NodeType != Xml.XmlNodeType.EndElement)" ++ nl
  ++ II ++ "{" ++ nl
  ++ III ++ "error = new Reporting.Error(" ++ nl
  ++ IIII ++ quote ++ "Expected an XML end element to conclude a property of class " ++ name ++ " " ++ quote ++ " +" ++ nl
  ++ IIII ++ "$" ++ quote ++ "with the element name {elementName}, " ++ quote ++ " +" ++ nl
  ++ IIII ++ "$" ++ quote ++ "but got the node of type {reader.NodeType} " ++ quote ++ " +" ++ nl
  ++ IIII ++ "$" ++ quote ++ "with the value {reader.Value}" ++ quote ++ ");" ++ nl
  ++ III ++ "return null;" ++ nl
  ++ II ++ "}" ++ nl
  ++ nl
  ++ II ++ "string endElementName = TryElementName(" ++ nl
  ++ III ++ "reader, ns, out error);" ++ nl
  ++ II ++ "if (error != null)" ++ nl
  ++ II ++ "{" ++ nl
  ++ III ++ "return null;" ++ nl
  ++ II ++ "}" ++ nl
  ++ nl
  ++ II ++ "if (endElementName != elementName)" ++ nl
  ++ II ++ "{" ++ nl
  ++ III ++ "error = new Reporting.Error(" ++ nl
  ++ IIII ++ quote ++ "Expected an XML end element to conclude a property of class " ++ name ++ " " ++ quote ++ " +" ++ nl
  ++ IIII ++ "$" ++ quote ++ "with the element name {elementName}, " ++ quote ++ " +" ++ nl
  ++ IIII ++ "$" ++ quote ++ "but got the end element with the name {reader.Name}" ++ quote ++ ");" ++ nl
  ++ III ++ "return null;" ++ nl
  ++ II ++ "}" ++ nl
  ++ II ++ "// Skip the expected end element" ++ nl
  ++ II ++ "reader.Read();" ++ nl
  ++ nl
  ++ II ++ "SkipNoneWhitespaceAndComments(reader);" ++ nl
  ++ I ++ "}" ++ nl
  ++ nl
  ++ I ++ "if (reader.EOF)" ++ nl
  ++ I ++ "{" ++ nl
  ++ II ++ "break;" ++ nl
  ++ I ++ "}" ++ nl
  ++ "}".

Definition FromSequence_non_empty
  (body_for_non_empty_sequence : string)
  : string :=
  "if (!isEmptySequence)" ++ nl
  ++ "{" ++ nl
  ++ I ++ indent_but_first_line body_for_non_empty_sequence I ++ nl
  ++ "}".

Definition FromSequence_required
  (target_var : string) (prop_csharp : string) (name : string)
  : string :=
  "if (" ++ target_var ++ " == null)" ++ nl
  ++ "{" ++ nl
  ++ I ++ "error = new Reporting.Error(" ++ nl
  ++ II ++ quote ++ "The required property " ++ prop_csharp ++ " has not been given " ++ quote ++ " +" ++ nl
  ++ II ++ quote ++ "in the XML representation of an instance of class " ++ name ++ quote ++ ");" ++ nl
  ++ I ++ "return null;" ++ nl
  ++ "}".

Definition types_do_not_match
  (prop : Property) (arg : Argument) (cls : ConcreteClass)
  : string :=
  "Expected type annotation for property " ++ repr (prop_name prop) ++ " and constructor argument " ++ repr (arg_name arg) ++ " of the class " ++ repr (cls_name cls) ++ " to have matching types, but they do not: property type is " ++ str (prop_type_annotation prop) ++ " and argument type is " ++ str (arg_type_annotation arg) ++ ". Hence we do not know how to generate the call to the constructor in the JSON de-serialization.".

Definition FromSequence_throw : string :=
  II ++ " ?? throw new System.InvalidOperationException(" ++ nl
  ++ III ++ quote ++ "Unexpected null, had to be handled before" ++ quote ++ ")".

Definition FromSequence_opening
  (description : string) (name : string)
  : string :=
  description ++ nl
  ++ "internal static Aas." ++ name ++ "? " ++ name ++ "FromSequence(" ++ nl
  ++ I ++ "Xml.XmlReader reader," ++ nl
  ++ I ++ "bool isEmptySequence," ++ nl
  ++ I ++ "string? ns," ++ nl
  ++ I ++ "out Reporting.Error? error)" ++ nl
  ++ "{" ++ nl.

Definition FromSequence_closing (name : string) : string :=
  nl
  ++ "}  // internal static Aas." ++ name ++ "? " ++ name ++ "FromSequence".

(** [_generate_deserialize_primitive_property] *)
Definition _generate_deserialize_primitive_property
  (symbol_table : SymbolTable) (prop : Property) (cls : ConcreteClass)
  : Result string :=
  let type_anno := beneath_optional (prop_type_annotation prop) in
  match try_primitive_type symbol_table type_anno with
  | None => Raises AssertionError
  | Some a_type =>
      let deserialization_expr :=
        match a_type with
        | BOOL => "reader.ReadContentAsBoolean()"
        | INT => "reader.ReadContentAsLong()"
        | FLOAT => "reader.ReadContentAsDouble()"
        | STR => "reader.ReadContentAsString()"
        | BYTEARRAY => ReadWholeContentAsBase64_call
        end in
      let target_var := naming_variable_name ("the_" ++ prop_name prop) in
      let the_prop_name := naming_property_name (prop_name prop) in
      let the_cls_name := naming_class_name (cls_name cls) in
      let xml_prop_name_literal :=
        string_literal (xml_property (prop_name prop)) in
      empty_handling_body <~
        match a_type with
        | STR => Stripped (primitive_of_empty_string target_var)
        | _ =>
            Stripped
              (primitive_needs_content the_prop_name the_cls_name
                 xml_prop_name_literal)
        end ;;
      Stripped
        (primitive_property empty_handling_body the_prop_name the_cls_name
           target_var deserialization_expr xml_prop_name_literal)
  end.

(** [_generate_deserialize_enumeration_property] *)
Definition _generate_deserialize_enumeration_property
  (symbol_table : SymbolTable) (prop : Property) (cls : ConcreteClass)
  : Result string :=
  let type_anno := beneath_optional (prop_type_annotation prop) in
  match type_anno with
  | OurTypeAnnotation name =>
      match find_symbol symbol_table name with
      | Some (SymEnumeration symbol) =>
          let target_var := naming_variable_name ("the_" ++ prop_name prop) in
          let text_var := naming_variable_name ("text_" ++ prop_name prop) in
          let the_prop_name := naming_property_name (prop_name prop) in
          let the_cls_name := naming_class_name (cls_name cls) in
          let the_enum_name := naming_enum_name (enum_name symbol) in
          let xml_prop_name_literal :=
            string_literal (xml_property (prop_name prop)) in
          Stripped
            (enumeration_property the_prop_name the_cls_name
               xml_prop_name_literal text_var target_var the_enum_name)
      | _ => Raises AssertionError
      end
  | _ => Raises AssertionError
  end.

(** [_generate_deserialize_interface_property] *)
Definition _generate_deserialize_interface_property
  (symbol_table : SymbolTable) (prop : Property) (cls : ConcreteClass)
  : Result string :=
  let type_anno := beneath_optional (prop_type_annotation prop) in
  match type_anno with
  | OurTypeAnnotation name =>
      match find_symbol symbol_table name with
      | Some (SymAbstractClass _ as symbol)
      | Some (SymConcreteClass _ as symbol) =>
          match symbol_interface symbol with
          | None => Raises AssertionError
          | Some interface =>
              let the_prop_name := naming_property_name (prop_name prop) in
              let the_cls_name := naming_class_name (cls_name cls) in
              let the_interface_name :=
                naming_interface_name (interface_name interface) in
              let target_var :=
                naming_variable_name ("the_" ++ prop_name prop) in
              let xml_prop_name_literal :=
                string_literal (xml_property (prop_name prop)) in
              Stripped
                (interface_property the_prop_name the_cls_name target_var
                   the_interface_name xml_prop_name_literal)
          end
      | _ => Raises AssertionError
      end
  | _ => Raises AssertionError
  end.

(** [_generate_deserialize_cls_property] *)
Definition _generate_deserialize_cls_property
  (symbol_table : SymbolTable) (cls : ConcreteClass) (prop : Property)
  : Result string :=
  let type_anno := beneath_optional (prop_type_annotation prop) in
  match type_anno with
  | OurTypeAnnotation name =>
      match find_symbol symbol_table name with
      | Some (SymConcreteClass symbol) =>
          let target_cls_name := naming_class_name (cls_name symbol) in
          let target_var := naming_variable_name ("the_" ++ prop_name prop) in
          let xml_prop_name_literal :=
            string_literal (xml_property (prop_name prop)) in
          Stripped (cls_property target_var target_cls_name
                      xml_prop_name_literal)
      | _ => Raises AssertionError
      end
  | _ => Raises AssertionError
  end.

(** [_generate_deserialize_list_property] *)
Definition _generate_deserialize_list_property
  (symbol_table : SymbolTable) (prop : Property) : Result string :=
  let type_anno := beneath_optional (prop_type_annotation prop) in
  match type_anno with
  | ListTypeAnnotation (OurTypeAnnotation name as items) =>
      match find_symbol symbol_table name with
      | Some (SymAbstractClass _ as item_symbol)
      | Some (SymConcreteClass _ as item_symbol) =>
          let target_var := naming_variable_name ("the_" ++ prop_name prop) in
          let index_var := naming_variable_name ("index_" ++ prop_name prop) in
          let deserialize_method :=
            if match item_symbol with
               | SymConcreteClass item_cls =>
                   0 <? length (concrete_descendants item_cls)
               | _ => true
               end
            then naming_interface_name (symbol_name item_symbol)
                 ++ "FromElement"
            else naming_class_name (symbol_name item_symbol)
                 ++ "FromElement" in
          let item_type := generate_type items in
          body_for_non_empty_property <~
            Stripped
              (list_of_non_empty_property index_var item_type
                 deserialize_method target_var) ;;
          Stripped
            (list_property target_var item_type body_for_non_empty_property)
      | _ => Raises AssertionError
      end
  | _ => Raises AssertionError
  end.

(** [_generate_deserialize_property], with its precondition.  An
    annotation that names no symbol of the table has no counterpart in
    Python, where the annotation holds the symbol; it ends, as an
    annotation of no known kind does, at [assert_never]. *)
Definition _generate_deserialize_property
  (symbol_table : SymbolTable) (prop : Property) (cls : ConcreteClass)
  : Result (option string * option Error) :=
  (* @require: id(prop) in cls.property_id_set *)
  if negb (in_property_id_set prop cls) then Raises ViolationError
  else
    let type_anno := beneath_optional (prop_type_annotation prop) in
    block <~
      match type_anno with
      | PrimitiveTypeAnnotation _ =>
          _generate_deserialize_primitive_property symbol_table prop cls
      | OurTypeAnnotation name =>
          match find_symbol symbol_table name with
          | Some (SymEnumeration _) =>
              _generate_deserialize_enumeration_property symbol_table prop
                cls
          | Some (SymConstrainedPrimitive _) =>
              _generate_deserialize_primitive_property symbol_table prop cls
          | Some (SymAbstractClass _) =>
              _generate_deserialize_interface_property symbol_table prop cls
          | Some (SymConcreteClass symbol) =>
              if 0 <? length (concrete_descendants symbol)
              then _generate_deserialize_interface_property symbol_table
                     prop cls
              else _generate_deserialize_cls_property symbol_table cls prop
          | None => Raises AssertionError
          end
      | ListTypeAnnotation _ =>
          _generate_deserialize_list_property symbol_table prop
      | OptionalTypeAnnotation _ => Raises AssertionError
      end ;;
    let blocks := [block] in
    code <~ Stripped (String.concat (nl ++ nl) blocks) ;;
    Ok (Some code, None).

(** The statement [... the_... = null;] of a property. *)
Definition init_target_var_stmt (prop : Property) : Result string :=
  let target_type := generate_type (prop_type_annotation prop) in
  let target_var := naming_variable_name ("the_" ++ prop_name prop) in
  target_type <~
    (if negb (ends_with "?" target_type)
     then Stripped (target_type ++ "?")
     else Ok target_type) ;;
  Stripped (target_type ++ " " ++ target_var ++ " = null;").

(** The body of the loop over the properties that collects the [case]
    blocks. *)
Definition case_of_property (symbol_table : SymbolTable)
  (cls : ConcreteClass) (prop : Property)
  (collected : list string * list Error)
  : Result (list string * list Error) :=
  let (case_blocks, errors) := collected in
  '(case_body, error) <~ _generate_deserialize_property symbol_table prop cls ;;
  match error with
  | Some e => Ok (case_blocks, (errors ++ [e])%list)
  | None =>
      match case_body with
      | None => Raises AssertionError
      | Some case_body =>
          let xml_prop_name := xml_property (prop_name prop) in
          let xml_prop_name_literal := string_literal xml_prop_name in
          case_block <~
            Stripped (FromSequence_case xml_prop_name_literal case_body) ;;
          Ok ((case_blocks ++ [case_block])%list, errors)
      end
  end.

(** The body of the loop over the properties that checks the mandatory
    ones. *)
Definition check_of_property (name : string) (prop : Property)
  (blocks : list string) : Result (list string) :=
  let prop_csharp := naming_property_name (prop_name prop) in
  let target_var := naming_variable_name ("the_" ++ prop_name prop) in
  if negb (is_optional (prop_type_annotation prop))
  then
    block <~ Stripped (FromSequence_required target_var prop_csharp name) ;;
    Ok (blocks ++ [block])%list
  else Ok blocks.

(** The body of the loop over the arguments of the constructor, which
    writes the call of the constructor into [init_writer]; [i] counts the
    arguments. *)
Definition argument_of_constructor (cls : ConcreteClass)
  (numbered : nat * Argument) (state : string * list Error)
  : Result (string * list Error) :=
  let (i, arg) := numbered in
  let (init_writer, errors) := state in
  match properties_by_name cls (arg_name arg) with
  | None => Raises KeyError
  | Some prop =>
      if negb
           (type_annotations_equal (arg_type_annotation arg)
              (prop_type_annotation prop)
            || type_annotations_equal
                 (beneath_optional (arg_type_annotation arg))
                 (prop_type_annotation prop))
      then Ok (init_writer,
               (errors ++ [mkError (types_do_not_match prop arg cls) []])%list)
      else
        let arg_var := naming_variable_name ("the_" ++ arg_name arg) in
        let init_writer := init_writer ++ I ++ arg_var in
        let init_writer :=
          if negb (is_optional (prop_type_annotation prop))
          then init_writer ++ nl ++ FromSequence_throw
          else init_writer in
        let init_writer :=
          if i <? length (constructor_arguments cls) - 1
          then init_writer ++ "," ++ nl
          else init_writer ++ ");" in
        Ok (init_writer, errors)
  end.

(** [_generate_deserialize_impl_cls_from_sequence] *)
Definition _generate_deserialize_impl_cls_from_sequence
  (symbol_table : SymbolTable) (cls : ConcreteClass)
  : Result (option string * option (list Error)) :=
  let name := naming_class_name (cls_name cls) in
  description <~ Stripped (FromSequence_description name) ;;
  if length (constructor_arguments cls) =? 0
  then
    code <~ Stripped (FromSequence_hard_wired description name) ;;
    Ok (Some code, None)
  else
    let errors : list Error := [] in
    first <~ Stripped "error = null;" ;;
    let blocks := [first] in
    if negb (0 <? length (constructor_arguments cls))
    then Raises AssertionError
    else
      init_target_var_stmts <~
        for_each init_target_var_stmt (properties cls) ;;
      inits <~ Stripped (String.concat nl init_target_var_stmts) ;;
      let blocks := (blocks ++ [inits])%list in
      at_end_of_file <~ Stripped (FromSequence_at_end_of_file name) ;;
      let blocks_for_non_empty := [at_end_of_file] in
      '(case_blocks, errors) <~
         for_state (case_of_property symbol_table cls) (properties cls)
           ([], errors) ;;
      if 0 <? length errors
      then Ok (None, Some errors)
      else
        default <~ Stripped (FromSequence_default name) ;;
        let case_blocks := (case_blocks ++ [default])%list in
        let switch_body := String.concat nl case_blocks in
        loop <~ Stripped (FromSequence_loop switch_body name) ;;
        let blocks_for_non_empty := (blocks_for_non_empty ++ [loop])%list in
        let body_for_non_empty_sequence :=
          String.concat nl blocks_for_non_empty in
        non_empty <~
          Stripped (FromSequence_non_empty body_for_non_empty_sequence) ;;
        let blocks := (blocks ++ [non_empty])%list in
        blocks <~ for_state (check_of_property name) (properties cls) blocks ;;
        (* assert: the names of the properties and of the arguments of the
           constructor are the same set *)
        if negb (Xmlization.names_coincide cls)
        then Raises AssertionError
        else
          '(init_writer, errors) <~
             for_state (argument_of_constructor cls)
               (combine (seq 0 (length (constructor_arguments cls)))
                  (constructor_arguments cls))
               ("return new Aas." ++ name ++ "(" ++ nl, errors) ;;
          if 0 <? length errors
          then Ok (None, Some errors)
          else
            init <~ Stripped init_writer ;;
            let blocks := (blocks ++ [init])%list in
            code <~
              Stripped
                (FromSequence_opening description name
                 ++ write_blocks I blocks
                 ++ FromSequence_closing name) ;;
            Ok (Some code, None).


(** The body of the loop of [_generate_deserialize_impl] over the
    symbols. *)
Definition deserialize_impl_of (symbol_table : SymbolTable)
  (symbol : Symbol) (collected : Collected) : Result Collected :=
  match symbol with
  | SymEnumeration _ | SymConstrainedPrimitive _ => Ok collected
  | SymAbstractClass _ | SymConcreteClass _ =>
      if symbol_is_implementation_specific symbol
      then
        implementation_keys <~
          for_each ImplementationKey (deserialize_impl_keys symbol) ;;
        Ok (snippets symbol implementation_keys collected)
      else
        collected <~
          match symbol with
          | SymConcreteClass cls =>
              '(block, generation_errors) <~
                 _generate_deserialize_impl_cls_from_sequence symbol_table
                   cls ;;
              match generation_errors with
              | Some underlying =>
                  Ok (append_error
                        (mkError
                           ("Failed to generate the XML deserialization code for the class " ++ symbol_name symbol)
                           underlying)
                        collected)
              | None =>
                  match block with
                  | None => Raises AssertionError
                  | Some block => Ok (append_block block collected)
                  end
              end
          | _ => Ok collected
          end ;;
        collected <~
          match symbol_interface symbol with
          | Some interface =>
              block <~
                _generate_deserialize_impl_interface_from_element interface ;;
              Ok (append_block block collected)
          | None => Ok collected
          end ;;
        match symbol with
        | SymConcreteClass cls =>
            block <~
              _generate_deserialize_impl_concrete_cls_from_element cls ;;
            Ok (append_block block collected)
        | _ => Ok collected
        end
  end.

(** [_generate_deserialize_impl] *)
Definition _generate_deserialize_impl (symbol_table : SymbolTable)
  : Result (option string * option (list Error)) :=
  skip <~ _generate_skip_whitespace_and_comments ;;
  read <~ _generate_read_whole_content_as_base_64 ;;
  extract <~ _generate_extract_element_name ;;
  '(blocks, errors) <~
     for_state (deserialize_impl_of symbol_table) symbol_table
       ([skip; read; extract], []) ;;
  if 0 <? length errors
  then Ok (None, Some errors)
  else
    code <~
      Stripped
        (DeserializeImplementation_opening
         ++ write_blocks I blocks
         ++ DeserializeImplementation_closing) ;;
    Ok (Some code, None).

(** [_generate_deserialize_from] *)
Definition _generate_deserialize_from (name : string) : Result string :=
  Stripped
    (From_documentation name
     ++ (if String.prefix "I" name then From_attribute else "")
     ++ From_method name).

(** The body of the loop of [_generate_deserialize] over the symbols. *)
Definition deserialize_of (symbol : Symbol) (blocks : list string)
  : Result (list string) :=
  match symbol with
  | SymEnumeration _ | SymConstrainedPrimitive _ => Ok blocks
  | SymAbstractClass _ | SymConcreteClass _ =>
      blocks <~
        match symbol_interface symbol with
        | Some interface =>
            block <~
              _generate_deserialize_from
                (naming_interface_name (interface_name interface)) ;;
            Ok (blocks ++ [block])%list
        | None => Ok blocks
        end ;;
      match symbol with
      | SymConcreteClass cls =>
          block <~
            _generate_deserialize_from (naming_class_name (cls_name cls)) ;;
          Ok (blocks ++ [block])%list
      | _ => Ok blocks
      end
  end.

(** The name the examples of the documentation are written for: that of
    the first class of the symbol table. *)
Definition first_cls_name (symbol_table : SymbolTable) : option string :=
  match find is_class symbol_table with
  | Some (SymAbstractClass cls) =>
      Some (naming_interface_name (abstract_name cls))
  | Some (SymConcreteClass cls) => Some (naming_class_name (cls_name cls))
  | _ => None
  end.

(** [_generate_deserialize] *)
Definition _generate_deserialize (symbol_table : SymbolTable)
  : Result string :=
  blocks <~ for_state deserialize_of symbol_table [] ;;
  let example :=
    match first_cls_name symbol_table with
    | Some the_cls_name =>
        let an_instance_variable := naming_variable_name "an_instance" in
        Deserialize_examples the_cls_name an_instance_variable
    | None => ""
    end in
  Stripped
    (Deserialize_summary
     ++ example
     ++ Deserialize_opening
     ++ write_blocks I blocks
     ++ Deserialize_closing).

(** The body of the loop of [_generate_visitor] over the symbols. *)
Definition visitor_of (symbol : Symbol) (collected : Collected)
  : Result Collected :=
  match symbol with
  | SymEnumeration _ | SymConstrainedPrimitive _ | SymAbstractClass _ =>
      Ok collected
  | SymConcreteClass cls =>
      if symbol_is_implementation_specific symbol
      then
        implementation_keys <~
          for_each ImplementationKey (visitor_keys symbol) ;;
        Ok (snippets symbol implementation_keys collected)
      else
        to_sequence <~ _generate_class_to_sequence cls ;;
        visit <~ _generate_visit_for_class cls ;;
        Ok (append_block visit (append_block to_sequence collected))
  end.

(** [_generate_visitor] *)
Definition _generate_visitor (symbol_table : SymbolTable)
  : Result (option string * option (list Error)) :=
  '(blocks, errors) <~ for_state visitor_of symbol_table ([], []) ;;
  result <~
    (if 0 <? length errors
     then Ok (None, Some errors)
     else
       code <~
         Stripped
           (VisitorWithWriter_opening
            ++ write_blocks I blocks
            ++ VisitorWithWriter_closing) ;;
       Ok (Some code, None)) ;;
  (* @ensure: (result[0] is not None) ^ (result[1] is not None) *)
  if negb (xorb (negb (is_None (fst result))) (negb (is_None (snd result))))
  then Raises ViolationError
  else Ok result.

(** [_generate_serialize] *)
Definition _generate_serialize (symbol_table : SymbolTable) : Result string :=
  visitor <~
    Stripped Serialize_visitor ;;
  to <~
    Stripped Serialize_To ;;
  let blocks := [visitor; to] in
  let example :=
    match first_cls_name symbol_table with
    | Some the_cls_name =>
        let an_instance_variable := naming_variable_name "an_instance" in
        Serialize_examples the_cls_name an_instance_variable
    | None => ""
    end in
  Stripped
    (Serialize_summary
     ++ example
     ++ Serialize_opening
     ++ write_blocks I blocks
     ++ Serialize_closing).

(** The two postconditions of [generate]. *)
Definition ensure (result : option string * option (list Error))
  : Result (option string * option (list Error)) :=
  (* (result[0] is not None) ^ (result[1] is not None) *)
  if negb (xorb (negb (is_None (fst result))) (negb (is_None (snd result))))
  then Raises ViolationError
  else
    (* not (result[0] is not None) or result[0].endswith('\n') *)
    if match fst result with
       | Some text => ends_with NEWLINE text
       | None => true
       end
    then Ok result
    else Raises ViolationError.

(** [generate] *)
Definition generate (symbol_table : SymbolTable) (namespace : string)
  : Result (option string * option (list Error)) :=
  '(deserialize_impl_block, deserialize_impl_errors) <~
     _generate_deserialize_impl symbol_table ;;
  collected <~
    match deserialize_impl_errors with
    | Some errors => Ok ([], errors)
    | None =>
        match deserialize_impl_block with
        | None => Raises AssertionError
        | Some block => Ok ([block], [])
        end
    end ;;
  exception <~
    Stripped Exception_class ;;
  let collected := append_block exception collected in
  deserialize <~ _generate_deserialize symbol_table ;;
  let collected := append_block deserialize collected in
  '(visitor_block, visitor_errors) <~ _generate_visitor symbol_table ;;
  collected <~
    match visitor_errors with
    | Some errors => Ok (fst collected, (snd collected ++ errors)%list)
    | None =>
        match visitor_block with
        | None => Raises AssertionError
        | Some block => Ok (append_block block collected)
        end
    end ;;
  if 0 <? length (snd collected)
  then ensure (None, Some (snd collected))
  else
    wrapped_writer <~ _generate_wrapped_writer ;;
    serialize <~ _generate_serialize symbol_table ;;
    let xmlization_blocks :=
      (fst collected ++ [wrapped_writer; serialize])%list in
    usings <~
      Stripped usings ;;
    aas <~ Stripped ("using Aas = " ++ namespace ++ ";") ;;
    xmlization <~
      Stripped
        (Xmlization_opening namespace
         ++ write_blocks II xmlization_blocks
         ++ Xmlization_closing
         ++ namespace_closing namespace) ;;
    let blocks := [WARNING; usings; aas; xmlization; WARNING] in
    if existsb
         (fun block => starts_with NEWLINE block || ends_with NEWLINE block)
         blocks
    then Raises AssertionError
    else ensure (Some (String.concat (nl ++ nl) blocks ++ nl), None).

(** *** What is reported for a symbol

    Not part of the generator: the errors for the snippets of a symbol that
    [spec_impls] does not have and for the arguments of a constructor whose
    types do not match, and the assertions of the generator on a class, in
    the words of the statements below. *)

Definition missing_snippets (symbol : Symbol) (implementation_keys : list string)
  : list Error :=
  map (snippet_is_missing symbol)
    (filter (fun implementation_key =>
               is_None (spec_impls implementation_key))
       implementation_keys).

(** The type of an argument of the constructor is the type of the
    property of its name, or that type made optional. *)
Definition argument_matches (cls : ConcreteClass) (arg : Argument) : bool :=
  match properties_by_name cls (arg_name arg) with
  | Some prop =>
      type_annotations_equal (arg_type_annotation arg)
        (prop_type_annotation prop)
      || type_annotations_equal (beneath_optional (arg_type_annotation arg))
           (prop_type_annotation prop)
  | None => true
  end.

(** One error for every argument of the constructor whose type does not
    match, in the order of the arguments. *)
Definition type_errors (cls : ConcreteClass) : list Error :=
  flat_map
    (fun arg =>
       match properties_by_name cls (arg_name arg) with
       | Some prop =>
           if argument_matches cls arg then []
           else [mkError (types_do_not_match prop arg cls) []]
       | None => []
       end)
    (constructor_arguments cls).

(** The type of a property is one the generator has a [case] for: a
    primitive type, an enumeration, a constrained primitive, a class, where
    an abstract class and a class with descendants come with an interface,
    or a list of classes. *)
Definition property_is_supported (symbol_table : SymbolTable)
  (prop : Property) : bool :=
  match beneath_optional (prop_type_annotation prop) with
  | PrimitiveTypeAnnotation _ => true
  | OurTypeAnnotation name =>
      match find_symbol symbol_table name with
      | Some (SymEnumeration _) | Some (SymConstrainedPrimitive _) => true
      | Some (SymAbstractClass cls) =>
          negb (is_None (abstract_interface cls))
      | Some (SymConcreteClass cls) =>
          if 0 <? length (concrete_descendants cls)
          then negb (is_None (interface cls))
          else true
      | None => false
      end
  | ListTypeAnnotation (OurTypeAnnotation name) =>
      match find_symbol symbol_table name with
      | Some (SymAbstractClass _) | Some (SymConcreteClass _) => true
      | _ => false
      end
  | _ => false
  end.

(** The assertions of [_generate_deserialize_impl_cls_from_sequence] hold
    for a class: its constructor takes no argument, or the types of its
    properties are supported and the names of its properties and of the
    arguments of its constructor coincide. *)
Definition assertions_hold (symbol_table : SymbolTable) (cls : ConcreteClass)
  : bool :=
  (length (constructor_arguments cls) =? 0)
  || (forallb (property_is_supported symbol_table) (properties cls)
      && Xmlization.names_coincide cls).

(** The classes of a symbol table for which the generator emits
    [...FromSequence] itself. *)
Definition emitted_classes (symbol_table : SymbolTable)
  : list ConcreteClass :=
  flat_map
    (fun symbol =>
       match symbol with
       | SymConcreteClass cls =>
           if is_implementation_specific cls then [] else [cls]
       | _ => []
       end)
    symbol_table.

Definition deserialize_impl_errors (symbol : Symbol) : list Error :=
  if is_class symbol && symbol_is_implementation_specific symbol
  then missing_snippets symbol (deserialize_impl_keys symbol)
  else
    match symbol with
    | SymConcreteClass cls =>
        match type_errors cls with
        | [] => []
        | underlying =>
            [mkError
               ("Failed to generate the XML deserialization code for the class " ++ symbol_name symbol)
               underlying]
        end
    | _ => []
    end.

Definition visitor_errors (symbol : Symbol) : list Error :=
  match symbol with
  | SymConcreteClass _ =>
      if symbol_is_implementation_specific symbol
      then missing_snippets symbol (visitor_keys symbol)
      else []
  | _ => []
  end.

End Generator.

End XmlizationGenerator.

(** ** A symbol table with implementation-specific classes *)

Module SnippetsExample.

Import intermediate Python XmlizationGenerator.

Local Open Scope string_scope.

(** An implementation-specific concrete class, an implementation-specific
    abstract class, and two classes the generator emits the code of: one
    without properties, and one whose constructor takes a text for the
    number [size]. *)
Definition Special : ConcreteClass :=
  mkConcreteClass "Special" [] [] [] None true.

Definition Peculiar : AbstractClass :=
  mkAbstractClass "Peculiar" (Some (mkInterface "Peculiar" ["Special"])) true.

Definition Plain : ConcreteClass :=
  mkConcreteClass "Plain" [] [] [] None false.

Definition Sized : ConcreteClass :=
  mkConcreteClass "Sized"
    [mkProperty "label" (PrimitiveTypeAnnotation STR);
     mkProperty "size" (PrimitiveTypeAnnotation INT)]
    [mkArgument "label"
       (OptionalTypeAnnotation (PrimitiveTypeAnnotation STR));
     mkArgument "size" (PrimitiveTypeAnnotation STR)]
    [] None false.

Definition symbol_table : SymbolTable :=
  [SymConcreteClass Special; SymAbstractClass Peculiar; SymConcreteClass Plain;
   SymConcreteClass Sized].

(** A class whose constructor calls the property [label] by another
    name. *)
Definition Renamed : ConcreteClass :=
  mkConcreteClass "Renamed"
    [mkProperty "label" (PrimitiveTypeAnnotation STR)]
    [mkArgument "text" (PrimitiveTypeAnnotation STR)]
    [] None false.

(** The snippets at hand: one of the four of [Special], none of
    [Peculiar]. *)
Definition spec_impls (implementation_key : string) : option string :=
  if String.eqb implementation_key
       "Xmlization/VisitorWithWriter/visit_Special.cs"
  then Some "public override void Visit(Aas.Special that) {}"
  else None.

(** Stand-ins for what the generator calls. *)
Definition as_it_is (text : string) : string := text.

Definition indent (text prefix : string) : string := prefix ++ text.

Definition accepted (text : string) : Result string := Ok text.

Definition repr (text : string) : string := "'" ++ text ++ "'".

Definition str (type_annotation : TypeAnnotation) : string :=
  match type_annotation with
  | PrimitiveTypeAnnotation STR => "str"
  | PrimitiveTypeAnnotation INT => "int"
  | _ => "object"
  end.

Definition _generate_deserialize_impl_cls_from_sequence
  : SymbolTable -> ConcreteClass ->
    Result (option string * option (list Error)) :=
  XmlizationGenerator._generate_deserialize_impl_cls_from_sequence as_it_is
    as_it_is as_it_is as_it_is as_it_is str as_it_is "    " "        "
    "            " "                " "                    " as_it_is indent
    indent accepted repr str.

Definition generate : SymbolTable -> string ->
                      Result (option string * option (list Error)) :=
  XmlizationGenerator.generate as_it_is as_it_is as_it_is as_it_is as_it_is
    str as_it_is "// generated" "    " "        " "            "
    "                " "                    " as_it_is indent indent accepted
    accepted repr str spec_impls
    (Ok "// skip") (Ok "// read") (Ok "// name")
    (fun _ => Ok "// interface from element")
    (fun _ => Ok "// class from element")
    (fun _ => Ok "// to sequence") (fun _ => Ok "// visit")
    (Ok "// wrapped writer").

End SnippetsExample.

(** * Properties *)

(** ** Reporting *)

Section ReportingProperties.

Import Reporting.
Local Open Scope string_scope.

(** C8. The segments [Name("items"), Index(2), Name("value")] render in the
    dotted-bracket form as [items[2].value], without a leading dot and with
    the index in brackets, and in the slash form as [items/*[2]/value],
    joined by slashes without a leading slash. *)
Theorem path_rendering_example :
  generateJsonPath
    [NameSegment "items"; IndexSegment 2; NameSegment "value"]
  = "items[2].value"
  /\ generateRelativeXPath
       [NameSegment "items"; IndexSegment 2; NameSegment "value"]
     = "items/*[2]/value".
Proof. split; reflexivity. Qed.

(** C7, at the names [a<TAB>b] and [a<QUOTE>b], neither of which is an
    identifier: [generateJsonPath] replaces the backslash last, so the
    backslash it has just put before [t] and before the quote is doubled;
    the result has two backslashes where escaping once gives one. *)
Theorem json_path_doubles_the_escapes :
  let tabbed := String "a" (String TAB "b") in
  let quoted := String "a" (String DOUBLE_QUOTE "b") in
  variableNameRe_matches tabbed = false
  /\ variableNameRe_matches quoted = false
  /\ generateJsonPath [NameSegment tabbed]
     = "[" ++ str1 DOUBLE_QUOTE
           ++ "a" ++ str1 BACKSLASH ++ str1 BACKSLASH ++ "tb"
           ++ str1 DOUBLE_QUOTE ++ "]"
  /\ generateJsonPath [NameSegment quoted]
     = "[" ++ str1 DOUBLE_QUOTE
           ++ "a" ++ str1 BACKSLASH ++ str1 BACKSLASH ++ str1 DOUBLE_QUOTE
           ++ "b" ++ str1 DOUBLE_QUOTE ++ "]"
  /\ generateJsonPath [NameSegment tabbed]
     <> "[" ++ str1 DOUBLE_QUOTE ++ escaped_once tabbed
            ++ str1 DOUBLE_QUOTE ++ "]"
  /\ generateJsonPath [NameSegment quoted]
     <> "[" ++ str1 DOUBLE_QUOTE ++ escaped_once quoted
            ++ str1 DOUBLE_QUOTE ++ "]".
Proof.
  cbv zeta.
  repeat split; try reflexivity; vm_compute; discriminate.
Qed.

End ReportingProperties.

(** ** De-serialization *)

Section Deserialization.

Import Reporting intermediate Xmlization.

Variable double : Type.
Variable convert : XmlConvert double.
Variable naming : Naming.
Variable symbol_table : SymbolTable.

Local Abbreviation ClsFromSequence := (ClsFromSequence convert naming symbol_table).
Local Abbreviation sequence_loop := (sequence_loop convert naming symbol_table).
Local Abbreviation ClsFromElement := (ClsFromElement convert naming symbol_table).
Local Abbreviation InterfaceFromElement :=
  (InterfaceFromElement convert naming symbol_table).
Local Abbreviation list_loop := (list_loop convert naming symbol_table).

Lemma ClsFromSequence_S fuel cls reader isEmptySequence ns :
  ClsFromSequence (S fuel) cls reader isEmptySequence ns
  = ClsFromSequence_body (sequence_loop fuel) cls reader isEmptySequence ns.
Proof. reflexivity. Qed.

Lemma sequence_loop_S fuel cls the reader ns :
  sequence_loop (S fuel) cls the reader ns
  = sequence_loop_body convert naming symbol_table (ClsFromSequence fuel)
      (InterfaceFromElement fuel) (sequence_loop fuel) (list_loop fuel)
      cls the reader ns.
Proof. reflexivity. Qed.

Lemma list_loop_S fuel method index the_list reader ns :
  list_loop (S fuel) method index the_list reader ns
  = list_loop_body (ClsFromElement fuel) (InterfaceFromElement fuel)
      (list_loop fuel) method index the_list reader ns.
Proof. reflexivity. Qed.

Lemma ClsFromElement_S fuel cls reader ns :
  ClsFromElement (S fuel) cls reader ns
  = ClsFromElement_body naming (ClsFromSequence fuel) cls reader ns.
Proof. reflexivity. Qed.

Lemma InterfaceFromElement_S fuel interface reader ns :
  InterfaceFromElement (S fuel) interface reader ns
  = InterfaceFromElement_body naming symbol_table (ClsFromElement fuel)
      interface reader ns.
Proof. reflexivity. Qed.


Lemma Skip_at_element (node : XmlNode) (rest : XmlReader.t) :
  node_NodeType node = XmlNodeType.Element ->
  SkipNoneWhitespaceAndComments (node :: rest) = node :: rest.
Proof. intros H. simpl. rewrite H. reflexivity. Qed.

(** What [...FromSequence] returns when the block for a non-empty sequence
    ends at a [return null]. *)
Lemma ClsFromSequence_of_loop_error fuel cls reader isEmptySequence ns e r :
  is_implementation_specific cls = false ->
  constructor_arguments cls <> [] ->
  read_sequence (sequence_loop fuel) cls reader isEmptySequence ns
  = Returns (LoopReturnNull e r) ->
  ClsFromSequence (S fuel) cls reader isEmptySequence ns = return_null e r.
Proof.
  intros Hspec Hargs Hloop.
  rewrite ClsFromSequence_S. unfold ClsFromSequence_body.
  rewrite Hspec.
  destruct (constructor_arguments cls) as [|a args]; [congruence|].
  cbn [length Nat.eqb]. rewrite Hloop. reflexivity.
Qed.

(** C2, amended.  When the loop of [...FromSequence] stands at an element
    whose name is not the name of a property of the class, the method
    returns the error for an unexpected element, which carries the name, and
    the path of the error is empty: no segment is prepended.  In
    particular so for the first element of the sequence. *)
Theorem unknown_property_has_empty_path :
  forall fuel cls the node rest ns elementName,
    is_implementation_specific cls = false ->
    constructor_arguments cls <> [] ->
    node_NodeType node = XmlNodeType.Element ->
    TryElementName (node :: rest) ns = Returns (elementName, None) ->
    case_of naming cls elementName = None ->
    sequence_loop (S fuel) cls the (node :: rest) ns
    = Returns (LoopReturnNull
                 (mkError (UnexpectedProperty (cls_name cls) elementName) [])
                 rest)
    /\ ClsFromSequence (S (S fuel)) cls (node :: rest) false ns
       = return_null
           (mkError (UnexpectedProperty (cls_name cls) elementName) [])
           rest.
Proof.
  intros fuel cls the node rest ns elementName Hspec Hargs Hnode Htry Hcase.
  assert (Hloop : forall the',
             sequence_loop (S fuel) cls the' (node :: rest) ns
             = Returns (LoopReturnNull
                          (mkError (UnexpectedProperty (cls_name cls)
                                      elementName) [])
                          rest)).
  { intros the'. rewrite sequence_loop_S. unfold sequence_loop_body.
    cbn [XmlReader.NodeType]. rewrite Hnode. cbn [XmlNodeType.eqb].
    rewrite Htry. cbn [bind]. rewrite Hcase. reflexivity. }
  split; [apply Hloop|].
  apply ClsFromSequence_of_loop_error; try assumption.
  unfold read_sequence. cbn [negb].
  rewrite (Skip_at_element node rest Hnode). cbn [XmlReader.EOF].
  apply Hloop.
Qed.

(** What [...FromSequence] returns when the loop is left in the ordinary
    way and no required property is missing. *)
Lemma ClsFromSequence_of_loop_done fuel cls reader isEmptySequence ns the r :
  is_implementation_specific cls = false ->
  constructor_arguments cls <> [] ->
  names_coincide cls = true ->
  types_match cls = true ->
  read_sequence (sequence_loop fuel) cls reader isEmptySequence ns
  = Returns (LoopDone the r) ->
  first_missing cls the = None ->
  ClsFromSequence (S fuel) cls reader isEmptySequence ns
  = Returns (Some (VObject (cls_name cls)
                     (map (fun prop => the (prop_name prop))
                        (properties cls))),
             None, r).
Proof.
  intros Hspec Hargs Hnames Htypes Hloop Hmissing.
  rewrite ClsFromSequence_S. unfold ClsFromSequence_body.
  rewrite Hspec.
  destruct (constructor_arguments cls) as [|a args] eqn:Ha; [congruence|].
  cbn [length Nat.eqb]. rewrite Hloop. cbn [bind].
  rewrite Hmissing, Hnames, Htypes. reflexivity.
Qed.

(** A class with a property has, when the names of its properties and of
    the arguments of its constructor coincide, a constructor with
    arguments. *)
Lemma arguments_of_a_property cls prop :
  names_coincide cls = true ->
  In prop (properties cls) ->
  constructor_arguments cls <> [].
Proof.
  intros Hnames Hin. unfold names_coincide in Hnames.
  apply andb_true_iff in Hnames. destruct Hnames as [Hprops _].
  rewrite forallb_forall in Hprops. specialize (Hprops prop Hin).
  destruct (constructor_arguments cls); [discriminate|discriminate].
Qed.

Lemma case_of_In cls elementName prop :
  case_of naming cls elementName = Some prop -> In prop (properties cls).
Proof.
  unfold case_of. intros H. apply find_some in H. tauto.
Qed.

(** The loop of [...FromSequence] at a node that is no element. *)
Lemma loop_left_at_no_element fuel cls (the : Temporaries double) reader ns :
  XmlReader.NodeType reader <> XmlNodeType.Element ->
  (if XmlReader.EOF reader
   then Returns (LoopDone the reader)
   else sequence_loop (S fuel) cls the reader ns)
  = Returns (LoopDone the reader).
Proof.
  intros Hnode. destruct (XmlReader.EOF reader); [reflexivity|].
  rewrite sequence_loop_S. unfold sequence_loop_body.
  destruct (XmlReader.NodeType reader); try reflexivity.
  congruence.
Qed.

(** The loop of [...FromSequence] at a self-closing element whose [case]
    assigns [value] and does not move the reader. *)
Lemma loop_at_self_closing fuel cls (the : Temporaries double) node rest ns
  prop value :
  node_NodeType node = XmlNodeType.Element ->
  node_IsEmptyElement node = true ->
  TryElementName (node :: rest) ns
  = Returns (xml_property naming (prop_name prop), None) ->
  case_of naming cls (xml_property naming (prop_name prop)) = Some prop ->
  deserialize_property convert naming symbol_table (ClsFromSequence fuel)
    (InterfaceFromElement fuel) (list_loop fuel) prop cls
    (xml_property naming (prop_name prop)) true rest ns
  = Returns (Break (Some value) rest) ->
  sequence_loop (S fuel) cls the (node :: rest) ns
  = (let the' := fun name => if String.eqb name (prop_name prop)
                             then Some value else the name in
     let reader := SkipNoneWhitespaceAndComments rest in
     if XmlReader.EOF reader
     then Returns (LoopDone the' reader)
     else sequence_loop fuel cls the' reader ns).
Proof.
  intros Hnode Hempty Htry Hcase Hvalue.
  rewrite sequence_loop_S. unfold sequence_loop_body.
  cbn [XmlReader.NodeType XmlReader.IsEmptyElement XmlReader.Read tl].
  rewrite Hnode, Hempty. cbn [XmlNodeType.eqb]. rewrite Htry. cbn [bind].
  rewrite Hcase, Hvalue. cbn [bind]. unfold read_end_of_property.
  cbn [negb bind]. reflexivity.
Qed.

(** [...FromSequence] over a sequence of one self-closing element whose
    [case] assigns [value], for a class that requires no other property. *)
Lemma sequence_of_one_self_closing fuel cls node rest ns prop value :
  node_NodeType node = XmlNodeType.Element ->
  node_IsEmptyElement node = true ->
  TryElementName (node :: rest) ns
  = Returns (xml_property naming (prop_name prop), None) ->
  case_of naming cls (xml_property naming (prop_name prop)) = Some prop ->
  (forall fuel',
      deserialize_property convert naming symbol_table
        (ClsFromSequence fuel') (InterfaceFromElement fuel')
        (list_loop fuel') prop cls (xml_property naming (prop_name prop))
        true rest ns
      = Returns (Break (Some value) rest)) ->
  is_implementation_specific cls = false ->
  names_coincide cls = true ->
  types_match cls = true ->
  (forall q, In q (properties cls) ->
             prop_name q <> prop_name prop ->
             is_optional (prop_type_annotation q) = true) ->
  XmlReader.NodeType (SkipNoneWhitespaceAndComments rest)
  <> XmlNodeType.Element ->
  ClsFromSequence (S (S (S fuel))) cls (node :: rest) false ns
  = Returns (Some (VObject (cls_name cls)
                     (map (fun q => if String.eqb (prop_name q)
                                         (prop_name prop)
                                    then Some value else None)
                        (properties cls))),
             None,
             SkipNoneWhitespaceAndComments rest).
Proof.
  intros Hnode Hempty Htry Hcase Hvalue Hspec Hnames Htypes Hothers Hstop.
  apply (@ClsFromSequence_of_loop_done (S (S fuel)) cls (node :: rest) false
           ns
           (fun name => if String.eqb name (prop_name prop)
                        then Some value else None)
           (SkipNoneWhitespaceAndComments rest));
    try assumption.
  - apply (arguments_of_a_property cls prop Hnames).
    now apply case_of_In with (elementName :=
                                 xml_property naming (prop_name prop)).
  - unfold read_sequence. cbn [negb].
    rewrite (Skip_at_element node rest Hnode). cbn [XmlReader.EOF].
    rewrite (@loop_at_self_closing (S fuel) cls all_null node rest ns prop
               value Hnode Hempty Htry Hcase (Hvalue (S fuel))).
    cbv zeta. unfold all_null.
    now apply loop_left_at_no_element.
  - unfold first_missing.
    destruct (find _ (properties cls)) as [q|] eqn:Hfind; [|reflexivity].
    apply find_some in Hfind. destruct Hfind as [Hin Hq].
    apply andb_true_iff in Hq. destruct Hq as [Hreq Hnull].
    destruct (String.eqb (prop_name q) (prop_name prop)) eqn:Heq;
      [discriminate|].
    apply String.eqb_neq in Heq.
    rewrite (Hothers q Hin Heq) in Hreq. discriminate.
Qed.

(** C6.  When the loop of [...FromSequence] stands at a self-closing element
    with the name of a property of a primitive type.  For a string: the
    temporary of the property becomes the empty string, the other
    temporaries stay as they are, and the loop goes on behind the element;
    if the element is the only one of the sequence and the class requires
    no other property, [...FromSequence] succeeds, and the instance it
    returns holds the empty string as the value of the property.  For a
    Boolean, an integer or a floating-point number: the loop, and with it
    [...FromSequence], returns the error that the property needs content,
    with the name of the property as the only segment of its path. *)
Theorem self_closing_scalar :
  forall fuel cls the node rest ns prop a_type,
    node_NodeType node = XmlNodeType.Element ->
    node_IsEmptyElement node = true ->
    TryElementName (node :: rest) ns
    = Returns (xml_property naming (prop_name prop), None) ->
    case_of naming cls (xml_property naming (prop_name prop)) = Some prop ->
    dispatch symbol_table (beneath_optional (prop_type_annotation prop))
    = AsPrimitive a_type ->
    (a_type = STR ->
     (exists the',
         the' (prop_name prop) = Some (VString EmptyString)
         /\ (forall name, name <> prop_name prop -> the' name = the name)
         /\ sequence_loop (S fuel) cls the (node :: rest) ns
            = (let reader := SkipNoneWhitespaceAndComments rest in
               if XmlReader.EOF reader
               then Returns (LoopDone the' reader)
               else sequence_loop fuel cls the' reader ns))
     /\ (is_implementation_specific cls = false ->
         names_coincide cls = true ->
         types_match cls = true ->
         (forall q, In q (properties cls) ->
                    prop_name q <> prop_name prop ->
                    is_optional (prop_type_annotation q) = true) ->
         XmlReader.NodeType (SkipNoneWhitespaceAndComments rest)
         <> XmlNodeType.Element ->
         ClsFromSequence (S (S (S fuel))) cls (node :: rest) false ns
         = Returns (Some (VObject (cls_name cls)
                            (map (fun q =>
                                    if String.eqb (prop_name q)
                                         (prop_name prop)
                                    then Some (VString EmptyString)
                                    else None)
                               (properties cls))),
                    None,
                    SkipNoneWhitespaceAndComments rest)))
    /\ (a_type = BOOL \/ a_type = INT \/ a_type = FLOAT ->
        sequence_loop (S fuel) cls the (node :: rest) ns
        = Returns (LoopReturnNull
                     (mkError (NeedsContent (prop_name prop) (cls_name cls))
                        [NameSegment (xml_property naming (prop_name prop))])
                     rest)
        /\ (is_implementation_specific cls = false ->
            names_coincide cls = true ->
            types_match cls = true ->
            ClsFromSequence (S (S fuel)) cls (node :: rest) false ns
            = Returns (None,
                       Some (mkError
                               (NeedsContent (prop_name prop) (cls_name cls))
                               [NameSegment
                                  (xml_property naming (prop_name prop))]),
                       rest))).
Proof.
  intros fuel cls the node rest ns prop a_type Hnode Hempty Htry Hcase Hdisp.
  split; intros Htype.
  - subst a_type.
    assert (Hvalue : forall fuel',
               deserialize_property convert naming symbol_table
                 (ClsFromSequence fuel') (InterfaceFromElement fuel')
                 (list_loop fuel') prop cls
                 (xml_property naming (prop_name prop)) true rest ns
               = Returns (Break (Some (VString EmptyString)) rest)).
    { intros fuel'. unfold deserialize_property. rewrite Hdisp.
      reflexivity. }
    split.
    + exists (fun name => if String.eqb name (prop_name prop)
                          then Some (VString EmptyString) else the name).
      split; [now rewrite String.eqb_refl|].
      split.
      * intros name Hname. apply String.eqb_neq in Hname.
        now rewrite Hname.
      * apply (@loop_at_self_closing fuel cls the node rest ns prop
                 (VString EmptyString) Hnode Hempty Htry Hcase (Hvalue fuel)).
    + intros Hspec Hnames Htypes Hothers Hstop.
      now apply sequence_of_one_self_closing.
  - assert (Hloop : forall fuel' the',
               sequence_loop (S fuel') cls the' (node :: rest) ns
               = Returns (LoopReturnNull
                            (mkError
                               (NeedsContent (prop_name prop) (cls_name cls))
                               [NameSegment
                                  (xml_property naming (prop_name prop))])
                            rest)).
    { intros fuel' the'. rewrite sequence_loop_S. unfold sequence_loop_body.
      cbn [XmlReader.NodeType XmlReader.IsEmptyElement XmlReader.Read tl].
      rewrite Hnode, Hempty. cbn [XmlNodeType.eqb]. rewrite Htry.
      cbn [bind]. rewrite Hcase. unfold deserialize_property.
      rewrite Hdisp. unfold deserialize_primitive_property.
      destruct Htype as [-> | [-> | ->]]; reflexivity. }
    split; [apply Hloop|].
    intros Hspec Hnames Htypes.
    assert (Hargs : constructor_arguments cls <> []).
    { apply (arguments_of_a_property cls prop Hnames).
      now apply case_of_In with (elementName :=
                                   xml_property naming (prop_name prop)). }
    rewrite (@ClsFromSequence_of_loop_error (S fuel) cls (node :: rest)
               false ns
               (mkError (NeedsContent (prop_name prop) (cls_name cls))
                  [NameSegment (xml_property naming (prop_name prop))])
               rest Hspec Hargs);
      [reflexivity|].
    unfold read_sequence. cbn [negb].
    rewrite (Skip_at_element node rest Hnode). cbn [XmlReader.EOF].
    apply Hloop.
Qed.

(** C10.  For a class whose constructor takes no arguments,
    [...FromSequence] returns a new instance and no error and leaves the
    reader where it was, whatever [isEmptySequence] says and whatever the
    reader stands at; no element is looked at, and none is reported. *)
Theorem no_arguments_nothing_read :
  forall fuel cls reader isEmptySequence ns,
    is_implementation_specific cls = false ->
    length (constructor_arguments cls) = 0 ->
    ClsFromSequence (S fuel) cls reader isEmptySequence ns
    = Returns (Some (new cls all_null), None, reader).
Proof.
  intros fuel cls reader isEmptySequence ns Hspec Hargs.
  rewrite ClsFromSequence_S. unfold ClsFromSequence_body.
  rewrite Hspec, Hargs. reflexivity.
Qed.


Lemma find_first {A : Type} (f : A -> bool) (l : list A) :
  (exists q, In q l /\ f q = true) ->
  exists before p after,
    l = before ++ p :: after
    /\ (forall q, In q before -> f q = false)
    /\ f p = true
    /\ find f l = Some p.
Proof.
  induction l as [|a l IH]; intros [q [Hin Hq]]; [destruct Hin|].
  destruct (f a) eqn:Hfa.
  - exists [], a, l. cbn. rewrite Hfa. repeat split; auto.
    intros ? [].
  - destruct Hin as [-> | Hin]; [congruence|].
    destruct IH as (before & p & after & -> & Hbefore & Hp & Hfind);
      [eauto|].
    exists (a :: before), p, after. cbn. rewrite Hfa.
    repeat split; auto.
    intros q' [<- | Hq']; auto.
Qed.

(** C5, amended.  For a class with a property that is not optional: when
    the block of [...FromSequence] that reads the sequence is left in the
    ordinary way (the loop ended, be it at the end of the document behind
    the element of a property, or the sequence was empty) and the
    temporary of some property that is not optional is still [null], the
    method returns the error that a required property is missing; the
    property named is the first such in the order of declaration, and the
    path of the error is empty.  So it is in particular where the sequence
    holds no element at all: it is empty, or the reader stands at a node
    that is no element; the property named is then the first that is not
    optional.  The end of the document in front of the first element of a
    sequence that is not empty does not leave the block in the ordinary
    way: the method then returns the error that a property was expected at
    the end of the file, with an empty path, whatever the class
    requires. *)
Theorem missing_required_property :
  forall fuel cls reader isEmptySequence ns,
    is_implementation_specific cls = false ->
    names_coincide cls = true ->
    types_match cls = true ->
    (exists q, In q (properties cls)
               /\ is_optional (prop_type_annotation q) = false) ->
    (forall the reader',
        read_sequence (sequence_loop fuel) cls reader isEmptySequence ns
        = Returns (LoopDone the reader') ->
        (exists q, In q (properties cls)
                   /\ is_optional (prop_type_annotation q) = false
                   /\ the (prop_name q) = None) ->
        exists before p after,
          properties cls = before ++ p :: after
          /\ (forall q, In q before ->
                        is_optional (prop_type_annotation q) = true
                        \/ the (prop_name q) <> None)
          /\ is_optional (prop_type_annotation p) = false
          /\ the (prop_name p) = None
          /\ ClsFromSequence (S fuel) cls reader isEmptySequence ns
             = Returns (None,
                        Some (mkError
                                (RequiredPropertyMissing (prop_name p)
                                   (cls_name cls))
                                []),
                        reader'))
    /\ (isEmptySequence = true
        \/ (SkipNoneWhitespaceAndComments reader <> []
            /\ XmlReader.NodeType (SkipNoneWhitespaceAndComments reader)
               <> XmlNodeType.Element) ->
        exists before p after,
          properties cls = before ++ p :: after
          /\ (forall q, In q before ->
                        is_optional (prop_type_annotation q) = true)
          /\ is_optional (prop_type_annotation p) = false
          /\ ClsFromSequence (S (S fuel)) cls reader isEmptySequence ns
             = Returns (None,
                        Some (mkError
                                (RequiredPropertyMissing (prop_name p)
                                   (cls_name cls))
                                []),
                        if isEmptySequence
                        then reader
                        else SkipNoneWhitespaceAndComments reader))
    /\ (isEmptySequence = false ->
        SkipNoneWhitespaceAndComments reader = [] ->
        ClsFromSequence (S fuel) cls reader isEmptySequence ns
        = Returns (None,
                   Some (mkError (PropertyAtEndOfFile (cls_name cls)) []),
                   [])).
Proof.
  intros fuel cls reader isEmptySequence ns Hspec Hnames Htypes
    (required & Hrequired & Hnot_optional).
  assert (Hargs := arguments_of_a_property cls required Hnames Hrequired).
  assert (Hnone : (length (constructor_arguments cls) =? 0) = false).
  { destruct (constructor_arguments cls); [congruence|reflexivity]. }
  assert (Hfirst : forall fuel' the reader',
             read_sequence (sequence_loop fuel') cls reader isEmptySequence ns
             = Returns (LoopDone the reader') ->
             (exists q, In q (properties cls)
                        /\ is_optional (prop_type_annotation q) = false
                        /\ the (prop_name q) = None) ->
             exists before p after,
               properties cls = before ++ p :: after
               /\ (forall q, In q before ->
                             is_optional (prop_type_annotation q) = true
                             \/ the (prop_name q) <> None)
               /\ is_optional (prop_type_annotation p) = false
               /\ the (prop_name p) = None
               /\ ClsFromSequence (S fuel') cls reader isEmptySequence ns
                  = Returns (None,
                             Some (mkError
                                     (RequiredPropertyMissing (prop_name p)
                                        (cls_name cls))
                                     []),
                             reader')).
  { intros fuel' the reader' Hloop Hmissing.
    destruct (find_first
                (fun prop =>
                   negb (is_optional (prop_type_annotation prop))
                   && match the (prop_name prop) with
                      | None => true
                      | Some _ => false
                      end)
                (properties cls)) as (before & p & after & Hsplit & Hbefore
                                      & Hp & Hfind).
    { destruct Hmissing as (q & Hin & Hreq & Hnull).
      exists q. rewrite Hreq, Hnull. auto. }
    exists before, p, after.
    apply andb_true_iff in Hp. destruct Hp as [Hreq Hnull].
    apply negb_true_iff in Hreq.
    repeat split; auto.
    + intros q Hq. specialize (Hbefore q Hq).
      destruct (is_optional (prop_type_annotation q)); [auto|].
      right. destruct (the (prop_name q)); [discriminate|].
      discriminate.
    + destruct (the (prop_name p)); [discriminate|reflexivity].
    + rewrite ClsFromSequence_S. unfold ClsFromSequence_body.
      rewrite Hspec, Hnone, Hloop. cbn [bind].
      unfold first_missing. rewrite Hfind. reflexivity. }
  split; [exact (Hfirst fuel)|]. split.
  - intros Hnothing.
    destruct (Hfirst (S fuel) all_null
                (if isEmptySequence
                 then reader
                 else SkipNoneWhitespaceAndComments reader))
      as (before & p & after & Hsplit & Hbefore & Hp & _ & Hanswer).
    + unfold read_sequence.
      destruct isEmptySequence; [reflexivity|]. cbn [negb].
      destruct Hnothing as [Habsurd | [Hmore Hnode]]; [discriminate|].
      assert (Hleft := @loop_left_at_no_element fuel cls all_null _ ns Hnode).
      destruct (SkipNoneWhitespaceAndComments reader); [congruence|].
      exact Hleft.
    + exists required. repeat split; assumption.
    + exists before, p, after. repeat split; auto.
      intros q Hq. destruct (Hbefore q Hq) as [Hoptional | Hset];
        [exact Hoptional|].
      now elim Hset.
  - intros -> Hend.
    rewrite ClsFromSequence_S. unfold ClsFromSequence_body.
    rewrite Hspec, Hnone. unfold read_sequence. cbn [negb].
    rewrite Hend. reflexivity.
Qed.

(** The implementation never hands back [null] without an error. *)
Lemma ClsFromSequence_result fuel cls reader isEmptySequence ns result
  reader' :
  ClsFromSequence fuel cls reader isEmptySequence ns
  = Returns (result, None, reader') ->
  exists value, result = Some value.
Proof.
  destruct fuel as [|fuel]; [discriminate|].
  rewrite ClsFromSequence_S. unfold ClsFromSequence_body, return_null.
  repeat match goal with
         | |- context [if ?b then _ else _] => destruct b
         | |- context [bind ?c _] => destruct c as [[]| | |]; cbn [bind]
         | |- context [match ?c with Some _ => _ | None => _ end] =>
             destruct c
         end;
    intros H; inversion H; eauto.
Qed.

Lemma ClsFromElement_result fuel cls reader ns result reader' :
  ClsFromElement fuel cls reader ns = Returns (result, None, reader') ->
  exists value, result = Some value.
Proof.
  destruct fuel as [|fuel]; [discriminate|].
  rewrite ClsFromElement_S. unfold ClsFromElement_body, return_null.
  destruct (is_implementation_specific cls); [discriminate|].
  destruct (XmlReader.EOF _); [discriminate|].
  destruct (negb _); [discriminate|].
  destruct (TryElementName _ ns) as [[elementName [e|]]| | |]; cbn [bind];
    try discriminate.
  destruct (negb _); [discriminate|].
  destruct (ClsFromSequence fuel cls _ _ ns)
    as [[[result0 [e|]] reader0]| | |] eqn:Hseq; cbn [bind];
    try discriminate.
  apply ClsFromSequence_result in Hseq. destruct Hseq as [value ->].
  repeat match goal with
         | |- context [if ?b then _ else _] => destruct b
         | |- context [bind ?c _] =>
             destruct c as [[? [?|]]| | |]; cbn [bind]
         end;
    intros H; inversion H; eauto.
Qed.

Lemma InterfaceFromElement_result fuel interface reader ns result reader' :
  InterfaceFromElement fuel interface reader ns
  = Returns (result, None, reader') ->
  exists value, result = Some value.
Proof.
  destruct fuel as [|fuel]; [discriminate|].
  rewrite InterfaceFromElement_S.
  unfold InterfaceFromElement_body, return_null.
  destruct (XmlReader.EOF _); [discriminate|].
  destruct (negb _); [discriminate|].
  destruct (TryElementName _ ns) as [[elementName [e|]]| | |]; cbn [bind];
    try discriminate.
  destruct (find _ _); [|discriminate].
  destruct (find_concrete_class _ _); [|discriminate].
  apply ClsFromElement_result.
Qed.

Lemma deserialize_from_answers (implementation : Completion (Out double)) :
  (forall result reader,
      implementation = Returns (result, None, reader) ->
      exists value, result = Some value) ->
  facade_answers implementation (deserialize_from implementation).
Proof.
  intros Hresult. unfold facade_answers, deserialize_from.
  destruct implementation as [[[result [e|]] reader]| | |]; cbn [bind];
    try reflexivity.
  destruct (Hresult result reader eq_refl) as [value ->]. eauto.
Qed.

(** C9.  For every call of a facade method [...From]: when the method of the
    implementation hands back an error, the facade throws the exception of
    the de-serialization with the path of the error in the slash form and
    with its cause; when it hands back no error, the result is an instance
    and the facade returns it.  The facade returns nothing else: it never
    returns [null], and never returns when there is an error. *)
Theorem facade_throws_or_returns_instance :
  forall fuel reader ns,
    (forall cls,
        facade_answers (ClsFromElement fuel cls reader ns)
          (ClsFrom convert naming symbol_table fuel cls reader ns))
    /\ (forall interface,
          facade_answers (InterfaceFromElement fuel interface reader ns)
            (InterfaceFrom convert naming symbol_table fuel interface reader
               ns)).
Proof.
  intros fuel reader ns. split; intros x; apply deserialize_from_answers.
  - intros result reader'. apply ClsFromElement_result.
  - intros result reader'. apply InterfaceFromElement_result.
Qed.

End Deserialization.

(** ** The emitted code on the small meta-model *)

Section OnTheExample.

Import Reporting intermediate Xmlization Example.
Local Open Scope string_scope.

Lemma parse_string_of_Z (z : Z) :
  parse_Z (string_of_Z z) = Some z /\ string_of_Z z <> EmptyString.
Proof.
  assert (H : parse_Z (string_of_Z z) = Some z).
  { unfold parse_Z, string_of_Z. rewrite NilZero.isi.
    - now rewrite DecimalZ.of_to.
    - destruct z; simpl; try discriminate.
      intros [= H]. now apply DecimalPos.Unsigned.to_uint_nonnil in H.
    - destruct z; simpl; try discriminate.
      intros [= H]. now apply DecimalPos.Unsigned.to_uint_nonnil in H. }
  split; [exact H|].
  intros Hempty. rewrite Hempty in H. discriminate.
Qed.

Lemma example_convert_lossless : Lossless Example.convert.
Proof.
  unfold Lossless.
  cbn [Example.convert FromBase64String ToBase64String ToBoolean
         ToString_bool ToInt64 ToString_long ToDouble ToString_double].
  split; [intros b; destruct b; (split; [reflexivity|discriminate])|].
  split; [intros z; apply parse_string_of_Z|].
  split; [intros z; apply parse_string_of_Z|].
  intros bytes. split.
  - now rewrite list_byte_of_string_of_list_byte.
  - destruct bytes; [congruence|]. discriminate.
Qed.

(** [<Named><name/></Named>], where [name] is a required string, gives the
    instance with the empty name. *)
Example named_self_closing_decodes :
  From 5 Named named_self_closing
  = Returns (VObject "Named" [Some (VString "")], []).
Proof. reflexivity. Qed.

(** [<Counted><name/></Counted>], where [name] is a required integer, gives
    the error that the property needs content, at [name]. *)
Example counted_self_closing_fails :
  From 5 Counted counted_self_closing
  = Throws (XmlizationException "name" (NeedsContent "name" "Counted")).
Proof. reflexivity. Qed.

(** C2, as stated, fails on [<Named><bogus/></Named>]: the class [Named] has
    no property [bogus], de-serialization returns the error for the
    unexpected element [bogus], and the path of the error is not the
    segment [Name("bogus")]; it is empty. *)
Lemma unknown_property_path_is_not_its_name :
  exists e reader,
    FromElement 5 Named unknown_element = Returns (None, Some e, reader)
    /\ cause e = UnexpectedProperty "Named" "bogus"
    /\ pathSegments e = []
    /\ pathSegments e <> [NameSegment "bogus"].
Proof.
  eexists. eexists. split; [reflexivity|]. cbn.
  repeat split. discriminate.
Qed.

Lemma unknown_property_has_empty_path_witness :
  is_implementation_specific Named = false
  /\ constructor_arguments Named <> []
  /\ sequence_loop Example.convert Example.naming Example.symbol_table 1
       Named all_null [self_closing "bogus"; close "Named"] None
     = Returns (LoopReturnNull
                  (mkError (UnexpectedProperty "Named" "bogus") [])
                  [close "Named"])
  /\ ClsFromSequence Example.convert Example.naming Example.symbol_table 2
       Named [self_closing "bogus"; close "Named"] false None
     = return_null (mkError (UnexpectedProperty "Named" "bogus") [])
         [close "Named"].
Proof.
  split; [reflexivity|]. split; [discriminate|].
  apply (@unknown_property_has_empty_path Z Example.convert Example.naming
           Example.symbol_table 0 Named all_null (self_closing "bogus")
           [close "Named"] None "bogus");
    try reflexivity.
  discriminate.
Defined.

Lemma self_closing_scalar_witness :
  sequence_loop Example.convert Example.naming Example.symbol_table 2 Named
    all_null [self_closing "name"; close "Named"] None
  = Returns (LoopDone
               (fun name => if String.eqb name "name"
                            then Some (VString "") else None)
               [close "Named"])
  /\ ClsFromSequence Example.convert Example.naming Example.symbol_table 3
       Named [self_closing "name"; close "Named"] false None
     = Returns (Some (VObject "Named" [Some (VString "")]), None,
                [close "Named"])
  /\ sequence_loop Example.convert Example.naming Example.symbol_table 1
       Counted all_null [self_closing "name"; close "Counted"] None
     = Returns (LoopReturnNull
                  (mkError (NeedsContent "name" "Counted")
                     [NameSegment "name"])
                  [close "Counted"])
  /\ ClsFromSequence Example.convert Example.naming Example.symbol_table 2
       Counted [self_closing "name"; close "Counted"] false None
     = Returns (None,
                Some (mkError (NeedsContent "name" "Counted")
                        [NameSegment "name"]),
                [close "Counted"]).
Proof.
  destruct (@self_closing_scalar Z Example.convert Example.naming
              Example.symbol_table 1 Named all_null (self_closing "name")
              [close "Named"] None
              (mkProperty "name" (PrimitiveTypeAnnotation STR)) STR
              eq_refl eq_refl eq_refl eq_refl eq_refl)
    as [Hstring _].
  destruct (Hstring eq_refl) as [(the' & Hname & Hothers & Hloop) Hmethod].
  destruct (@self_closing_scalar Z Example.convert Example.naming
              Example.symbol_table 0 Counted all_null (self_closing "name")
              [close "Counted"] None
              (mkProperty "name" (PrimitiveTypeAnnotation INT)) INT
              eq_refl eq_refl eq_refl eq_refl eq_refl)
    as [_ Hnumber].
  destruct (Hnumber (or_intror (or_introl eq_refl))) as [Hfails Hmethod'].
  split; [reflexivity|].
  split.
  - apply Hmethod; try reflexivity.
    + intros q [<- | []] Hq. now elim Hq.
    + discriminate.
  - split; [exact Hfails|].
    apply Hmethod'; reflexivity.
Defined.

Lemma no_arguments_nothing_read_witness :
  ClsFromSequence Example.convert Example.naming Example.symbol_table 1
    Nothing [self_closing "bogus"; close "Nothing"] false None
  = Returns (Some (VObject "Nothing" []), None,
             [self_closing "bogus"; close "Nothing"]).
Proof.
  apply (@no_arguments_nothing_read Z Example.convert Example.naming
           Example.symbol_table 0 Nothing
           [self_closing "bogus"; close "Nothing"] false None);
    reflexivity.
Defined.

(** [<Pair><a>1</a>] and then the end of the document: the loop ends in the
    ordinary way at the end of the document, and what is reported is the
    missing [b].  White space and then [</Pair>]: what is reported is the
    missing [a].  White space and then the end of the document: what is
    reported is the end of the file. *)
Lemma missing_required_property_witness :
  read_sequence
    (sequence_loop Example.convert Example.naming Example.symbol_table 2)
    Pair [start "a"; text "1"; close "a"] false None
  = Returns (LoopDone
               (fun name => if String.eqb name "a"
                            then Some (VLong 1) else None)
               [])
  /\ ClsFromSequence Example.convert Example.naming Example.symbol_table 3
       Pair [start "a"; text "1"; close "a"] false None
     = Returns (None,
                Some (mkError (RequiredPropertyMissing "b" "Pair") []),
                [])
  /\ ClsFromSequence Example.convert Example.naming Example.symbol_table 3
       Pair [text " "; close "Pair"] false None
     = Returns (None,
                Some (mkError (RequiredPropertyMissing "a" "Pair") []),
                [close "Pair"])
  /\ ClsFromSequence Example.convert Example.naming Example.symbol_table 3
       Pair [text " "] false None
     = Returns (None, Some (mkError (PropertyAtEndOfFile "Pair") []), []).
Proof.
  assert (Hrequired : exists q,
             In q (properties Pair)
             /\ is_optional (prop_type_annotation q) = false).
  { exists (mkProperty "a" (PrimitiveTypeAnnotation INT)).
    split; [left; reflexivity|reflexivity]. }
  destruct (@missing_required_property Z Example.convert Example.naming
              Example.symbol_table 2 Pair [start "a"; text "1"; close "a"]
              false None eq_refl eq_refl eq_refl Hrequired)
    as [Hmissing _].
  destruct (@missing_required_property Z Example.convert Example.naming
              Example.symbol_table 1 Pair [text " "; close "Pair"] false None
              eq_refl eq_refl eq_refl Hrequired)
    as [_ [Hnothing _]].
  destruct (@missing_required_property Z Example.convert Example.naming
              Example.symbol_table 2 Pair [text " "] false None eq_refl
              eq_refl eq_refl Hrequired)
    as [_ [_ Hend]].
  split; [reflexivity|].
  split; [|split; [|exact (Hend eq_refl eq_refl)]].
  2: {
    destruct Hnothing
      as (before & p & after & Hsplit & Hbefore & Hp & Hanswer).
    { right. split; discriminate. }
    destruct before as [|x before]; cbn in Hsplit.
    - injection Hsplit as <- _. exact Hanswer.
    - injection Hsplit as <- _.
      discriminate (Hbefore _ (or_introl eq_refl)). }
  destruct (Hmissing
              (fun name => if String.eqb name "a"
                           then Some (VLong 1) else None)
              [] eq_refl)
    as (before & p & after & Hsplit & Hbefore & Hp & Hnull & Hanswer).
  { exists (mkProperty "b" (PrimitiveTypeAnnotation INT)).
    split; [right; left; reflexivity|]. split; reflexivity. }
  destruct before as [|x [|y before]]; cbn in Hsplit.
  - injection Hsplit as <- _. discriminate Hnull.
  - injection Hsplit as _ <- _. exact Hanswer.
  - injection Hsplit as _ _ Hrest. destruct before; discriminate Hrest.
Defined.

(** C5, as stated, fails on [<Pair>] followed by the end of the document:
    [a] and [b] are required and were not read, the document ends where the
    sequence of the properties begins, and what de-serialization returns
    is not the error that [a] is missing but the error that a property was
    expected at the end of the file. *)
Lemma end_of_document_before_the_first_property :
  (forall q, In q (properties Pair) ->
             is_optional (prop_type_annotation q) = false)
  /\ FromElement 5 Pair [start "Pair"]
     = Returns (None, Some (mkError (PropertyAtEndOfFile "Pair") []), [])
  /\ From 5 Pair [start "Pair"]
     = Throws (XmlizationException "" (PropertyAtEndOfFile "Pair"))
  /\ forall fuel e reader,
       FromElement fuel Pair [start "Pair"] = Returns (None, Some e, reader)
       -> cause e <> RequiredPropertyMissing "a" "Pair".
Proof.
  split.
  { intros q [<- | [<- | []]]; reflexivity. }
  split; [reflexivity|]. split; [reflexivity|].
  intros fuel e reader.
  destruct fuel as [|[|fuel]]; [discriminate|discriminate|].
  intros [= <- _]. discriminate.
Qed.

(** C3, on [<Blob><data/></Blob>], where [data] is a byte array: the
    self-closing element is what the serializer writes for the instance
    with the empty byte array, and de-serialization does not give the empty
    byte array for it; it returns the error that the property needs
    content. *)
Theorem empty_bytes_element_is_rejected :
  (exists writer,
      To 5 empty_blob = Returns writer
      /\ XmlWriter.openElements writer = []
      /\ XmlWriter.written writer = blob_self_closing)
  /\ FromElement 5 Blob blob_self_closing
     = Returns (None,
                Some (mkError (NeedsContent "data" "Blob")
                        [NameSegment "data"]),
                [close "Blob"])
  /\ From 5 Blob blob_self_closing
     <> Returns (VObject "Blob" [Some (VBytes [])], []).
Proof.
  split; [eexists; split; [reflexivity|split; reflexivity]|].
  split; [reflexivity|]. discriminate.
Qed.

(** C4, on a list [items] whose third item has a self-closing [value], an
    integer: the error comes back with the path [Index(2), Name("value")].
    The index of the item is prepended; the name of the list property is
    not, so the path does not begin with [Name("items")]. *)
Theorem list_item_failure_lacks_property_name :
  exists e reader,
    FromElement 10 Container third_item_fails = Returns (None, Some e, reader)
    /\ cause e = NeedsContent "value" "Item"
    /\ pathSegments e = [IndexSegment 2; NameSegment "value"]
    /\ pathSegments e
       <> [NameSegment "items"; IndexSegment 2; NameSegment "value"].
Proof.
  eexists. eexists. split; [reflexivity|]. cbn.
  repeat split. discriminate.
Qed.

(** The serializer writes an enumeration literal whose text is empty as an
    element without content, and the de-serializer, which wants content
    for an enumeration, does not take it back. *)
Example empty_literal_text_is_rejected :
  valid_object blank_table 1 Tagged untagged = true
  /\ wf_symbol_table Example.naming blank_table = false
  /\ exists writer,
       Xmlization.To Example.convert Example.naming blank_table 5 untagged
         XmlWriter.empty None None
       = Returns writer
       /\ XmlWriter.written writer
          = [start "Tagged"; self_closing "tag"; close "Tagged"]
       /\ ClsFrom Example.convert Example.naming blank_table 5 Tagged
            (Create (XmlWriter.written writer)) None
          = Throws (XmlizationException "tag" (NeedsContent "tag" "Tagged")).
Proof.
  split; [reflexivity|]. split; [reflexivity|].
  eexists. split; [reflexivity|]. split; reflexivity.
Qed.

(** C1, on the instance of [Blob] with the empty byte array: the
    meta-model and the instance are valid and the conversions lose
    nothing, the serializer writes [<Blob><data/></Blob>], and
    de-serialization of that document does not give the instance back; it
    throws, with the error that the property needs content. *)
Lemma round_trip_fails_on_empty_bytes :
  wf_symbol_table Example.naming Example.symbol_table = true
  /\ valid_object Example.symbol_table 1 Blob empty_blob = true
  /\ Lossless Example.convert
  /\ exists writer,
       To 5 empty_blob = Returns writer
       /\ XmlWriter.openElements writer = []
       /\ XmlWriter.written writer
          = [start "Blob"; self_closing "data"; close "Blob"]
       /\ From 5 Blob (Create (XmlWriter.written writer))
          = Throws (XmlizationException "data" (NeedsContent "data" "Blob"))
       /\ forall fuel reader,
            From fuel Blob (Create (XmlWriter.written writer))
            <> Returns (empty_blob, reader).
Proof.
  split; [reflexivity|]. split; [reflexivity|].
  split; [apply example_convert_lossless|].
  eexists. split; [reflexivity|]. split; [reflexivity|].
  split; [reflexivity|]. split; [reflexivity|].
  intros fuel reader.
  destruct fuel as [|[|[|[|fuel]]]]; discriminate.
Qed.

End OnTheExample.

(** ** The round trip *)

Section RoundTrip.

Import Reporting intermediate Xmlization.

Variable double : Type.
Variable convert : XmlConvert double.
Variable naming : Naming.
Variable symbol_table : SymbolTable.
Variables prefix ns : option string.

Hypothesis lossless : Lossless convert.
Hypothesis well_formed : wf_symbol_table naming symbol_table = true.
Hypothesis namespace : namespace_ok prefix ns = true.

Local Abbreviation ClsFromSequence :=
  (ClsFromSequence convert naming symbol_table).
Local Abbreviation sequence_loop := (sequence_loop convert naming symbol_table).
Local Abbreviation ClsFromElement :=
  (ClsFromElement convert naming symbol_table).
Local Abbreviation InterfaceFromElement :=
  (InterfaceFromElement convert naming symbol_table).
Local Abbreviation list_loop := (list_loop convert naming symbol_table).
Local Abbreviation Visit := (Visit convert naming symbol_table).
Local Abbreviation ClsToSequence := (ClsToSequence convert naming symbol_table).
Local Abbreviation in_table := (in_table symbol_table).
Local Abbreviation writes := (writes prefix ns).
Local Abbreviation sequence_round_trip :=
  (sequence_round_trip convert naming symbol_table prefix ns).
Local Abbreviation element_round_trip :=
  (element_round_trip convert naming symbol_table prefix ns).
Local Abbreviation item_round_trip :=
  (item_round_trip convert naming symbol_table prefix ns).
Local Abbreviation items_round_trip :=
  (items_round_trip convert naming symbol_table prefix ns).
Local Abbreviation property_round_trip :=
  (property_round_trip convert naming symbol_table prefix ns).
Local Abbreviation properties_round_trip :=
  (properties_round_trip convert naming symbol_table prefix ns).
Local Abbreviation W := (fun writer => mkWrapped writer prefix ns).
Local Abbreviation startOf := (fun name => XmlWriter.startNode prefix name ns).

(** *** The writer *)

Lemma emit_nil (writer : XmlWriter.t) : XmlWriter.emit [] writer = writer.
Proof.
  destruct writer as [[|[start inside] outer] written]; unfold XmlWriter.emit;
    cbn; now rewrite app_nil_r.
Qed.

Lemma emit_app (a b : list XmlNode) (writer : XmlWriter.t) :
  XmlWriter.emit b (XmlWriter.emit a writer) = XmlWriter.emit (a ++ b) writer.
Proof.
  destruct writer as [[|[start inside] outer] written]; unfold XmlWriter.emit;
    cbn; now rewrite app_assoc.
Qed.

Lemma WriteStartElement_ok (name : string) (writer : XmlWriter.t) :
  XmlWriter.WriteStartElement prefix name ns writer
  = Returns (XmlWriter.mk
               ((startOf name, []) :: XmlWriter.openElements writer)
               (XmlWriter.written writer)).
Proof.
  unfold XmlWriter.WriteStartElement. unfold namespace_ok in namespace.
  destruct prefix as [[|c p]|]; try reflexivity;
    destruct ns as [[|d n]|]; try reflexivity; discriminate.
Qed.

(** A block between the start and the end of an element: when the block
    writes [inside], the whole writes the element around [inside]. *)
Lemma element_written (name : string)
  (block : WrappedXmlWriter -> Completion WrappedXmlWriter)
  (inside : list XmlNode) (writer : XmlWriter.t) :
  (forall w, block (W w) = after_emit prefix ns inside w) ->
  (w <- WriteStartElement name (W writer) ;;
   w <- block w ;;
   WriteEndElement w)
  = after_emit prefix ns (XmlWriter.element (startOf name) inside) writer.
Proof.
  intros Hblock.
  unfold WriteStartElement, on_writer. cbn [_writer _prefix _ns].
  rewrite WriteStartElement_ok. cbn [bind].
  rewrite Hblock. unfold after_emit. cbn [bind].
  unfold WriteEndElement, on_writer. cbn [_writer _prefix _ns].
  unfold XmlWriter.WriteEndElement, XmlWriter.emit at 2.
  cbn [XmlWriter.openElements XmlWriter.written bind app].
  destruct writer as [open written]. reflexivity.
Qed.

(** *** The reader *)

Lemma TryElementName_start (name : string) (rest : XmlReader.t) :
  TryElementName (startOf name :: rest) ns = Returns (name, None).
Proof.
  unfold TryElementName, namespace_ok in *. cbn.
  destruct ns as [uri|].
  - now rewrite String.eqb_refl.
  - destruct prefix as [[|c p]|]; try reflexivity. discriminate.
Qed.

Lemma TryElementName_empty (name : string) (rest : XmlReader.t) :
  TryElementName (XmlWriter.emptyNode (startOf name) :: rest) ns
  = Returns (name, None).
Proof.
  unfold TryElementName, namespace_ok in *. cbn.
  destruct ns as [uri|].
  - now rewrite String.eqb_refl.
  - destruct prefix as [[|c p]|]; try reflexivity. discriminate.
Qed.

Lemma TryElementName_end (name : string) (rest : XmlReader.t) :
  TryElementName (XmlWriter.endNode (startOf name) :: rest) ns
  = Returns (name, None).
Proof.
  unfold TryElementName, namespace_ok in *. cbn.
  destruct ns as [uri|].
  - now rewrite String.eqb_refl.
  - destruct prefix as [[|c p]|]; try reflexivity. discriminate.
Qed.

Lemma Skip_at_end (start : XmlNode) (rest : XmlReader.t) :
  SkipNoneWhitespaceAndComments (XmlWriter.endNode start :: rest)
  = XmlWriter.endNode start :: rest.
Proof. reflexivity. Qed.

Lemma NodeType_end (start : XmlNode) :
  node_NodeType (XmlWriter.endNode start) = XmlNodeType.EndElement.
Proof. reflexivity. Qed.

Lemma settled_nil : settled [].
Proof. reflexivity. Qed.

Lemma settled_end (start : XmlNode) (rest : XmlReader.t) :
  settled (XmlWriter.endNode start :: rest).
Proof. reflexivity. Qed.

Lemma settled_elements (nodes : list XmlNode) (rest : XmlReader.t) :
  elements nodes -> settled rest -> settled (nodes ++ rest).
Proof.
  destruct nodes as [|node nodes]; cbn; [auto|].
  intros Hnode _. unfold settled. cbn. now rewrite Hnode.
Qed.

Lemma elements_element (start : XmlNode) (inside : list XmlNode) :
  node_NodeType start = XmlNodeType.Element ->
  elements (XmlWriter.element start inside).
Proof. destruct inside; cbn; auto. Qed.

Lemma elements_app (a b : list XmlNode) :
  elements a -> elements b -> elements (a ++ b).
Proof. destruct a; cbn; auto. Qed.

Lemma append_empty (s : string) : append s EmptyString = s.
Proof. induction s; cbn; congruence. Qed.

Lemma content_of_text (text : string) (start : XmlNode)
  (rest : XmlReader.t) :
  XmlReader.ReadContentAsString
    (XmlWriter.textNode text :: XmlWriter.endNode start :: rest)
  = Returns (text, XmlWriter.endNode start :: rest).
Proof.
  unfold XmlReader.ReadContentAsString, XmlWriter.textNode. cbn.
  destruct (all_chars XmlWriter.is_white_space text); cbn;
    now rewrite append_empty.
Qed.


(** *** The symbol table *)

Lemma existsb_eqb_In (x : string) (l : list string) :
  existsb (String.eqb x) l = true <-> In x l.
Proof.
  rewrite existsb_exists. split.
  - intros (y & Hin & Heq). apply String.eqb_eq in Heq. now subst.
  - intros Hin. exists x. split; [assumption|apply String.eqb_refl].
Qed.

(** Among distinct keys, looking for the key of an element finds it. *)
Lemma find_by_key {A : Type} (key : A -> string) (l : list A) (x : A) :
  nodupb (map key l) = true ->
  In x l ->
  find (fun y => String.eqb (key y) (key x)) l = Some x.
Proof.
  induction l as [|a l IH]; intros Hnodup Hin; [destruct Hin|].
  cbn in Hnodup. apply andb_true_iff in Hnodup.
  destruct Hnodup as [Hfresh Hnodup]. apply negb_true_iff in Hfresh.
  cbn. destruct Hin as [-> | Hin].
  - now rewrite String.eqb_refl.
  - destruct (String.eqb (key a) (key x)) eqn:Heq; [|auto].
    apply String.eqb_eq in Heq.
    assert (Hex : existsb (String.eqb (key a)) (map key l) = true).
    { apply existsb_eqb_In. rewrite Heq. now apply in_map. }
    congruence.
Qed.

Lemma find_symbol_In (name : Identifier) (symbol : Symbol) :
  find_symbol symbol_table name = Some symbol ->
  In symbol symbol_table /\ symbol_name symbol = name.
Proof.
  unfold find_symbol. intros H. apply find_some in H.
  destruct H as [Hin Heq]. apply String.eqb_eq in Heq. auto.
Qed.

Lemma wf_of_found (name : Identifier) (symbol : Symbol) :
  find_symbol symbol_table name = Some symbol ->
  wf_symbol naming symbol_table symbol = true.
Proof.
  intros H. apply find_symbol_In in H. destruct H as [Hin _].
  unfold wf_symbol_table in well_formed.
  rewrite forallb_forall in well_formed. auto.
Qed.

Lemma in_table_of_found (name : Identifier) (cls : ConcreteClass) :
  find_symbol symbol_table name = Some (SymConcreteClass cls) ->
  in_table cls.
Proof.
  intros H. unfold in_table, find_concrete_class.
  destruct (find_symbol_In _ H) as [_ Hname]. cbn in Hname.
  now rewrite Hname, H.
Qed.

Lemma in_table_of_name (name : Identifier) (cls : ConcreteClass) :
  find_concrete_class symbol_table name = Some cls ->
  in_table cls /\ cls_name cls = name.
Proof.
  unfold find_concrete_class.
  destruct (find_symbol symbol_table name) as [[| | |c]|] eqn:H;
    try discriminate.
  intros [= ->]. split; [eapply in_table_of_found; eassumption|].
  now destruct (find_symbol_In _ H).
Qed.

Lemma wf_of_in_table (cls : ConcreteClass) :
  in_table cls ->
  is_implementation_specific cls = false
  /\ nodupb (map prop_name (properties cls)) = true
  /\ nodupb (map (fun prop => xml_property naming (prop_name prop))
               (properties cls)) = true
  /\ names_coincide cls = true
  /\ types_match cls = true
  /\ forallb (wf_property symbol_table) (properties cls) = true.
Proof.
  unfold in_table, find_concrete_class. intros H.
  destruct (find_symbol symbol_table (cls_name cls)) as [[| | |c]|] eqn:Hf;
    try discriminate.
  injection H as ->.
  apply wf_of_found in Hf. cbn in Hf.
  repeat (apply andb_true_iff in Hf; destruct Hf as [Hf ?]).
  apply negb_true_iff in Hf. auto 10.
Qed.

Lemma wf_of_dispatched_interface (type_anno : TypeAnnotation)
  (interface : Interface) :
  dispatch symbol_table type_anno = AsInterface (Some interface) ->
  wf_interface naming symbol_table (Some interface) = true.
Proof.
  unfold dispatch. destruct type_anno as [a|symbol|items|value];
    try discriminate.
  destruct (find_symbol symbol_table symbol) as [[e|c|a|c]|] eqn:Hf;
    try discriminate.
  - intros [= H]. apply wf_of_found in Hf. cbn in Hf.
    unfold interface_method in H.
    destruct (abstract_is_implementation_specific a); [discriminate|].
    now rewrite H in Hf.
  - destruct (0 <? length (concrete_descendants c)); [|discriminate].
    intros [= H]. apply wf_of_found in Hf. cbn in Hf.
    apply andb_true_iff in Hf. destruct Hf as [_ Hf].
    unfold interface_method in H.
    destruct (is_implementation_specific c); [discriminate|].
    now rewrite H in Hf.
Qed.

Lemma in_table_of_dispatched_class (type_anno : TypeAnnotation)
  (cls : ConcreteClass) :
  dispatch symbol_table type_anno = AsClass cls -> in_table cls.
Proof.
  unfold dispatch. destruct type_anno as [a|symbol|items|value];
    try discriminate.
  destruct (find_symbol symbol_table symbol) as [[e|c|a|c]|] eqn:Hf;
    try discriminate.
  destruct (0 <? length (concrete_descendants c)); [discriminate|].
  intros [= <-]. eapply in_table_of_found; eassumption.
Qed.

Lemma wf_of_dispatched_enumeration (type_anno : TypeAnnotation)
  (enumeration : Enumeration) :
  dispatch symbol_table type_anno = AsEnumeration enumeration ->
  nodupb (map snd (literals enumeration)) = true
  /\ forallb (fun l => negb (String.eqb (snd l) EmptyString))
       (literals enumeration) = true.
Proof.
  unfold dispatch. destruct type_anno as [a|symbol|items|value];
    try discriminate.
  destruct (find_symbol symbol_table symbol) as [[e|c|a|c]|] eqn:Hf;
    try discriminate.
  - intros [= <-]. apply wf_of_found in Hf. cbn in Hf.
    now apply andb_true_iff in Hf.
  - destruct (0 <? length (concrete_descendants c)); discriminate.
Qed.

Lemma wf_of_item_method (items : TypeAnnotation) (method : ItemMethod) :
  deserialize_method symbol_table items = Some method ->
  items_are_classes symbol_table items = true
  /\ match method with
     | ItemInterface i => wf_interface naming symbol_table (Some i) = true
     | ItemClass c => in_table c
     end.
Proof.
  unfold deserialize_method, items_are_classes.
  destruct items as [a|symbol|items|value]; try discriminate.
  destruct (find_symbol symbol_table symbol) as [[e|c|a|c]|] eqn:Hf;
    try discriminate.
  - unfold interface_method.
    destruct (abstract_is_implementation_specific a); [discriminate|].
    destruct (abstract_interface a) as [i|] eqn:Hi; [|discriminate].
    intros [= <-]. split; [reflexivity|].
    apply wf_of_found in Hf. cbn in Hf. now rewrite Hi in Hf.
  - destruct (0 <? length (concrete_descendants c)).
    + unfold interface_method.
      destruct (is_implementation_specific c); [discriminate|].
      destruct (interface c) as [i|] eqn:Hi; [|discriminate].
      intros [= <-]. split; [reflexivity|].
      apply wf_of_found in Hf. cbn in Hf.
      apply andb_true_iff in Hf. destruct Hf as [_ Hf].
      now rewrite Hi in Hf.
    + intros [= <-]. split; [reflexivity|].
      eapply in_table_of_found; eassumption.
Qed.

(** The implementer the [switch] of the interface selects for the element
    of an instance of an implementer. *)
Lemma implementer_selected (interface : Interface) (name : Identifier) :
  wf_interface naming symbol_table (Some interface) = true ->
  existsb (String.eqb name) (implementers interface) = true ->
  find (fun implementer =>
          String.eqb (xml_class_name naming implementer)
            (xml_class_name naming name))
    (implementers interface)
  = Some name.
Proof.
  intros Hwf Hin. cbn in Hwf. apply andb_true_iff in Hwf.
  destruct Hwf as [Hnodup _].
  apply find_by_key; [assumption|]. now apply existsb_eqb_In.
Qed.

Lemma case_selected (cls : ConcreteClass) (prop : Property) :
  in_table cls ->
  In prop (properties cls) ->
  case_of naming cls (xml_property naming (prop_name prop)) = Some prop.
Proof.
  intros Hcls Hin. unfold case_of.
  apply (find_by_key (fun p => xml_property naming (prop_name p)));
    [|assumption].
  now destruct (wf_of_in_table Hcls) as (_ & _ & H & _).
Qed.

(** *** Enumerations and byte arrays *)

Lemma literal_read_back (enumeration : Enumeration) (literal : Identifier) :
  nodupb (map snd (literals enumeration)) = true ->
  existsb (fun l => String.eqb (fst l) literal) (literals enumeration)
  = true ->
  exists text,
    ToString enumeration literal = Some text
    /\ FromString enumeration text = Some literal
    /\ In text (map snd (literals enumeration)).
Proof.
  intros Hnodup Hin. unfold ToString, FromString. unfold Identifier in *.
  destruct (find (fun l => String.eqb (fst l) literal)
              (literals enumeration)) as [pair|] eqn:Hfind.
  - apply find_some in Hfind. destruct Hfind as [Hpair Heq].
    apply String.eqb_eq in Heq.
    exists (snd pair). split; [reflexivity|].
    rewrite (find_by_key snd _ _ Hnodup Hpair).
    split; [cbn; now rewrite Heq|now apply in_map].
  - apply existsb_exists in Hin. destruct Hin as (pair & Hpair & Heq).
    now rewrite (find_none _ _ Hfind pair Hpair) in Heq.
Qed.

Lemma ReadWholeContentAsBase64_loop_all (rounds : nat) :
  forall pending stream,
    length pending < rounds ->
    ReadWholeContentAsBase64_loop rounds pending stream = stream ++ pending.
Proof.
  induction rounds as [|rounds IH]; intros pending stream Hlen; [lia|].
  cbn [ReadWholeContentAsBase64_loop]. unfold ReadContentAsBase64.
  destruct (0 <? length (firstn 1024 pending)) eqn:Hread.
  - apply Nat.ltb_lt in Hread.
    rewrite IH.
    + now rewrite <- app_assoc, firstn_skipn.
    + rewrite length_skipn. rewrite length_firstn in Hread. lia.
  - apply Nat.ltb_ge in Hread. rewrite length_firstn in Hread.
    assert (Hnil : length pending = 0) by lia.
    destruct pending; [now rewrite app_nil_r|discriminate].
Qed.


(** *** From the sequence to the element *)

Lemma Visit_S fuel (that : option (Value double)) writer :
  Visit (S fuel) that writer
  = Visit_body naming symbol_table (ClsToSequence fuel) that writer.
Proof. reflexivity. Qed.

Lemma ClsToSequence_S fuel cls (that : option (Value double)) writer :
  ClsToSequence (S fuel) cls that writer
  = ClsToSequence_body convert naming symbol_table (Visit fuel)
      (ClsToSequence fuel) cls that writer.
Proof. reflexivity. Qed.

Lemma element_of_sequence (cls : ConcreteClass) (fields : list (option (Value double))) :
  in_table cls ->
  sequence_round_trip cls (VObject (cls_name cls) fields) ->
  element_round_trip cls (VObject (cls_name cls) fields).
Proof.
  intros Hcls (inside & fuel0 & Helements & Hwrite & Hread).
  destruct (wf_of_in_table Hcls) as (Hspecific & _).
  exists inside, (S fuel0). cbv zeta. split.
  - intros [|fuel] Hfuel; [lia|]. intros writer.
    rewrite Visit_S. unfold Visit_body.
    rewrite Hcls, Hspecific.
    apply element_written. apply Hwrite. lia.
  - intros [|fuel] rest Hfuel Hrest; [lia|].
    rewrite (ClsFromElement_S convert naming symbol_table).
    unfold ClsFromElement_body. rewrite Hspecific.
    destruct inside as [|node inside].
    + cbn [XmlWriter.element app].
      rewrite Skip_at_element by reflexivity.
      cbn [XmlReader.EOF XmlReader.NodeType XmlWriter.emptyNode
             node_NodeType XmlNodeType.eqb negb].
      change (mkNode XmlNodeType.Element _ _ _ true EmptyString)
        with (XmlWriter.emptyNode
                (startOf (xml_class_name naming (cls_name cls)))).
      rewrite TryElementName_empty. cbn [bind].
      rewrite String.eqb_refl. cbn [negb].
      cbn [XmlReader.IsEmptyElement XmlWriter.emptyNode node_IsEmptyElement
             XmlReader.Read tl].
      assert (Hseq := Hread fuel rest ltac:(lia) Hrest ltac:(congruence)).
      cbn [app is_nil] in Hseq. rewrite Hseq.
      cbn [bind negb]. rewrite Hrest. reflexivity.
    + cbn [XmlWriter.element]. rewrite <- app_comm_cons.
      rewrite Skip_at_element by reflexivity.
      cbn [XmlReader.EOF XmlReader.NodeType XmlWriter.startNode
             node_NodeType XmlNodeType.eqb negb].
      change (mkNode XmlNodeType.Element _ _ _ false EmptyString)
        with (startOf (xml_class_name naming (cls_name cls))).
      rewrite TryElementName_start. cbn [bind].
      rewrite String.eqb_refl. cbn [negb].
      cbn [XmlReader.IsEmptyElement XmlWriter.startNode node_IsEmptyElement
             XmlReader.Read tl].
      rewrite <- app_assoc. cbn [app].
      assert (Hseq := Hread fuel
                        (XmlWriter.endNode
                           (startOf (xml_class_name naming (cls_name cls)))
                         :: rest)
                        ltac:(lia) (settled_end _ _)
                        ltac:(cbn; discriminate)).
      cbn [is_nil] in Hseq. rewrite <- app_comm_cons in Hseq.
      rewrite Hseq.
      cbn [bind negb].
      rewrite Skip_at_end.
      cbn [XmlReader.EOF XmlReader.NodeType].
      rewrite NodeType_end. cbn [XmlNodeType.eqb negb].
      rewrite TryElementName_end. cbn [bind].
      rewrite String.eqb_refl. reflexivity.
Qed.


Lemma element_not_nil (start : XmlNode) (inside : list XmlNode) :
  XmlWriter.element start inside <> [].
Proof. destruct inside; discriminate. Qed.

(** The first node of an element with what follows it. *)
Lemma element_head (name : string) (inside : list XmlNode)
  (rest : XmlReader.t) :
  exists node tail,
    XmlWriter.element (startOf name) inside ++ rest = node :: tail
    /\ node_NodeType node = XmlNodeType.Element
    /\ TryElementName (node :: tail) ns = Returns (name, None).
Proof.
  destruct inside as [|n inside]; cbn [XmlWriter.element app].
  - eexists. eexists. split; [reflexivity|]. split; [reflexivity|].
    apply TryElementName_empty.
  - eexists. eexists. split; [reflexivity|]. split; [reflexivity|].
    apply TryElementName_start.
Qed.

Lemma settled_element (name : string) (inside : list XmlNode)
  (rest : XmlReader.t) :
  settled (XmlWriter.element (startOf name) inside ++ rest).
Proof.
  destruct (element_head name inside rest) as (node & tail & -> & Hnode & _).
  unfold settled. now apply Skip_at_element.
Qed.

Lemma EOF_element (name : string) (inside : list XmlNode)
  (rest : XmlReader.t) :
  XmlReader.EOF (XmlWriter.element (startOf name) inside ++ rest) = false.
Proof.
  now destruct (element_head name inside rest) as (node & tail & -> & _).
Qed.

Lemma NodeType_element (name : string) (inside : list XmlNode)
  (rest : XmlReader.t) :
  XmlReader.NodeType (XmlWriter.element (startOf name) inside ++ rest)
  = XmlNodeType.Element.
Proof.
  now destruct (element_head name inside rest) as (node & tail & -> & ? & _).
Qed.

Lemma TryElementName_element (name : string) (inside : list XmlNode)
  (rest : XmlReader.t) :
  TryElementName (XmlWriter.element (startOf name) inside ++ rest) ns
  = Returns (name, None).
Proof.
  now destruct (element_head name inside rest) as (node & tail & -> & _ & ?).
Qed.

Lemma Skip_element (name : string) (inside : list XmlNode)
  (rest : XmlReader.t) :
  SkipNoneWhitespaceAndComments
    (XmlWriter.element (startOf name) inside ++ rest)
  = XmlWriter.element (startOf name) inside ++ rest.
Proof. apply settled_element. Qed.

(** *** One level of nesting *)

Section Step.

Variable depth : nat.

Hypothesis deeper :
  forall cls (that : Value double),
    in_table cls ->
    valid_object symbol_table depth cls that = true ->
    no_empty_bytes that = true ->
    sequence_round_trip cls that /\ element_round_trip cls that.

Lemma item_of_class (cls : ConcreteClass) (item : Value double) :
  in_table cls ->
  valid_object symbol_table depth cls item = true ->
  no_empty_bytes item = true ->
  item_round_trip (ItemClass cls) item.
Proof.
  intros Hcls Hvalid Hbytes.
  destruct (@deeper _ _ Hcls Hvalid Hbytes) as [_ (inside & fuel0 & Hwrite & Hread)].
  cbv zeta in Hwrite, Hread.
  exists (XmlWriter.element
            (startOf (xml_class_name naming (cls_name cls))) inside), fuel0.
  split; [apply element_not_nil|].
  split; [now apply elements_element|].
  split; [exact Hwrite|].
  intros fuel rest Hfuel Hrest. cbn [call_item_method]. now apply Hread.
Qed.

Lemma item_of_interface (interface : Interface) (item : Value double) :
  wf_interface naming symbol_table (Some interface) = true ->
  valid_implementer symbol_table (valid_object symbol_table depth) interface
    item = true ->
  no_empty_bytes item = true ->
  item_round_trip (ItemInterface interface) item.
Proof.
  intros Hwf Hvalid Hbytes. unfold valid_implementer in Hvalid.
  destruct item as [| | | | | | |name fields]; try discriminate.
  apply andb_true_iff in Hvalid. destruct Hvalid as [Himplements Hvalid].
  destruct (find_concrete_class symbol_table name) as [cls|] eqn:Hfind;
    [|discriminate].
  destruct (in_table_of_name _ Hfind) as [Hcls Hname]. subst name.
  destruct (@deeper _ _ Hcls Hvalid Hbytes) as [_ (inside & fuel0 & Hwrite & Hread)].
  cbv zeta in Hwrite, Hread.
  exists (XmlWriter.element
            (startOf (xml_class_name naming (cls_name cls))) inside),
    (S fuel0).
  split; [apply element_not_nil|].
  split; [now apply elements_element|].
  split; [intros fuel Hfuel; apply Hwrite; lia|].
  intros [|fuel] rest Hfuel Hrest; [lia|]. cbn [call_item_method].
  rewrite (InterfaceFromElement_S convert naming symbol_table).
  unfold InterfaceFromElement_body.
  rewrite Skip_element, EOF_element, NodeType_element.
  cbn [XmlNodeType.eqb negb]. rewrite TryElementName_element. cbn [bind].
  rewrite (implementer_selected _ _ Hwf Himplements).
  rewrite Hfind.
  apply Hread; [lia|assumption].
Qed.


Lemma items_of_each (method : ItemMethod) (items : list (Value double)) :
  (forall item, In item items -> item_round_trip method item) ->
  items_round_trip method items.
Proof.
  induction items as [|item items IH]; intros Heach.
  - exists [], 1. split; [exact I|]. split; [auto|]. split.
    + intros fuel _ writer. cbn [foreach_Visit]. unfold after_emit.
      now rewrite emit_nil.
    + intros [|fuel] rest index the_list Hfuel _ Hstop; [lia|].
      rewrite (list_loop_S convert naming symbol_table).
      unfold list_loop_body. cbn [app].
      destruct (XmlReader.NodeType rest); try congruence;
        cbn [XmlNodeType.eqb]; now rewrite app_nil_r.
  - destruct (Heach item (or_introl eq_refl))
      as (first & fuel1 & Hfirst & Helements & Hwrite1 & Hread1).
    destruct IH as (others & fuel2 & Hothers & _ & Hwrite2 & Hread2);
      [intros; apply Heach; now right|].
    exists (first ++ others), (S (Nat.max fuel1 fuel2)).
    split; [now apply elements_app|].
    split; [intros Hnil; apply app_eq_nil in Hnil; tauto|].
    split.
    + intros fuel Hfuel writer. cbn [foreach_Visit].
      rewrite Hwrite1 by lia. unfold after_emit. cbn [bind].
      rewrite Hwrite2 by lia. unfold after_emit. now rewrite emit_app.
    + intros [|fuel] rest index the_list Hfuel Hrest Hstop; [lia|].
      rewrite (list_loop_S convert naming symbol_table).
      unfold list_loop_body. rewrite <- app_assoc.
      assert (Hsettled : settled (others ++ rest))
        by now apply settled_elements.
      destruct first as [|node first]; [congruence|].
      cbn [elements] in Helements.
      rewrite <- app_comm_cons. cbn [XmlReader.NodeType].
      rewrite Helements. cbn [XmlNodeType.eqb].
      rewrite app_comm_cons.
      rewrite Hread1 by (try lia; assumption). cbn [bind].
      rewrite Hsettled.
      rewrite Hread2 by (try lia; assumption).
      now rewrite <- app_assoc.
Qed.

(** *** The value of one property *)

Lemma write_text (text : string) :
  writes (on_writer (XmlWriter.WriteString text)) (text_nodes text).
Proof.
  intros writer. unfold on_writer, after_emit. cbn [_writer _prefix _ns].
  destruct text; cbn [XmlWriter.WriteString text_nodes bind];
    [now rewrite emit_nil|reflexivity].
Qed.

Lemma property_written (prop : Property) (value : Value double)
  (block : WrappedXmlWriter -> Completion WrappedXmlWriter)
  (inside : list XmlNode) :
  writes block inside ->
  writes (unless_optional_and_null prop (Some value)
            (in_property_element naming prop block))
    (XmlWriter.element (startOf (xml_property naming (prop_name prop)))
       inside).
Proof.
  intros Hblock writer. unfold unless_optional_and_null.
  cbn [is_null]. rewrite andb_false_r.
  unfold in_property_element. now apply element_written.
Qed.

(** A value with a text that is not empty, written as content and read
    back by the expression of its type. *)
Lemma property_of_text (cls : ConcreteClass) (prop : Property)
  (a_type : PrimitiveType) (value : Value double) (text : string) :
  dispatch symbol_table (beneath_optional (prop_type_annotation prop))
  = AsPrimitive a_type ->
  text <> EmptyString ->
  writes (write_primitive convert a_type (Some value)) (text_nodes text) ->
  (forall start rest,
      deserialization_expr convert a_type
        (XmlWriter.textNode text :: XmlWriter.endNode start :: rest)
      = Returns (value, XmlWriter.endNode start :: rest)) ->
  property_round_trip cls prop value.
Proof.
  intros Hdispatch Htext Hwrite Hread.
  exists (text_nodes text), 0. cbv zeta. split.
  - intros fuel _. unfold serialize_property_as_content.
    rewrite Hdispatch. unfold serialize_primitive_property_as_content.
    now apply property_written.
  - intros fuel rest _ _. unfold deserialize_property. rewrite Hdispatch.
    unfold deserialize_primitive_property.
    destruct text as [|c text]; [congruence|].
    cbn [text_nodes is_nil closing app XmlReader.EOF].
    now rewrite Hread.
Qed.

Lemma ReadContentAs_text {A : Type} (conversion : string -> option A)
  (text : string) (a : A) (start : XmlNode) (rest : XmlReader.t) :
  conversion text = Some a ->
  XmlReader.ReadContentAs conversion
    (XmlWriter.textNode text :: XmlWriter.endNode start :: rest)
  = Returns (a, XmlWriter.endNode start :: rest).
Proof.
  intros Hconversion. unfold XmlReader.ReadContentAs.
  rewrite content_of_text. cbn [bind]. now rewrite Hconversion.
Qed.

Lemma property_of_primitive (cls : ConcreteClass) (prop : Property)
  (a_type : PrimitiveType) (value : Value double) :
  dispatch symbol_table (beneath_optional (prop_type_annotation prop))
  = AsPrimitive a_type ->
  valid_primitive a_type value = true ->
  no_empty_bytes value = true ->
  property_round_trip cls prop value.
Proof.
  intros Hdispatch Hvalid Hbytes.
  destruct lossless as (Hbool & Hlong & Hdouble & Hbase64).
  destruct a_type, value; try discriminate.
  - destruct (Hbool b) as [Hback Htext].
    apply (property_of_text cls prop Hdispatch Htext).
    + apply write_text.
    + intros start rest. cbn [deserialization_expr].
      now rewrite (ReadContentAs_text _ _ _ _ Hback).
  - destruct (Hlong z) as [Hback Htext].
    apply (property_of_text cls prop Hdispatch Htext).
    + apply write_text.
    + intros start rest. cbn [deserialization_expr].
      now rewrite (ReadContentAs_text _ _ _ _ Hback).
  - destruct (Hdouble d) as [Hback Htext].
    apply (property_of_text cls prop Hdispatch Htext).
    + apply write_text.
    + intros start rest. cbn [deserialization_expr].
      now rewrite (ReadContentAs_text _ _ _ _ Hback).
  - destruct s as [|c s].
    + exists [], 0. cbv zeta. split.
      * intros fuel _. unfold serialize_property_as_content.
        rewrite Hdispatch. unfold serialize_primitive_property_as_content.
        apply property_written. apply (write_text EmptyString).
      * intros fuel rest _ _. unfold deserialize_property.
        rewrite Hdispatch. reflexivity.
    + apply (property_of_text cls prop (text := String c s) Hdispatch).
      * discriminate.
      * apply (write_text (String c s)).
      * intros start rest. cbn [deserialization_expr].
        now rewrite content_of_text.
  - destruct (Hbase64 bytes) as [Hback Htext].
    assert (Hsome : bytes <> []) by (destruct bytes; [discriminate|congruence]).
    apply (property_of_text cls prop Hdispatch (Htext Hsome)).
    + apply write_text.
    + intros start rest. cbn [deserialization_expr].
      unfold ReadWholeContentAsBase64.
      rewrite (ReadContentAs_text _ _ _ _ Hback). cbn [bind].
      now rewrite ReadWholeContentAsBase64_loop_all by lia.
Qed.


Lemma property_of_enumeration (cls : ConcreteClass) (prop : Property)
  (enumeration : Enumeration) (name literal : Identifier) :
  dispatch symbol_table (beneath_optional (prop_type_annotation prop))
  = AsEnumeration enumeration ->
  String.eqb name (enum_name enumeration) = true ->
  existsb (fun l => String.eqb (fst l) literal) (literals enumeration)
  = true ->
  property_round_trip cls prop (VEnum name literal).
Proof.
  intros Hdispatch Hname Hliteral.
  destruct (wf_of_dispatched_enumeration _ Hdispatch) as [Hnodup Htexts].
  destruct (literal_read_back _ _ Hnodup Hliteral)
    as (text & Hto & Hfrom & Hin).
  assert (Htext : text <> EmptyString).
  { apply in_map_iff in Hin. destruct Hin as (pair & <- & Hpair).
    rewrite forallb_forall in Htexts. specialize (Htexts pair Hpair).
    apply negb_true_iff in Htexts. now apply String.eqb_neq in Htexts. }
  exists (text_nodes text), 0. cbv zeta. split.
  - intros fuel _. unfold serialize_property_as_content.
    rewrite Hdispatch. unfold serialize_enumeration_property_as_content.
    apply property_written. intros writer.
    rewrite Hname, Hto. apply (write_text text).
  - intros fuel rest _ _. unfold deserialize_property. rewrite Hdispatch.
    unfold deserialize_enumeration_property.
    destruct text as [|c text]; [congruence|].
    cbn [text_nodes is_nil closing app XmlReader.EOF].
    rewrite content_of_text, Hfrom.
    apply String.eqb_eq in Hname. now subst name.
Qed.

Lemma property_of_interface (cls : ConcreteClass) (prop : Property)
  (interface : Interface) (value : Value double) :
  dispatch symbol_table (beneath_optional (prop_type_annotation prop))
  = AsInterface (Some interface) ->
  valid_implementer symbol_table (valid_object symbol_table depth) interface
    value = true ->
  no_empty_bytes value = true ->
  property_round_trip cls prop value.
Proof.
  intros Hdispatch Hvalid Hbytes.
  destruct (item_of_interface interface value
              (wf_of_dispatched_interface _ Hdispatch) Hvalid Hbytes)
    as (nodes & fuel0 & Hnodes & Helements & Hwrite & Hread).
  exists nodes, fuel0. cbv zeta. split.
  - intros fuel Hfuel. unfold serialize_property_as_content.
    rewrite Hdispatch. unfold serialize_interface_property_as_content.
    apply property_written. now apply Hwrite.
  - intros fuel rest Hfuel Hrest. unfold deserialize_property.
    rewrite Hdispatch. unfold deserialize_interface_property.
    destruct nodes as [|node nodes]; [congruence|].
    cbn [is_nil closing]. rewrite <- app_comm_cons. cbn [XmlReader.EOF].
    rewrite app_comm_cons.
    cbn [call_item_method] in Hread.
    now rewrite Hread by (try assumption; apply settled_end).
Qed.

Lemma settled_closing (start : XmlNode) (inside : list XmlNode)
  (rest : XmlReader.t) :
  settled rest -> settled (closing start inside rest).
Proof. destruct inside; cbn; auto. intros _. apply settled_end. Qed.

Lemma closing_stops (start : XmlNode) (inside : list XmlNode)
  (rest : XmlReader.t) :
  inside <> [] ->
  XmlReader.NodeType (closing start inside rest) <> XmlNodeType.Element.
Proof. destruct inside; [congruence|]. cbn. discriminate. Qed.

Lemma property_of_class (cls : ConcreteClass) (prop : Property)
  (target : ConcreteClass) (value : Value double) :
  dispatch symbol_table (beneath_optional (prop_type_annotation prop))
  = AsClass target ->
  valid_object symbol_table depth target value = true ->
  no_empty_bytes value = true ->
  property_round_trip cls prop value.
Proof.
  intros Hdispatch Hvalid Hbytes.
  destruct (@deeper _ _ (in_table_of_dispatched_class _ Hdispatch) Hvalid
              Hbytes)
    as [(inside & fuel0 & Helements & Hwrite & Hread) _].
  exists inside, fuel0. cbv zeta. split.
  - intros fuel Hfuel. unfold serialize_property_as_content.
    rewrite Hdispatch.
    unfold serialize_concrete_class_property_as_sequence.
    apply property_written. now apply Hwrite.
  - intros fuel rest Hfuel Hrest. unfold deserialize_property.
    rewrite Hdispatch. unfold deserialize_cls_property.
    rewrite Hread;
      [reflexivity|assumption|now apply settled_closing
      |apply closing_stops].
Qed.

Lemma property_of_list (cls : ConcreteClass) (prop : Property)
  (items : TypeAnnotation) (method : ItemMethod)
  (the_list : list (Value double)) :
  dispatch symbol_table (beneath_optional (prop_type_annotation prop))
  = AsList items ->
  deserialize_method symbol_table items = Some method ->
  (forall item, In item the_list -> item_round_trip method item) ->
  property_round_trip cls prop (VList the_list).
Proof.
  intros Hdispatch Hmethod Heach.
  destruct (@items_of_each method the_list Heach)
    as (nodes & fuel0 & Helements & Hnil & Hwrite & Hread).
  destruct (wf_of_item_method _ Hmethod) as [Hclasses _].
  exists nodes, fuel0. cbv zeta. split.
  - intros fuel Hfuel. unfold serialize_property_as_content.
    rewrite Hdispatch. unfold serialize_list_property_as_content.
    rewrite Hclasses. apply property_written. now apply Hwrite.
  - intros fuel rest Hfuel Hrest. unfold deserialize_property.
    rewrite Hdispatch. unfold deserialize_list_property. rewrite Hmethod.
    destruct nodes as [|node nodes].
    + cbn [is_nil negb closing app]. now rewrite Hnil.
    + cbn [is_nil negb closing].
      assert (Hsettled :
               settled ((node :: nodes)
                        ++ XmlWriter.endNode
                             (startOf (xml_property naming (prop_name prop)))
                           :: rest))
        by (apply settled_elements; [assumption|apply settled_end]).
      rewrite Hsettled.
      rewrite Hread;
        [reflexivity|assumption|apply settled_end|cbn; discriminate].
Qed.

(** The value of a property, whatever its type. *)
Lemma property_of_valid (cls : ConcreteClass) (prop : Property)
  (value : Value double) :
  valid_property symbol_table (valid_object symbol_table depth) prop
    (Some value) = true ->
  no_empty_bytes value = true ->
  property_round_trip cls prop value.
Proof.
  intros Hvalid Hbytes. unfold valid_property in Hvalid.
  destruct (dispatch symbol_table
              (beneath_optional (prop_type_annotation prop)))
    as [a_type|enumeration|[interface|]|target|items|] eqn:Hdispatch;
    try discriminate.
  - eapply property_of_primitive; eassumption.
  - destruct value as [| | | | |name literal| |]; try discriminate.
    apply andb_true_iff in Hvalid. destruct Hvalid as [Hname Hliteral].
    eapply property_of_enumeration; eassumption.
  - eapply property_of_interface; eassumption.
  - eapply property_of_class; eassumption.
  - destruct value as [| | | | | |the_list|]; try discriminate.
    destruct (deserialize_method symbol_table items) as [method|] eqn:Hmethod;
      [|discriminate].
    eapply property_of_list; [eassumption|eassumption|].
    intros item Hitem. cbn [no_empty_bytes] in Hbytes.
    rewrite forallb_forall in Hbytes. specialize (Hbytes item Hitem).
    destruct (wf_of_item_method _ Hmethod) as [_ Hwf].
    destruct method as [interface|target];
      rewrite forallb_forall in Hvalid; specialize (Hvalid item Hitem).
    + now apply item_of_interface.
    + now apply item_of_class.
Qed.


(** *** The sequence of the properties *)

Lemma IsEmptyElement_element (start : XmlNode) (inside : list XmlNode)
  (rest : XmlReader.t) :
  node_IsEmptyElement start = false ->
  XmlReader.IsEmptyElement (XmlWriter.element start inside ++ rest)
  = is_nil inside.
Proof. destruct inside; cbn; auto. Qed.

Lemma Read_element (start : XmlNode) (inside : list XmlNode)
  (rest : XmlReader.t) :
  XmlReader.Read (XmlWriter.element start inside ++ rest)
  = inside ++ closing start inside rest.
Proof.
  destruct inside as [|node inside]; cbn [XmlWriter.element closing];
    [reflexivity|].
  rewrite <- app_comm_cons. cbn [XmlReader.Read tl].
  now rewrite <- app_assoc.
Qed.

Lemma read_end_of_closing (cls : ConcreteClass) (name : string)
  (inside : list XmlNode) (rest : XmlReader.t) :
  settled rest ->
  read_end_of_property cls name (is_nil inside)
    (closing (startOf name) inside rest) ns
  = Returns (None, rest).
Proof.
  intros Hrest. unfold read_end_of_property.
  destruct inside as [|node inside]; cbn [is_nil closing negb].
  - now rewrite Hrest.
  - rewrite Skip_at_end. cbn [XmlReader.EOF XmlReader.NodeType].
    rewrite NodeType_end. cbn [XmlNodeType.eqb negb].
    rewrite TryElementName_end. cbn [bind].
    rewrite String.eqb_refl. cbn [negb XmlReader.Read tl].
    now rewrite Hrest.
Qed.

Lemma loop_or_done fuel cls (the : Temporaries double)
  (reader : XmlReader.t) :
  (if XmlReader.EOF reader
   then Returns (LoopDone the reader)
   else sequence_loop (S fuel) cls the reader ns)
  = sequence_loop (S fuel) cls the reader ns.
Proof. destruct reader; reflexivity. Qed.

Lemma serialize_null (prop : Property) Visit' ClsToSequence' writer :
  wf_property symbol_table prop = true ->
  is_optional (prop_type_annotation prop) = true ->
  serialize_property_as_content (double := double) convert naming
    symbol_table Visit' ClsToSequence' prop None writer
  = Returns writer.
Proof.
  intros Hwf Hoptional.
  unfold serialize_property_as_content, wf_property in *.
  destruct (dispatch symbol_table
              (beneath_optional (prop_type_annotation prop)))
    as [a_type|enumeration|[interface|]|target|items|];
    try discriminate;
    unfold serialize_primitive_property_as_content,
      serialize_enumeration_property_as_content,
      serialize_interface_property_as_content,
      serialize_concrete_class_property_as_sequence,
      serialize_list_property_as_content, unless_optional_and_null;
    try (rewrite Hoptional; reflexivity).
  destruct (deserialize_method symbol_table items) as [method|] eqn:Hmethod;
    [|discriminate].
  destruct (wf_of_item_method _ Hmethod) as [-> _].
  rewrite Hoptional. reflexivity.
Qed.

Lemma properties_of_valid (cls : ConcreteClass) :
  in_table cls ->
  forall props fields,
    (forall prop, In prop props -> In prop (properties cls)) ->
    forall2b (valid_property symbol_table (valid_object symbol_table depth))
      props fields = true ->
    forallb (fun field : option (Value double) =>
               match field with
               | Some v => no_empty_bytes v
               | None => true
               end) fields = true ->
    properties_round_trip cls props fields.
Proof.
  intros Hcls.
  destruct (wf_of_in_table Hcls) as (_ & _ & _ & _ & _ & Hwf).
  rewrite forallb_forall in Hwf.
  induction props as [|prop props IH]; intros fields Hprops Hvalid Hbytes;
    destruct fields as [|field fields]; try discriminate.
  - exists [], 1. split; [exact I|]. split; [|split; [reflexivity|]].
    + intros fuel _ writer. cbn [serialize_properties]. unfold after_emit.
      now rewrite emit_nil.
    + intros [|fuel] rest the Hfuel _ Hstop; [lia|].
      rewrite (sequence_loop_S convert naming symbol_table).
      unfold sequence_loop_body. cbn [app assign_all].
      destruct (XmlReader.NodeType rest); try congruence; reflexivity.
  - cbn [forall2b] in Hvalid. apply andb_true_iff in Hvalid.
    destruct Hvalid as [Hvalid Hothers].
    cbn [forallb] in Hbytes. apply andb_true_iff in Hbytes.
    destruct Hbytes as [Hbytes Hbytes'].
    destruct (IH fields) as (others & fuel2 & Helements & Hwrite2 & Hnil2
                             & Hread2);
      [intros; apply Hprops; now right|assumption|assumption|].
    assert (Hprop : In prop (properties cls)) by (apply Hprops; now left).
    destruct field as [value|].
    + destruct (@property_of_valid cls prop value Hvalid Hbytes)
        as (inside & fuel1 & Hwrite1 & Hread1).
      cbv zeta in Hwrite1, Hread1.
      set (name := xml_property naming (prop_name prop)) in *.
      exists (XmlWriter.element (startOf name) inside ++ others),
        (S (S (Nat.max fuel1 fuel2))).
      split; [apply elements_app; [now apply elements_element|assumption]|].
      split; [|split].
      * intros fuel Hfuel writer. cbn [serialize_properties].
        rewrite Hwrite1 by lia. unfold after_emit. cbn [bind].
        rewrite Hwrite2 by lia. unfold after_emit. now rewrite emit_app.
      * intros Hnil. apply app_eq_nil in Hnil. destruct Hnil as [Hnil _].
        now apply element_not_nil in Hnil.
      * intros [|[|fuel]] rest the Hfuel Hrest Hstop; try lia.
        rewrite (sequence_loop_S convert naming symbol_table).
        unfold sequence_loop_body. cbv zeta. rewrite <- app_assoc.
        assert (Hsettled : settled (others ++ rest))
          by now apply settled_elements.
        rewrite NodeType_element. cbn [XmlNodeType.eqb].
        rewrite TryElementName_element. cbn [bind].
        rewrite IsEmptyElement_element by reflexivity.
        rewrite Read_element.
        unfold name at 1. rewrite (@case_selected cls prop Hcls Hprop).
        fold name.
        rewrite Hread1 by (try lia; assumption). cbn [bind].
        rewrite read_end_of_closing by assumption. cbn [bind].
        rewrite loop_or_done.
        rewrite Hread2 by (try lia; assumption).
        reflexivity.
    + cbn [valid_property] in Hvalid.
      exists others, fuel2.
      split; [assumption|]. split; [|split].
      * intros fuel Hfuel writer. cbn [serialize_properties].
        rewrite serialize_null by auto. cbn [bind]. now apply Hwrite2.
      * intros Hnil the. cbn [assign_all]. now apply Hnil2.
      * intros fuel rest the Hfuel Hrest Hstop. cbn [assign_all].
        now apply Hread2.
Qed.


(** *** The instance put together again *)

Lemma assign_all_other (name : Identifier) :
  forall props fields (the : Temporaries double),
    existsb (String.eqb name) (map prop_name props) = false ->
    assign_all the props fields name = the name.
Proof.
  induction props as [|prop props IH]; intros fields the Hfresh;
    [reflexivity|].
  cbn [map existsb] in Hfresh. apply orb_false_iff in Hfresh.
  destruct Hfresh as [Hprop Hfresh].
  destruct fields as [|[value|] fields]; cbn [assign_all]; auto.
  rewrite IH by assumption. unfold assign. now rewrite Hprop.
Qed.

Lemma assigned :
  forall props fields (the : Temporaries double),
    length props = length fields ->
    nodupb (map prop_name props) = true ->
    (forall prop, In prop props -> the (prop_name prop) = None) ->
    Forall2 (fun prop field =>
               assign_all the props fields (prop_name prop) = field)
      props fields.
Proof.
  induction props as [|prop props IH]; intros fields the Hlength Hnodup Hnull;
    destruct fields as [|field fields]; try discriminate; [constructor|].
  cbn [map nodupb] in Hnodup. apply andb_true_iff in Hnodup.
  destruct Hnodup as [Hfresh Hnodup]. apply negb_true_iff in Hfresh.
  injection Hlength as Hlength.
  assert (Hhead : forall the',
             Forall2 (fun prop' field' =>
                        assign_all the' props fields (prop_name prop')
                        = field') props fields ->
             assign_all the' props fields (prop_name prop) = field ->
             Forall2 (fun prop' field' =>
                        assign_all the' props fields (prop_name prop')
                        = field') (prop :: props) (field :: fields))
    by (intros; now constructor).
  destruct field as [value|]; cbn [assign_all]; apply Hhead.
  - apply IH; try assumption.
    intros prop' Hin. unfold assign.
    destruct (String.eqb (prop_name prop') (prop_name prop)) eqn:Heq.
    + apply String.eqb_eq in Heq.
      assert (Hex : existsb (String.eqb (prop_name prop))
                      (map prop_name props) = true).
      { apply existsb_eqb_In. rewrite <- Heq. now apply in_map. }
      congruence.
    + apply Hnull. now right.
  - rewrite assign_all_other by assumption.
    unfold assign. now rewrite String.eqb_refl.
  - apply IH; try assumption. intros; apply Hnull; now right.
  - rewrite assign_all_other by assumption. apply Hnull. now left.
Qed.

Lemma forall2b_length {A B : Type} (f : A -> B -> bool) :
  forall la lb, forall2b f la lb = true -> length la = length lb.
Proof.
  induction la as [|a la IH]; intros [|b lb] H; try discriminate;
    [reflexivity|].
  cbn in H. apply andb_true_iff in H. cbn. f_equal. now apply IH.
Qed.

Lemma fields_of_assigned (the : Temporaries double) :
  forall props fields,
    Forall2 (fun prop field => the (prop_name prop) = field) props fields ->
    map (fun prop => the (prop_name prop)) props = fields.
Proof.
  induction 1; cbn; congruence.
Qed.

Lemma none_missing (the : Temporaries double) valid_object' :
  forall props fields,
    forall2b (valid_property symbol_table valid_object') props fields = true ->
    Forall2 (fun prop field => the (prop_name prop) = field) props fields ->
    find (fun prop =>
            negb (is_optional (prop_type_annotation prop))
            && match the (prop_name prop) with
               | None => true
               | Some _ => false
               end)
      props
    = None.
Proof.
  intros props fields Hvalid Hassigned. revert Hvalid.
  induction Hassigned as [|prop field props fields Hprop _ IH];
    intros Hvalid; [reflexivity|].
  cbn [forall2b] in Hvalid. apply andb_true_iff in Hvalid.
  destruct Hvalid as [Hvalid Hothers].
  cbn [find]. rewrite Hprop.
  destruct field as [value|].
  - rewrite andb_false_r. now apply IH.
  - cbn [valid_property] in Hvalid. rewrite Hvalid. cbn [negb andb].
    now apply IH.
Qed.

Lemma sequence_of_valid (cls : ConcreteClass) (that : Value double) :
  in_table cls ->
  valid_object symbol_table (S depth) cls that = true ->
  no_empty_bytes that = true ->
  sequence_round_trip cls that.
Proof.
  intros Hcls Hvalid Hbytes.
  destruct (wf_of_in_table Hcls)
    as (Hspecific & Hnodup & _ & Hnames & Htypes & _).
  cbn [valid_object] in Hvalid.
  destruct that as [| | | | | | |name fields]; try discriminate.
  apply andb_true_iff in Hvalid. destruct Hvalid as [Hname Hvalid].
  apply String.eqb_eq in Hname. subst name.
  cbn [no_empty_bytes] in Hbytes.
  destruct (length (constructor_arguments cls) =? 0) eqn:Harguments.
  - assert (Hprops : properties cls = []).
    { unfold names_coincide in Hnames. apply andb_true_iff in Hnames.
      destruct Hnames as [Hnames _].
      destruct (constructor_arguments cls); [|discriminate].
      destruct (properties cls); [reflexivity|discriminate]. }
    rewrite Hprops in Hvalid.
    destruct fields; [|discriminate].
    exists [], 1. split; [exact I|]. split.
    + intros [|fuel] Hfuel writer; [lia|].
      rewrite ClsToSequence_S. unfold ClsToSequence_body.
      rewrite Hspecific, String.eqb_refl, Hprops. cbn [serialize_properties].
      unfold after_emit. now rewrite emit_nil.
    + intros [|fuel] rest Hfuel _ _; [lia|].
      rewrite (ClsFromSequence_S convert naming symbol_table).
      unfold ClsFromSequence_body. rewrite Hspecific, Harguments.
      unfold new. now rewrite Hprops.
  - destruct (@properties_of_valid cls Hcls (properties cls) fields
                (fun _ H => H) Hvalid Hbytes)
      as (inside & fuel0 & Helements & Hwrite & Hnil & Hread).
    exists inside, (S fuel0). split; [assumption|]. split.
    + intros [|fuel] Hfuel writer; [lia|].
      rewrite ClsToSequence_S. unfold ClsToSequence_body.
      rewrite Hspecific, String.eqb_refl. apply Hwrite. lia.
    + intros [|fuel] rest Hfuel Hrest Hstop; [lia|].
      rewrite (ClsFromSequence_S convert naming symbol_table).
      unfold ClsFromSequence_body. rewrite Hspecific, Harguments.
      assert (Hloop :
               read_sequence (sequence_loop fuel) cls (inside ++ rest)
                 (is_nil inside) ns
               = Returns (LoopDone
                            (assign_all all_null (properties cls) fields)
                            rest)).
      { unfold read_sequence. destruct inside as [|node inside].
        - cbn [is_nil negb app]. now rewrite Hnil.
        - cbn [is_nil negb].
          rewrite (@settled_elements (node :: inside) rest Helements Hrest).
          rewrite <- app_comm_cons. cbn [XmlReader.EOF].
          rewrite app_comm_cons.
          apply Hread; [lia|assumption|apply Hstop; discriminate]. }
      rewrite Hloop. cbn [bind].
      assert (Hassigned :=
                @assigned (properties cls) fields all_null
                  (@forall2b_length _ _ _ _ _ Hvalid) Hnodup
                  (fun _ _ => eq_refl)).
      unfold first_missing.
      rewrite (@none_missing _ _ _ _ Hvalid Hassigned).
      rewrite Hnames, Htypes. cbn [andb]. unfold new.
      now rewrite (@fields_of_assigned _ _ _ Hassigned).
Qed.

End Step.

(** *** Instances of any depth *)

Lemma round_trip_at_depth (depth : nat) :
  forall cls (that : Value double),
    in_table cls ->
    valid_object symbol_table depth cls that = true ->
    no_empty_bytes that = true ->
    sequence_round_trip cls that /\ element_round_trip cls that.
Proof.
  induction depth as [|depth IH]; intros cls that Hcls Hvalid Hbytes;
    [discriminate|].
  assert (Hsequence := @sequence_of_valid depth IH cls that Hcls Hvalid Hbytes).
  split; [assumption|].
  cbn [valid_object] in Hvalid.
  destruct that as [| | | | | | |name fields]; try discriminate.
  apply andb_true_iff in Hvalid. destruct Hvalid as [Hname _].
  apply String.eqb_eq in Hname. subst name.
  now apply element_of_sequence.
Qed.

Lemma ClsFromElement_Create fuel cls (document : list XmlNode) :
  ClsFromElement (S fuel) cls (Create document) ns
  = ClsFromElement (S fuel) cls document ns.
Proof. reflexivity. Qed.


(** X25.  Let the conversions of the platform lose nothing, the symbol
    table be well formed (among others, no enumeration literal has the
    empty text) and the prefix come with a namespace.  For every valid
    instance of a concrete class of the symbol table in which no byte array
    is empty: given enough steps, the serializer writes a document, and
    the facade of the de-serializer, on a reader created over that
    document and with the same namespace, returns the instance and leaves
    the reader at the end of the document. *)
Theorem round_trip_without_empty_bytes :
  forall depth cls (that : Value double),
    find_concrete_class symbol_table (cls_name cls) = Some cls ->
    valid_object symbol_table depth cls that = true ->
    no_empty_bytes that = true ->
    exists fuel0,
      forall fuel,
        fuel0 <= fuel ->
        exists writer,
          To convert naming symbol_table fuel that XmlWriter.empty prefix ns
          = Returns writer
          /\ XmlWriter.openElements writer = []
          /\ ClsFrom convert naming symbol_table fuel cls
               (Create (XmlWriter.written writer)) ns
             = Returns (that, []).
Proof.
  intros depth cls that Hcls Hvalid Hbytes.
  destruct (@round_trip_at_depth depth cls that Hcls Hvalid Hbytes)
    as [_ (inside & fuel0 & Hwrite & Hread)].
  cbv zeta in Hwrite, Hread.
  exists (S fuel0). intros [|fuel] Hfuel; [lia|].
  eexists. unfold To. rewrite Hwrite by lia.
  unfold after_emit. cbn [bind _writer].
  split; [reflexivity|]. split; [reflexivity|].
  unfold XmlWriter.emit, XmlWriter.empty.
  cbn [XmlWriter.openElements XmlWriter.written app].
  unfold ClsFrom. rewrite ClsFromElement_Create.
  assert (Hback := Hread (S fuel) [] ltac:(lia) settled_nil).
  rewrite app_nil_r in Hback. rewrite Hback. reflexivity.
Qed.

End RoundTrip.

Section RoundTripOnTheExample.

Import intermediate Xmlization Example.
Local Open Scope string_scope.

Lemma round_trip_without_empty_bytes_witness :
  Lossless Example.convert
  /\ wf_symbol_table Example.naming Example.symbol_table = true
  /\ namespace_ok (Some "aas") (Some "https://example.com/aas") = true
  /\ find_concrete_class Example.symbol_table (cls_name Drawing)
     = Some Drawing
  /\ valid_object Example.symbol_table 2 Drawing a_drawing = true
  /\ no_empty_bytes a_drawing = true
  /\ exists fuel0,
       forall fuel,
         fuel0 <= fuel ->
         exists writer,
           Xmlization.To Example.convert Example.naming Example.symbol_table
             fuel a_drawing XmlWriter.empty (Some "aas")
             (Some "https://example.com/aas")
           = Returns writer
           /\ XmlWriter.openElements writer = []
           /\ ClsFrom Example.convert Example.naming Example.symbol_table
                fuel Drawing (Create (XmlWriter.written writer))
                (Some "https://example.com/aas")
              = Returns (a_drawing, []).
Proof.
  split; [apply example_convert_lossless|].
  split; [reflexivity|]. split; [reflexivity|]. split; [reflexivity|].
  split; [reflexivity|]. split; [reflexivity|].
  apply (@round_trip_without_empty_bytes Z Example.convert Example.naming
           Example.symbol_table (Some "aas") (Some "https://example.com/aas")
           example_convert_lossless eq_refl eq_refl 2 Drawing a_drawing);
    reflexivity.
Defined.

End RoundTripOnTheExample.

(** * Further properties *)

(** ** Rendering of paths *)

Section RenderingOfPaths.

Import Reporting.
Local Open Scope string_scope.

Lemma chars_app (a b : string) :
  list_ascii_of_string (a ++ b)
  = (list_ascii_of_string a ++ list_ascii_of_string b)%list.
Proof. induction a as [|c a IH]; cbn; [reflexivity|now rewrite IH]. Qed.

(** A character of [replace target replacement s] comes from the
    replacement, or from [s] and is not the target. *)
Lemma chars_replace (target : ascii) (replacement s : string) (c : ascii) :
  In c (list_ascii_of_string (replace target replacement s)) ->
  In c (list_ascii_of_string replacement)
  \/ (In c (list_ascii_of_string s) /\ c <> target).
Proof.
  induction s as [|d s IH]; cbn; [tauto|].
  destruct (Ascii.eqb d target) eqn:Hd.
  - rewrite chars_app, in_app_iff. intros [H | H]; [auto|].
    destruct (IH H) as [H' | [H' Hc]]; auto.
  - cbn. intros [<- | H].
    + right. split; [auto|]. intros ->. rewrite Ascii.eqb_refl in Hd.
      discriminate.
    + destruct (IH H) as [H' | [H' Hc]]; auto.
Qed.

Ltac one_of_the_replacement H :=
  cbn in H;
  repeat (destruct H as [<- | H]; [repeat split; discriminate|]);
  destruct H.

Lemma escapeForXPath_chars (text : string) (c : ascii) :
  In c (list_ascii_of_string (escapeForXPath text)) ->
  c <> "/"%char /\ c <> "<"%char /\ c <> ">"%char
  /\ c <> DOUBLE_QUOTE /\ c <> APOSTROPHE.
Proof.
  intros H. unfold escapeForXPath in H.
  apply chars_replace in H. destruct H as [H | [H Hapos]];
    [one_of_the_replacement H|].
  apply chars_replace in H. destruct H as [H | [H Hquote]];
    [one_of_the_replacement H|].
  apply chars_replace in H. destruct H as [H | [H Hgt]];
    [one_of_the_replacement H|].
  apply chars_replace in H. destruct H as [H | [H Hlt]];
    [one_of_the_replacement H|].
  apply chars_replace in H. destruct H as [H | [H Hslash]];
    [one_of_the_replacement H|].
  repeat split; assumption.
Qed.

(** X1.  The text [escapeForXPath] gives for a name holds no slash, no angle
    bracket, no double quote and no apostrophe, whatever the name holds. *)
Theorem escapeForXPath_leaves_no_markup :
  forall text,
    Forall (fun c =>
              c <> "/"%char /\ c <> "<"%char /\ c <> ">"%char
              /\ c <> DOUBLE_QUOTE /\ c <> APOSTROPHE)
      (list_ascii_of_string (escapeForXPath text)).
Proof.
  intros text. apply Forall_forall. intros c. apply escapeForXPath_chars.
Qed.


(** The decimal text of an index has digits and at most a sign. *)
Lemma chars_string_of_uint (d : Decimal.uint) (c : ascii) :
  In c (list_ascii_of_string (NilEmpty.string_of_uint d)) ->
  is_digit c = true.
Proof.
  induction d; cbn; try tauto; (intros [<- | H]; [reflexivity|auto]).
Qed.

Lemma chars_string_of_Z (z : Z) (c : ascii) :
  In c (list_ascii_of_string (string_of_Z z)) ->
  is_digit c = true \/ c = "-"%char.
Proof.
  unfold string_of_Z, NilZero.string_of_int, NilZero.string_of_uint.
  destruct (Z.to_int z) as [d | d]; cbn.
  - destruct d; try (intros H; left; revert H; apply chars_string_of_uint).
    cbn. intros [<- | []]. left. reflexivity.
  - intros [<- | H]; [right; reflexivity|].
    destruct d; try (left; revert H; apply chars_string_of_uint).
    cbn in H. destruct H as [<- | []]. left. reflexivity.
Qed.

Lemma relativeXPathPart_has_no_slash (segment : Segment) :
  count_occ ascii_dec (list_ascii_of_string (relativeXPathPart segment))
    "/"%char = 0.
Proof.
  apply count_occ_not_In. intros H. destruct segment as [name | index].
  - apply escapeForXPath_chars in H. destruct H as [H _].
    now apply H.
  - cbn in H. destruct H as [H | [H | H]]; try discriminate.
    rewrite chars_app, in_app_iff in H. destruct H as [H | H].
    + apply chars_string_of_Z in H. destruct H as [H | H]; discriminate.
    + cbn in H. destruct H as [H | []]. discriminate.
Qed.

(** X2.  The slash form of a path has one slash between two segments and no
    other: as many slashes as segments but one, and none for the empty
    path.  A name that holds a slash does not add one, neither does an
    index. *)
Theorem generateRelativeXPath_has_a_slash_at_every_junction :
  forall segments,
    count_occ ascii_dec
      (list_ascii_of_string (generateRelativeXPath segments)) "/"%char
    = pred (length segments).
Proof.
  unfold generateRelativeXPath.
  induction segments as [|segment rest IH]; [reflexivity|].
  destruct rest as [|next rest].
  - cbn [map join length pred]. apply relativeXPathPart_has_no_slash.
  - change (join "/" (map relativeXPathPart (segment :: next :: rest)))
      with (relativeXPathPart segment
            ++ "/" ++ join "/" (map relativeXPathPart (next :: rest))).
    rewrite chars_app, count_occ_app, relativeXPathPart_has_no_slash.
    rewrite chars_app, count_occ_app, IH. reflexivity.
Qed.

Lemma replace_absent (target : ascii) (replacement s : string) :
  ~ In target (list_ascii_of_string s) ->
  replace target replacement s = s.
Proof.
  induction s as [|c s IH]; cbn; [reflexivity|].
  intros H. destruct (Ascii.eqb_spec c target) as [-> | _]; [tauto|].
  rewrite IH; tauto.
Qed.

Lemma chars_of_identifier (name : string) (c : ascii) :
  variableNameRe_matches name = true ->
  In c (list_ascii_of_string name) ->
  is_letter_or_underscore c || is_digit c = true.
Proof.
  destruct name as [|first rest]; [discriminate|]. cbn.
  intros H. apply andb_true_iff in H. destruct H as [Hfirst Hrest].
  intros [<- | Hin]; [now rewrite Hfirst|].
  induction rest as [|d rest IH]; [destruct Hin|].
  cbn in Hrest. apply andb_true_iff in Hrest. destruct Hrest as [Hd Hrest].
  destruct Hin as [<- | Hin]; auto.
Qed.

Lemma escapeForXPath_of_identifier (name : string) :
  variableNameRe_matches name = true -> escapeForXPath name = name.
Proof.
  intros Hname. unfold escapeForXPath.
  repeat rewrite replace_absent; try reflexivity;
    intros Hin; apply (chars_of_identifier _ _ Hname) in Hin; discriminate.
Qed.

Lemma append_nil (s : string) : s ++ "" = s.
Proof. induction s as [|c s IH]; cbn; [reflexivity|now rewrite IH]. Qed.

Lemma append_assoc (a b c : string) : (a ++ b) ++ c = a ++ b ++ c.
Proof. induction a as [|x a IH]; cbn; [reflexivity|now rewrite IH]. Qed.

Lemma concat_empty_cons (part : string) (parts : list string) :
  String.concat "" (part :: parts) = part ++ String.concat "" parts.
Proof.
  destruct parts; cbn [String.concat]; [now rewrite append_nil|reflexivity].
Qed.

Lemma join_is_concat (separator : string) (parts : list string) :
  join separator parts = String.concat separator parts.
Proof.
  induction parts as [|p parts IH]; [reflexivity|].
  destruct parts; [reflexivity|].
  cbn [join String.concat] in *. now rewrite IH.
Qed.

Lemma dotted (names : list string) :
  forall name,
    name ++ String.concat "" (map (fun n => "." ++ n) names)
    = String.concat "." (name :: names).
Proof.
  induction names as [|n names IH]; intros name.
  - cbn. apply append_nil.
  - cbn [map]. rewrite concat_empty_cons, append_assoc, IH. reflexivity.
Qed.

Lemma jsonPathParts_of_identifiers (i : nat) (names : list string) :
  Forall (fun name => variableNameRe_matches name = true) names ->
  jsonPathParts (S i) (map NameSegment names)
  = map (fun name => "." ++ name) names.
Proof.
  intros H. revert i. induction H as [|name names Hname _ IH]; intros i;
    [reflexivity|].
  cbn [map jsonPathParts jsonPathPart]. rewrite Hname, IH. cbn [Nat.eqb].
  now rewrite append_nil.
Qed.

(** X3.  A path of names that all match [variableNameRe] is rendered with
    the names as they are: joined by slashes in the slash form, and by dots
    in the dotted-bracket form, without a leading dot. *)
Theorem identifiers_are_rendered_as_they_are :
  forall names,
    Forall (fun name => variableNameRe_matches name = true) names ->
    generateRelativeXPath (map NameSegment names) = String.concat "/" names
    /\ generateJsonPath (map NameSegment names) = String.concat "." names.
Proof.
  intros names H. split.
  - unfold generateRelativeXPath. rewrite join_is_concat. f_equal.
    induction H as [|name names Hname _ IH]; [reflexivity|].
    cbn [map relativeXPathPart].
    now rewrite (escapeForXPath_of_identifier _ Hname), IH.
  - unfold generateJsonPath. rewrite join_is_concat.
    destruct H as [|name names Hname Hnames]; [reflexivity|].
    cbn [map jsonPathParts jsonPathPart]. rewrite Hname. cbn [Nat.eqb].
    rewrite (jsonPathParts_of_identifiers 0 Hnames), concat_empty_cons.
    apply dotted.
Qed.

Lemma identifiers_are_rendered_as_they_are_witness :
  generateRelativeXPath (map NameSegment ["submodels"; "id_short"])
  = "submodels/id_short"
  /\ generateJsonPath (map NameSegment ["submodels"; "id_short"])
     = "submodels.id_short".
Proof.
  apply (@identifiers_are_rendered_as_they_are ["submodels"; "id_short"]).
  repeat constructor.
Defined.


Lemma replace_app (target : ascii) (replacement a b : string) :
  replace target replacement (a ++ b)
  = replace target replacement a ++ replace target replacement b.
Proof.
  induction a as [|c a IH]; cbn; [reflexivity|].
  destruct (Ascii.eqb c target); rewrite IH;
    [now rewrite append_assoc|reflexivity].
Qed.

Lemma replace_other (target : ascii) (replacement : string) (c : ascii) :
  c <> target -> replace target replacement (str1 c) = str1 c.
Proof.
  intros H. cbn. apply Ascii.eqb_neq in H. now rewrite H.
Qed.

(** X4.  [escapeForXPath] works character by character: the text of a
    concatenation is the concatenation of the texts; the ampersand, the
    slash, the angle brackets, the double quote and the apostrophe each
    become their entity, the ampersand of an entity not being escaped
    again; every other character stays. *)
Theorem escapeForXPath_replaces_each_character_once :
  (forall a b,
      escapeForXPath (a ++ b) = escapeForXPath a ++ escapeForXPath b)
  /\ escapeForXPath "&" = "&amp;"
  /\ escapeForXPath "/" = "&#47;"
  /\ escapeForXPath "<" = "&lt;"
  /\ escapeForXPath ">" = "&gt;"
  /\ escapeForXPath (str1 DOUBLE_QUOTE) = "&quot;"
  /\ escapeForXPath (str1 APOSTROPHE) = "&apos;"
  /\ (forall c,
        c <> "&"%char -> c <> "/"%char -> c <> "<"%char -> c <> ">"%char ->
        c <> DOUBLE_QUOTE -> c <> APOSTROPHE ->
        escapeForXPath (str1 c) = str1 c).
Proof.
  split; [|repeat split; try reflexivity].
  - intros a b. unfold escapeForXPath. now repeat rewrite replace_app.
  - intros c Hamp Hslash Hlt Hgt Hquote Hapos. unfold escapeForXPath.
    now repeat rewrite replace_other.
Qed.

(** X5.  The chain of replacements of [generateJsonPath] works character by
    character as well, and what it gives for a character is: two
    backslashes and the letter for a tab, a backspace, a new line, a
    carriage return and a form feed; two backslashes and the quote for a
    double quote; two backslashes for a backslash; the character itself
    for any other. *)
Theorem escaped_doubles_the_backslash_of_each_escape :
  (forall a b, escaped (a ++ b) = escaped a ++ escaped b)
  /\ escaped (str1 TAB) = String BACKSLASH (String BACKSLASH "t")
  /\ escaped (str1 BACKSPACE) = String BACKSLASH (String BACKSLASH "b")
  /\ escaped (str1 NEWLINE) = String BACKSLASH (String BACKSLASH "n")
  /\ escaped (str1 CARRIAGE_RETURN) = String BACKSLASH (String BACKSLASH "r")
  /\ escaped (str1 FORM_FEED) = String BACKSLASH (String BACKSLASH "f")
  /\ escaped (str1 DOUBLE_QUOTE)
     = String BACKSLASH (String BACKSLASH (str1 DOUBLE_QUOTE))
  /\ escaped (str1 BACKSLASH) = String BACKSLASH (str1 BACKSLASH)
  /\ (forall c,
        c <> TAB -> c <> BACKSPACE -> c <> NEWLINE -> c <> CARRIAGE_RETURN ->
        c <> FORM_FEED -> c <> DOUBLE_QUOTE -> c <> BACKSLASH ->
        escaped (str1 c) = str1 c).
Proof.
  split; [|repeat split; try reflexivity].
  - intros a b. unfold escaped. now repeat rewrite replace_app.
  - intros c Htab Hbackspace Hnewline Hreturn Hfeed Hquote Hbackslash.
    unfold escaped. now repeat rewrite replace_other.
Qed.

Lemma join_snoc (separator : string) (parts : list string) (part : string) :
  parts <> [] ->
  join separator (parts ++ [part]) = join separator parts ++ separator ++ part.
Proof.
  induction parts as [|p parts IH]; [congruence|]. intros _.
  destruct parts as [|q parts]; [reflexivity|].
  change (join separator ((p :: q :: parts) ++ [part]))
    with (p ++ separator ++ join separator ((q :: parts) ++ [part])).
  rewrite IH by discriminate.
  change (join separator (p :: q :: parts))
    with (p ++ separator ++ join separator (q :: parts)).
  now repeat rewrite append_assoc.
Qed.

Lemma jsonPathParts_snoc (segments : list Segment) (segment : Segment) :
  forall i,
    jsonPathParts i (segments ++ [segment])
    = (jsonPathParts i segments
       ++ [jsonPathPart (i + length segments) segment])%list.
Proof.
  induction segments as [|s segments IH]; intros i; cbn [app jsonPathParts length].
  - now rewrite Nat.add_0_r.
  - rewrite IH. now rewrite Nat.add_succ_r.
Qed.

Lemma join_empty_snoc (parts : list string) (part : string) :
  join "" (parts ++ [part]) = join "" parts ++ part.
Proof.
  destruct parts as [|p parts]; [reflexivity|].
  now rewrite join_snoc by discriminate.
Qed.

(** X6.  Either form of a path with one more segment at its end is the form
    of the path, followed by the part of the new segment: in the slash form
    a slash and the escaped name or [*[i]]; in the dotted-bracket form a dot
    and the name, or the name escaped in brackets and quotes, or [[i]]. *)
Theorem a_longer_path_continues_the_shorter :
  forall segments segment,
    segments <> [] ->
    generateRelativeXPath (segments ++ [segment])
    = generateRelativeXPath segments ++ "/" ++ relativeXPathPart segment
    /\ generateJsonPath (segments ++ [segment])
       = generateJsonPath segments
         ++ match segment with
            | NameSegment name =>
                if variableNameRe_matches name then "." ++ name
                else "[" ++ str1 DOUBLE_QUOTE ++ escaped name
                         ++ str1 DOUBLE_QUOTE ++ "]"
            | IndexSegment index => "[" ++ string_of_Z index ++ "]"
            end.
Proof.
  intros segments segment Hsegments. split.
  - unfold generateRelativeXPath. rewrite map_app. cbn [map].
    apply join_snoc. destruct segments; [congruence|discriminate].
  - unfold generateJsonPath. rewrite jsonPathParts_snoc, join_empty_snoc.
    f_equal. destruct segments as [|s segments]; [congruence|].
    cbn [length Nat.add]. destruct segment as [name | index];
      [|reflexivity].
    cbn [jsonPathPart Nat.eqb]. destruct (variableNameRe_matches name);
      [now rewrite append_nil|reflexivity].
Qed.

Lemma a_longer_path_continues_the_shorter_witness :
  generateRelativeXPath ([NameSegment "items"; IndexSegment 2]
                           ++ [NameSegment "value"])
  = generateRelativeXPath [NameSegment "items"; IndexSegment 2]
      ++ "/" ++ relativeXPathPart (NameSegment "value")
  /\ generateJsonPath ([NameSegment "items"; IndexSegment 2]
                         ++ [NameSegment "value"])
     = generateJsonPath [NameSegment "items"; IndexSegment 2]
         ++ (if variableNameRe_matches "value" then "." ++ "value"
             else "[" ++ str1 DOUBLE_QUOTE ++ escaped "value"
                      ++ str1 DOUBLE_QUOTE ++ "]").
Proof.
  apply (@a_longer_path_continues_the_shorter
           [NameSegment "items"; IndexSegment 2] (NameSegment "value")).
  discriminate.
Defined.

End RenderingOfPaths.

(** ** Reading of nodes *)

Section ReadingOfNodes.

Import Reporting intermediate Xmlization.

Variable double : Type.
Variable convert : XmlConvert double.

(** X7.  [SkipNoneWhitespaceAndComments] leaves the reader at the first node
    that is neither the initial position, nor white space, nor a comment,
    or at the end of the document if there is no such node; the nodes it
    passes are all of these three kinds; skipping again changes
    nothing. *)
Theorem SkipNoneWhitespaceAndComments_stops_at_the_first_other_node :
  forall reader,
    exists skipped,
      reader = skipped ++ SkipNoneWhitespaceAndComments reader
      /\ Forall (fun node =>
                   node_NodeType node = XmlNodeType.None
                   \/ node_NodeType node = XmlNodeType.Whitespace
                   \/ node_NodeType node = XmlNodeType.Comment)
           skipped
      /\ match SkipNoneWhitespaceAndComments reader with
         | [] => True
         | node :: _ =>
             node_NodeType node <> XmlNodeType.None
             /\ node_NodeType node <> XmlNodeType.Whitespace
             /\ node_NodeType node <> XmlNodeType.Comment
         end
      /\ SkipNoneWhitespaceAndComments (SkipNoneWhitespaceAndComments reader)
         = SkipNoneWhitespaceAndComments reader.
Proof.
  induction reader as [|node rest IH].
  - exists []. cbn. auto.
  - destruct IH as (skipped & Hsplit & Hskipped & Hhead & Hagain).
    cbn [SkipNoneWhitespaceAndComments].
    destruct (node_NodeType node) eqn:Hnode;
      try (exists []; cbn [app SkipNoneWhitespaceAndComments];
           rewrite Hnode;
           repeat split; auto; discriminate);
      (exists (node :: skipped); cbn [app]; rewrite <- Hsplit;
       repeat split; auto).
Qed.

(** X8.  [ReadWholeContentAsBase64] returns the whole of the content as
    bytes, however long: reading it in pieces of 1024 bytes loses and adds
    nothing, and the method fails exactly as reading the content fails. *)
Theorem ReadWholeContentAsBase64_hands_out_all_the_content :
  forall reader,
    ReadWholeContentAsBase64 convert reader
    = XmlReader.ReadContentAs (FromBase64String convert) reader.
Proof.
  intros reader. unfold ReadWholeContentAsBase64.
  destruct (XmlReader.ReadContentAs _ reader) as [[bytes reader']| | |];
    cbn [bind]; try reflexivity.
  rewrite ReadWholeContentAsBase64_loop_all by lia. reflexivity.
Qed.

End ReadingOfNodes.

Section Answers.

Import Reporting intermediate Xmlization.

Variable double : Type.
Variable convert : XmlConvert double.
Variable naming : Naming.
Variable symbol_table : SymbolTable.

Local Abbreviation ClsFromSequence := (ClsFromSequence convert naming symbol_table).
Local Abbreviation sequence_loop := (sequence_loop convert naming symbol_table).
Local Abbreviation ClsFromElement := (ClsFromElement convert naming symbol_table).
Local Abbreviation InterfaceFromElement :=
  (InterfaceFromElement convert naming symbol_table).
Local Abbreviation list_loop := (list_loop convert naming symbol_table).

(** An error comes without a result. *)
Lemma ClsFromSequence_error fuel cls reader isEmptySequence ns result e
  reader' :
  ClsFromSequence fuel cls reader isEmptySequence ns
  = Returns (result, Some e, reader') ->
  result = None.
Proof.
  destruct fuel as [|fuel]; [discriminate|].
  rewrite ClsFromSequence_S. unfold ClsFromSequence_body, return_null.
  repeat match goal with
         | |- context [if ?b then _ else _] => destruct b
         | |- context [bind ?c _] => destruct c as [[]| | |]; cbn [bind]
         | |- context [match ?c with Some _ => _ | None => _ end] =>
             destruct c
         end;
    intros H; inversion H; eauto.
Qed.

Lemma ClsFromElement_error fuel cls reader ns result e reader' :
  ClsFromElement fuel cls reader ns = Returns (result, Some e, reader') ->
  result = None.
Proof.
  destruct fuel as [|fuel]; [discriminate|].
  rewrite ClsFromElement_S. unfold ClsFromElement_body, return_null.
  repeat match goal with
         | |- context [if ?b then _ else _] => destruct b
         | |- context [bind ?c _] =>
             destruct c as [[[? [?|]] ?]| | |]; cbn [bind]
         | |- context [bind ?c _] =>
             destruct c as [[? [?|]]| | |]; cbn [bind]
         end;
    intros H; inversion H; eauto.
Qed.

Lemma InterfaceFromElement_error fuel interface reader ns result e reader' :
  InterfaceFromElement fuel interface reader ns
  = Returns (result, Some e, reader') ->
  result = None.
Proof.
  destruct fuel as [|fuel]; [discriminate|].
  rewrite InterfaceFromElement_S.
  unfold InterfaceFromElement_body, return_null.
  destruct (XmlReader.EOF _); [intros H; inversion H; reflexivity|].
  destruct (negb _); [intros H; inversion H; reflexivity|].
  destruct (TryElementName _ ns) as [[elementName [e'|]]| | |]; cbn [bind];
    try discriminate; [intros H; inversion H; reflexivity|].
  destruct (find _ _); [|intros H; inversion H; reflexivity].
  destruct (find_concrete_class _ _); [|discriminate].
  apply ClsFromElement_error.
Qed.

Lemma one_of_the_two (answer : Completion (Out double)) :
  (forall result reader,
      answer = Returns (result, None, reader) ->
      exists value, result = Some value) ->
  (forall result e reader,
      answer = Returns (result, Some e, reader) -> result = None) ->
  match answer with
  | Returns (Some _, None, _) | Returns (None, Some _, _) => True
  | Returns _ => False
  | _ => True
  end.
Proof.
  intros Hresult Herror.
  destruct answer as [[[result [e|]] reader]| | |]; try exact I.
  - rewrite (Herror result e reader eq_refl). exact I.
  - destruct (Hresult result reader eq_refl) as [value ->]. exact I.
Qed.

(** X9.  Whenever a method of [DeserializeImplementation] returns, it hands
    back either an instance and no error, or an error and [null]: never
    both, never neither. *)
Theorem either_an_instance_or_an_error :
  forall fuel reader ns,
    (forall cls isEmptySequence,
        match ClsFromSequence fuel cls reader isEmptySequence ns with
        | Returns (Some _, None, _) | Returns (None, Some _, _) => True
        | Returns _ => False
        | _ => True
        end)
    /\ (forall cls,
          match ClsFromElement fuel cls reader ns with
          | Returns (Some _, None, _) | Returns (None, Some _, _) => True
          | Returns _ => False
          | _ => True
          end)
    /\ (forall interface,
          match InterfaceFromElement fuel interface reader ns with
          | Returns (Some _, None, _) | Returns (None, Some _, _) => True
          | Returns _ => False
          | _ => True
          end).
Proof.
  intros fuel reader ns. repeat split; intros; apply one_of_the_two.
  - intros result reader'. apply ClsFromSequence_result.
  - intros result e reader'. apply ClsFromSequence_error.
  - intros result reader'. apply ClsFromElement_result.
  - intros result e reader'. apply ClsFromElement_error.
  - intros result reader'. apply InterfaceFromElement_result.
  - intros result e reader'. apply InterfaceFromElement_error.
Qed.

End Answers.

(** ** The reader moves forward *)

Section Forward.

Import Reporting intermediate Xmlization.

Variable double : Type.
Variable convert : XmlConvert double.
Variable naming : Naming.
Variable symbol_table : SymbolTable.

Local Abbreviation ClsFromSequence := (ClsFromSequence convert naming symbol_table).
Local Abbreviation sequence_loop := (sequence_loop convert naming symbol_table).
Local Abbreviation ClsFromElement := (ClsFromElement convert naming symbol_table).
Local Abbreviation InterfaceFromElement :=
  (InterfaceFromElement convert naming symbol_table).
Local Abbreviation list_loop := (list_loop convert naming symbol_table).

(** [reader'] is [reader] after some nodes have been read. *)
Local Abbreviation behind reader' reader :=
  (exists passed : list XmlNode, reader = passed ++ reader').

Local Abbreviation out_behind answer reader :=
  (match answer : Completion (Out double) with
   | Returns (_, _, reader') => behind reader' reader
   | _ => True
   end).

Local Abbreviation case_behind answer reader :=
  (match answer : Completion (CaseExit double) with
   | Returns (Break _ reader') => behind reader' reader
   | Returns (ReturnNull _ reader') => behind reader' reader
   | _ => True
   end).

Local Abbreviation loop_behind answer reader :=
  (match answer : Completion (LoopExit double) with
   | Returns (LoopDone _ reader') => behind reader' reader
   | Returns (LoopReturnNull _ reader') => behind reader' reader
   | _ => True
   end).

Lemma behind_itself (reader : XmlReader.t) : behind reader reader.
Proof. now exists []. Qed.

Lemma behind_behind (r1 r2 r3 : XmlReader.t) :
  behind r2 r1 -> behind r3 r2 -> behind r3 r1.
Proof.
  intros [p1 ->] [p2 ->]. exists (p1 ++ p2). now rewrite app_assoc.
Qed.

Lemma behind_Skip (reader : XmlReader.t) :
  behind (SkipNoneWhitespaceAndComments reader) reader.
Proof.
  induction reader as [|node rest [passed IH]]; [now exists []|].
  cbn. destruct (node_NodeType node); try (now exists []);
    exists (node :: passed); cbn; now rewrite <- IH.
Qed.

Lemma behind_Read (reader : XmlReader.t) :
  behind (XmlReader.Read reader) reader.
Proof. destruct reader as [|node rest]; [now exists []|now exists [node]]. Qed.

Lemma behind_content (reader : XmlReader.t) :
  behind (snd (XmlReader.content reader)) reader.
Proof.
  induction reader as [|node rest [passed IH]]; [now exists []|].
  cbn. destruct (node_NodeType node); try (now exists []);
    try (destruct (XmlReader.content rest) as [s r']; cbn in *);
    exists (node :: passed); cbn; now rewrite <- IH.
Qed.

Lemma behind_ReadContentAsString (reader : XmlReader.t) text reader' :
  XmlReader.ReadContentAsString reader = Returns (text, reader') ->
  behind reader' reader.
Proof.
  unfold XmlReader.ReadContentAsString.
  destruct (XmlReader.CanReadContentAs _); [|discriminate].
  intros H. inversion H as [Hcontent].
  replace reader' with (snd (XmlReader.content reader))
    by now rewrite Hcontent.
  apply behind_content.
Qed.

Lemma behind_ReadContentAs {A : Type} (conversion : string -> option A)
  (reader : XmlReader.t) a reader' :
  XmlReader.ReadContentAs conversion reader = Returns (a, reader') ->
  behind reader' reader.
Proof.
  unfold XmlReader.ReadContentAs.
  destruct (XmlReader.ReadContentAsString reader) as [[text r]| | |] eqn:H;
    cbn [bind]; try discriminate.
  destruct (conversion text); [|discriminate].
  intros H'. inversion H'. subst. eapply behind_ReadContentAsString, H.
Qed.

Lemma behind_deserialization_expr a_type (reader : XmlReader.t) value
  reader' :
  deserialization_expr convert a_type reader = Returns (value, reader') ->
  behind reader' reader.
Proof.
  destruct a_type; cbn [deserialization_expr];
    try (destruct (XmlReader.ReadContentAs _ reader) as [[a r]| | |] eqn:H;
         cbn [bind]; try discriminate;
         intros H'; inversion H'; subst; eapply behind_ReadContentAs, H).
  - destruct (XmlReader.ReadContentAsString reader) as [[a r]| | |] eqn:H;
      cbn [bind]; try discriminate.
    intros H'. inversion H'. subst. eapply behind_ReadContentAsString, H.
  - unfold ReadWholeContentAsBase64.
    destruct (XmlReader.ReadContentAs _ reader) as [[a r]| | |] eqn:H;
      cbn [bind]; try discriminate.
    intros H'. inversion H'. subst. eapply behind_ReadContentAs, H.
Qed.

Lemma primitive_property_behind a_type prop cls isEmptyProperty reader :
  case_behind
    (deserialize_primitive_property convert naming a_type prop cls
       isEmptyProperty reader)
    reader.
Proof.
  unfold deserialize_primitive_property.
  destruct isEmptyProperty.
  - destruct a_type; apply behind_itself.
  - destruct (XmlReader.EOF reader); [apply behind_itself|].
    destruct (deserialization_expr convert a_type reader)
      as [[value reader']|exception| |] eqn:H; try exact I.
    + eapply behind_deserialization_expr, H.
    + destruct exception; try exact I. apply behind_itself.
Qed.

Lemma enumeration_property_behind enumeration prop cls isEmptyProperty
  reader :
  case_behind
    (deserialize_enumeration_property double naming enumeration prop cls
       isEmptyProperty reader)
    reader.
Proof.
  unfold deserialize_enumeration_property.
  destruct isEmptyProperty; [apply behind_itself|].
  destruct (XmlReader.EOF reader); [apply behind_itself|].
  destruct (XmlReader.ReadContentAsString reader)
    as [[text reader']|exception| |] eqn:H; try exact I.
  - destruct (FromString enumeration text);
      eapply behind_ReadContentAsString, H.
  - destruct exception; try exact I. apply behind_itself.
Qed.

Lemma end_of_property_behind cls elementName isEmptyProperty reader ns :
  match read_end_of_property cls elementName isEmptyProperty reader ns with
  | Returns (_, reader') => behind reader' reader
  | _ => True
  end.
Proof.
  unfold read_end_of_property.
  assert (Hskip := behind_Skip reader).
  destruct (negb isEmptyProperty); [|exact Hskip].
  destruct (XmlReader.EOF _); [exact Hskip|].
  destruct (negb (XmlNodeType.eqb _ _)); [exact Hskip|].
  destruct (TryElementName _ ns) as [[name [e|]]| | |]; cbn [bind];
    try exact I; [exact Hskip|].
  destruct (negb (String.eqb name elementName)); [exact Hskip|].
  eapply behind_behind; [exact Hskip|].
  eapply behind_behind; [apply behind_Read|apply behind_Skip].
Qed.

Section Bodies.

Variable ClsFromSequence' :
  ConcreteClass -> XmlReader.t -> bool -> option string ->
  Completion (Out double).
Variable ClsFromElement' :
  ConcreteClass -> XmlReader.t -> option string -> Completion (Out double).
Variable InterfaceFromElement' :
  Interface -> XmlReader.t -> option string -> Completion (Out double).
Variable sequence_loop' :
  ConcreteClass -> Temporaries double -> XmlReader.t -> option string ->
  Completion (LoopExit double).
Variable list_loop' :
  ItemMethod -> Z -> list (Value double) -> XmlReader.t -> option string ->
  Completion (CaseExit double).

Hypothesis ClsFromSequence_behind :
  forall cls reader isEmptySequence ns,
    out_behind (ClsFromSequence' cls reader isEmptySequence ns) reader.
Hypothesis ClsFromElement_behind :
  forall cls reader ns, out_behind (ClsFromElement' cls reader ns) reader.
Hypothesis InterfaceFromElement_behind :
  forall interface reader ns,
    out_behind (InterfaceFromElement' interface reader ns) reader.
Hypothesis sequence_loop_behind :
  forall cls the reader ns,
    loop_behind (sequence_loop' cls the reader ns) reader.
Hypothesis list_loop_behind :
  forall method index the_list reader ns,
    case_behind (list_loop' method index the_list reader ns) reader.

Lemma interface_property_behind interface prop cls elementName
  isEmptyProperty reader ns :
  case_behind
    (deserialize_interface_property naming InterfaceFromElement' interface
       prop cls elementName isEmptyProperty reader ns)
    reader.
Proof.
  unfold deserialize_interface_property.
  destruct isEmptyProperty; [apply behind_itself|].
  destruct (XmlReader.EOF reader); [apply behind_itself|].
  assert (H := InterfaceFromElement_behind interface reader ns).
  destruct (InterfaceFromElement' interface reader ns)
    as [[[result [e|]] reader']| | |]; cbn [bind]; try exact I; exact H.
Qed.

Lemma cls_property_behind target prop isEmptyProperty reader ns :
  case_behind
    (deserialize_cls_property naming ClsFromSequence' target prop
       isEmptyProperty reader ns)
    reader.
Proof.
  unfold deserialize_cls_property.
  assert (H := ClsFromSequence_behind target reader isEmptyProperty ns).
  destruct (ClsFromSequence' target reader isEmptyProperty ns)
    as [[[result [e|]] reader']| | |]; cbn [bind]; try exact I; exact H.
Qed.

Lemma list_loop_body_behind method index the_list reader ns :
  case_behind
    (list_loop_body ClsFromElement' InterfaceFromElement' list_loop' method
       index the_list reader ns)
    reader.
Proof.
  unfold list_loop_body.
  destruct (XmlNodeType.eqb _ _); [|apply behind_itself].
  assert (H : out_behind
                (call_item_method ClsFromElement' InterfaceFromElement'
                   method reader ns)
                reader).
  { destruct method; cbn [call_item_method];
      [apply InterfaceFromElement_behind|apply ClsFromElement_behind]. }
  destruct (call_item_method _ _ method reader ns)
    as [[[item [e|]] reader']| | |]; cbn [bind]; try exact I; [exact H|].
  destruct item as [value|]; [|exact I].
  assert (H' := list_loop_behind method (index + 1)%Z (the_list ++ [value])
                  (SkipNoneWhitespaceAndComments reader') ns).
  destruct (list_loop' _ _ _ _ _) as [[v r|e r]| | |]; try exact I;
    (eapply behind_behind; [exact H|];
     eapply behind_behind; [apply behind_Skip|exact H']).
Qed.

Lemma list_property_behind items isEmptyProperty reader ns :
  case_behind
    (deserialize_list_property symbol_table list_loop' items isEmptyProperty
       reader ns)
    reader.
Proof.
  unfold deserialize_list_property.
  destruct (deserialize_method symbol_table items) as [method|]; [|exact I].
  destruct (negb isEmptyProperty); [|apply behind_itself].
  assert (H := list_loop_behind method 0%Z []
                 (SkipNoneWhitespaceAndComments reader) ns).
  destruct (list_loop' _ _ _ _ _) as [[v r|e r]| | |]; try exact I;
    (eapply behind_behind; [apply behind_Skip|exact H]).
Qed.

Lemma property_behind prop cls elementName isEmptyProperty reader ns :
  case_behind
    (deserialize_property convert naming symbol_table ClsFromSequence'
       InterfaceFromElement' list_loop' prop cls elementName isEmptyProperty
       reader ns)
    reader.
Proof.
  unfold deserialize_property.
  destruct (dispatch symbol_table _) as [a_type|enumeration|[interface|]
                                        |target|items|]; try exact I.
  - apply primitive_property_behind.
  - apply enumeration_property_behind.
  - apply interface_property_behind.
  - apply cls_property_behind.
  - apply list_property_behind.
Qed.

Lemma sequence_loop_body_behind cls the reader ns :
  loop_behind
    (sequence_loop_body convert naming symbol_table ClsFromSequence'
       InterfaceFromElement' sequence_loop' list_loop' cls the reader ns)
    reader.
Proof.
  unfold sequence_loop_body.
  destruct (XmlNodeType.eqb _ _); [|apply behind_itself].
  destruct (TryElementName reader ns) as [[elementName [e|]]| | |];
    cbn [bind]; try exact I; [apply behind_itself|].
  destruct (case_of naming cls elementName) as [prop|];
    [|apply behind_Read].
  assert (Hprop := property_behind prop cls elementName
                     (XmlReader.IsEmptyElement reader)
                     (XmlReader.Read reader) ns).
  destruct (deserialize_property _ _ _ _ _ _ prop cls elementName _ _ ns)
    as [[value r|e r]| | |]; cbn [bind]; try exact I;
    [|eapply behind_behind; [apply behind_Read|exact Hprop]].
  assert (Hend := end_of_property_behind cls elementName
                    (XmlReader.IsEmptyElement reader) r ns).
  destruct (read_end_of_property cls elementName _ r ns)
    as [[[e|] r']| | |]; cbn [bind]; try exact I;
    assert (Hr' : behind r' reader)
      by (eapply behind_behind; [apply behind_Read|];
          eapply behind_behind; [exact Hprop|exact Hend]);
    [exact Hr'|].
  destruct (XmlReader.EOF r'); [exact Hr'|].
  assert (Hloop := sequence_loop_behind cls (assign the prop value) r' ns).
  destruct (sequence_loop' cls _ r' ns) as [[t r''|e r'']| | |];
    try exact I; (eapply behind_behind; [exact Hr'|exact Hloop]).
Qed.

Lemma ClsFromSequence_body_behind cls reader isEmptySequence ns :
  out_behind
    (ClsFromSequence_body sequence_loop' cls reader isEmptySequence ns)
    reader.
Proof.
  unfold ClsFromSequence_body.
  destruct (is_implementation_specific cls); [exact I|].
  destruct (_ =? 0); [apply behind_itself|].
  assert (H : loop_behind
                (read_sequence sequence_loop' cls reader isEmptySequence ns)
                reader).
  { unfold read_sequence. destruct (negb isEmptySequence);
      [|apply behind_itself].
    destruct (XmlReader.EOF _); [apply behind_Skip|].
    assert (H := sequence_loop_behind cls (all_null (double := double))
                   (SkipNoneWhitespaceAndComments reader) ns).
    destruct (sequence_loop' cls _ _ ns) as [[t r|e r]| | |]; try exact I;
      (eapply behind_behind; [apply behind_Skip|exact H]). }
  destruct (read_sequence sequence_loop' cls reader isEmptySequence ns)
    as [[the r|e r]| | |]; cbn [bind]; try exact I; [|exact H].
  destruct (first_missing cls the); [exact H|].
  destruct (names_coincide cls && types_match cls); [exact H|exact I].
Qed.

Lemma ClsFromElement_body_behind cls reader ns :
  out_behind (ClsFromElement_body naming ClsFromSequence' cls reader ns)
    reader.
Proof.
  unfold ClsFromElement_body.
  destruct (is_implementation_specific cls); [exact I|].
  assert (Hskip := behind_Skip reader).
  destruct (XmlReader.EOF _); [exact Hskip|].
  destruct (negb (XmlNodeType.eqb _ _)); [exact Hskip|].
  destruct (TryElementName _ ns) as [[elementName [e|]]| | |];
    cbn [bind]; try exact I; [exact Hskip|].
  destruct (negb (String.eqb elementName _)); [exact Hskip|].
  assert (Hseq := ClsFromSequence_behind cls
                    (XmlReader.Read (SkipNoneWhitespaceAndComments reader))
                    (XmlReader.IsEmptyElement
                       (SkipNoneWhitespaceAndComments reader)) ns).
  destruct (ClsFromSequence' cls _ _ ns) as [[[result [e|]] r]| | |];
    cbn [bind]; try exact I;
    assert (Hr : behind r reader)
      by (eapply behind_behind; [exact Hskip|];
          eapply behind_behind; [apply behind_Read|exact Hseq]);
    [exact Hr|].
  assert (Hr' : behind (SkipNoneWhitespaceAndComments r) reader)
    by (eapply behind_behind; [exact Hr|apply behind_Skip]).
  destruct (negb (XmlReader.IsEmptyElement _)); [|exact Hr'].
  destruct (XmlReader.EOF _); [exact Hr'|].
  destruct (negb (XmlNodeType.eqb _ _)); [exact Hr'|].
  destruct (TryElementName _ ns) as [[endElementName [e|]]| | |];
    cbn [bind]; try exact I; [exact Hr'|].
  destruct (negb (String.eqb endElementName elementName)); [exact Hr'|].
  eapply behind_behind; [exact Hr'|apply behind_Read].
Qed.

Lemma InterfaceFromElement_body_behind interface reader ns :
  out_behind
    (InterfaceFromElement_body naming symbol_table ClsFromElement' interface
       reader ns)
    reader.
Proof.
  unfold InterfaceFromElement_body.
  assert (Hskip := behind_Skip reader).
  destruct (XmlReader.EOF _); [exact Hskip|].
  destruct (negb (XmlNodeType.eqb _ _)); [exact Hskip|].
  destruct (TryElementName _ ns) as [[elementName [e|]]| | |];
    cbn [bind]; try exact I; [exact Hskip|].
  destruct (find _ _) as [implementer|]; [|exact Hskip].
  destruct (find_concrete_class _ _) as [cls|]; [|exact I].
  assert (H := ClsFromElement_behind cls
                 (SkipNoneWhitespaceAndComments reader) ns).
  destruct (ClsFromElement' cls _ ns) as [[[result error] r]| | |];
    try exact I.
  eapply behind_behind; [exact Hskip|exact H].
Qed.

End Bodies.

Lemma behind_at_all_fuel (fuel : nat) :
  (forall cls reader isEmptySequence ns,
      out_behind (ClsFromSequence fuel cls reader isEmptySequence ns) reader)
  /\ (forall cls reader ns,
        out_behind (ClsFromElement fuel cls reader ns) reader)
  /\ (forall interface reader ns,
        out_behind (InterfaceFromElement fuel interface reader ns) reader)
  /\ (forall cls the reader ns,
        loop_behind (sequence_loop fuel cls the reader ns) reader)
  /\ (forall method index the_list reader ns,
        case_behind (list_loop fuel method index the_list reader ns) reader).
Proof.
  induction fuel as [|fuel (Hseq & Hcls & Hint & Hloop & Hlist)].
  - repeat split; intros; exact I.
  - repeat split; intros.
    + rewrite ClsFromSequence_S. now apply ClsFromSequence_body_behind.
    + rewrite ClsFromElement_S. now apply ClsFromElement_body_behind.
    + rewrite InterfaceFromElement_S.
      now apply InterfaceFromElement_body_behind.
    + rewrite sequence_loop_S. now apply sequence_loop_body_behind.
    + rewrite list_loop_S. now apply list_loop_body_behind.
Qed.

(** X10.  A method of [DeserializeImplementation] only reads forward: the
    reader it leaves, with a result or with an error, stands where the given
    reader stood or further on in the same document.  No method goes back,
    and none leaves the reader in another document. *)
Theorem the_reader_only_moves_forward :
  forall fuel reader ns,
    (forall cls isEmptySequence,
        match ClsFromSequence fuel cls reader isEmptySequence ns with
        | Returns (_, _, reader') =>
            exists passed : list XmlNode, reader = passed ++ reader'
        | _ => True
        end)
    /\ (forall cls,
          match ClsFromElement fuel cls reader ns with
          | Returns (_, _, reader') =>
              exists passed : list XmlNode, reader = passed ++ reader'
          | _ => True
          end)
    /\ (forall interface,
          match InterfaceFromElement fuel interface reader ns with
          | Returns (_, _, reader') =>
              exists passed : list XmlNode, reader = passed ++ reader'
          | _ => True
          end).
Proof.
  intros fuel reader ns.
  destruct (behind_at_all_fuel fuel) as (Hseq & Hcls & Hint & _).
  repeat split; intros.
  - apply Hseq.
  - apply Hcls.
  - apply Hint.
Qed.

End Forward.

(** ** Elements the de-serializer stands at *)

Section Elements.

Import Reporting intermediate Xmlization.

Variable double : Type.
Variable convert : XmlConvert double.
Variable naming : Naming.
Variable symbol_table : SymbolTable.

Local Abbreviation ClsFromSequence := (ClsFromSequence convert naming symbol_table).
Local Abbreviation sequence_loop := (sequence_loop convert naming symbol_table).
Local Abbreviation ClsFromElement := (ClsFromElement convert naming symbol_table).
Local Abbreviation InterfaceFromElement :=
  (InterfaceFromElement convert naming symbol_table).
Local Abbreviation list_loop := (list_loop convert naming symbol_table).

Lemma Skip_passed (passed : list XmlNode) (reader : XmlReader.t) :
  Forall (fun node =>
            node_NodeType node = XmlNodeType.None
            \/ node_NodeType node = XmlNodeType.Whitespace
            \/ node_NodeType node = XmlNodeType.Comment)
    passed ->
  SkipNoneWhitespaceAndComments (passed ++ reader)
  = SkipNoneWhitespaceAndComments reader.
Proof.
  induction 1 as [|node passed Hnode _ IH]; [reflexivity|].
  cbn. destruct Hnode as [-> | [-> | ->]]; exact IH.
Qed.

(** X11.  White space, comments and the position before the first node of
    the document, in any number and order in front of the element, make no
    difference to [...FromElement]: with them the method returns what it
    returns without them. *)
Theorem nodes_before_the_element_are_passed_over :
  forall fuel passed reader ns,
    Forall (fun node =>
              node_NodeType node = XmlNodeType.None
              \/ node_NodeType node = XmlNodeType.Whitespace
              \/ node_NodeType node = XmlNodeType.Comment)
      passed ->
    (forall cls,
        ClsFromElement fuel cls (passed ++ reader) ns
        = ClsFromElement fuel cls reader ns)
    /\ (forall interface,
          InterfaceFromElement fuel interface (passed ++ reader) ns
          = InterfaceFromElement fuel interface reader ns).
Proof.
  intros fuel passed reader ns Hpassed.
  destruct fuel as [|fuel]; [split; reflexivity|].
  split; intros x.
  - rewrite 2 ClsFromElement_S. unfold ClsFromElement_body.
    now rewrite (Skip_passed reader Hpassed).
  - rewrite 2 InterfaceFromElement_S. unfold InterfaceFromElement_body.
    now rewrite (Skip_passed reader Hpassed).
Qed.

Lemma first_missing_of_none (cls : ConcreteClass) :
  first_missing cls (all_null (double := double))
  = find (fun prop => negb (is_optional (prop_type_annotation prop)))
      (properties cls).
Proof.
  unfold first_missing, all_null.
  induction (properties cls) as [|prop props IH]; [reflexivity|].
  cbn [find]. rewrite andb_true_r, IH. reflexivity.
Qed.

(** X12.  At a self-closing element with the name of the class,
    [...FromElement] reads no property.  If the class has a property that
    is not optional, the method returns the error that the first such
    property, in the order of declaration, is missing, with an empty path;
    otherwise it returns the instance with all its properties [null] and
    leaves the reader behind the element, at the next node that is not
    skipped. *)
Theorem self_closing_element_of_a_class :
  forall fuel cls node rest ns,
    is_implementation_specific cls = false ->
    constructor_arguments cls <> [] ->
    names_coincide cls = true ->
    types_match cls = true ->
    node_NodeType node = XmlNodeType.Element ->
    node_IsEmptyElement node = true ->
    TryElementName (node :: rest) ns
    = Returns (xml_class_name naming (cls_name cls), None) ->
    ClsFromElement (S (S fuel)) cls (node :: rest) ns
    = match find (fun prop => negb (is_optional (prop_type_annotation prop)))
              (properties cls) with
      | Some prop =>
          return_null
            (mkError (RequiredPropertyMissing (prop_name prop) (cls_name cls))
               [])
            rest
      | None =>
          Returns (Some (VObject (cls_name cls)
                           (map (fun _ => None) (properties cls))),
                   None,
                   SkipNoneWhitespaceAndComments rest)
      end.
Proof.
  intros fuel cls node rest ns Hspec Hargs Hnames Htypes Hnode Hempty Htry.
  rewrite ClsFromElement_S. unfold ClsFromElement_body.
  rewrite Hspec, (Skip_at_element node rest Hnode).
  cbn [XmlReader.EOF XmlReader.NodeType XmlReader.IsEmptyElement
         XmlReader.Read tl].
  rewrite Hnode, Hempty, Htry. cbn [XmlNodeType.eqb negb bind].
  rewrite String.eqb_refl. cbn [negb].
  rewrite ClsFromSequence_S. unfold ClsFromSequence_body.
  rewrite Hspec.
  destruct (constructor_arguments cls) as [|a args]; [congruence|].
  cbn [length Nat.eqb]. unfold read_sequence. cbn [negb bind].
  rewrite first_missing_of_none, Hnames, Htypes.
  destruct (find _ (properties cls)); reflexivity.
Qed.

(** X13.  When the loop of [...FromSequence] stands at a self-closing
    element with the name of a property: for a property of an enumeration
    the method returns the error that the property needs content, with the
    name of the property as the path; for a property of an interface it
    returns the error that an element was expected within, and the path of
    this error is empty; for a list the temporary of the property becomes
    the empty list, the other temporaries stay as they are, and the loop
    goes on behind the element; if that element is the only one of the
    sequence and the class requires no other property, [...FromSequence]
    returns the instance with the empty list as the value of the
    property. *)
Theorem self_closing_element_of_a_property :
  forall fuel cls the node rest ns prop,
    node_NodeType node = XmlNodeType.Element ->
    node_IsEmptyElement node = true ->
    TryElementName (node :: rest) ns
    = Returns (xml_property naming (prop_name prop), None) ->
    case_of naming cls (xml_property naming (prop_name prop)) = Some prop ->
    (forall enumeration,
        dispatch symbol_table (beneath_optional (prop_type_annotation prop))
        = AsEnumeration enumeration ->
        sequence_loop (S fuel) cls the (node :: rest) ns
        = Returns (LoopReturnNull
                     (mkError (NeedsContent (prop_name prop) (cls_name cls))
                        [NameSegment (xml_property naming (prop_name prop))])
                     rest))
    /\ (forall interface,
          dispatch symbol_table
            (beneath_optional (prop_type_annotation prop))
          = AsInterface (Some interface) ->
          sequence_loop (S fuel) cls the (node :: rest) ns
          = Returns (LoopReturnNull
                       (mkError (SelfClosingInsteadOfElement
                                   (xml_property naming (prop_name prop))
                                   (prop_name prop) (cls_name cls))
                          [])
                       rest))
    /\ (forall items method,
          dispatch symbol_table
            (beneath_optional (prop_type_annotation prop))
          = AsList items ->
          deserialize_method symbol_table items = Some method ->
          (exists the',
              the' (prop_name prop) = Some (VList [])
              /\ (forall name, name <> prop_name prop -> the' name = the name)
              /\ sequence_loop (S fuel) cls the (node :: rest) ns
                 = (let reader := SkipNoneWhitespaceAndComments rest in
                    if XmlReader.EOF reader
                    then Returns (LoopDone the' reader)
                    else sequence_loop fuel cls the' reader ns))
          /\ (is_implementation_specific cls = false ->
              names_coincide cls = true ->
              types_match cls = true ->
              (forall q, In q (properties cls) ->
                         prop_name q <> prop_name prop ->
                         is_optional (prop_type_annotation q) = true) ->
              XmlReader.NodeType (SkipNoneWhitespaceAndComments rest)
              <> XmlNodeType.Element ->
              ClsFromSequence (S (S (S fuel))) cls (node :: rest) false ns
              = Returns (Some (VObject (cls_name cls)
                                 (map (fun q =>
                                         if String.eqb (prop_name q)
                                              (prop_name prop)
                                         then Some (VList [])
                                         else None)
                                    (properties cls))),
                         None,
                         SkipNoneWhitespaceAndComments rest))).
Proof.
  intros fuel cls the node rest ns prop Hnode Hempty Htry Hcase.
  split; [|split].
  - intros enumeration Hdisp.
    rewrite sequence_loop_S. unfold sequence_loop_body.
    cbn [XmlReader.NodeType XmlReader.IsEmptyElement XmlReader.Read tl].
    rewrite Hnode, Hempty. cbn [XmlNodeType.eqb]. rewrite Htry. cbn [bind].
    rewrite Hcase. unfold deserialize_property. rewrite Hdisp.
    reflexivity.
  - intros interface Hdisp.
    rewrite sequence_loop_S. unfold sequence_loop_body.
    cbn [XmlReader.NodeType XmlReader.IsEmptyElement XmlReader.Read tl].
    rewrite Hnode, Hempty. cbn [XmlNodeType.eqb]. rewrite Htry. cbn [bind].
    rewrite Hcase. unfold deserialize_property. rewrite Hdisp.
    reflexivity.
  - intros items method Hdisp Hmethod.
    assert (Hvalue : forall fuel',
               deserialize_property convert naming symbol_table
                 (ClsFromSequence fuel') (InterfaceFromElement fuel')
                 (list_loop fuel') prop cls
                 (xml_property naming (prop_name prop)) true rest ns
               = Returns (Break (Some (VList [])) rest)).
    { intros fuel'. unfold deserialize_property. rewrite Hdisp.
      unfold deserialize_list_property. rewrite Hmethod. reflexivity. }
    split.
    + exists (fun name => if String.eqb name (prop_name prop)
                          then Some (VList []) else the name).
      split; [now rewrite String.eqb_refl|].
      split.
      * intros name Hname. apply String.eqb_neq in Hname.
        now rewrite Hname.
      * apply (@loop_at_self_closing double convert naming symbol_table fuel
                 cls the node rest ns prop (VList []) Hnode Hempty Htry
                 Hcase (Hvalue fuel)).
    + intros Hspec Hnames Htypes Hothers Hstop.
      now apply sequence_of_one_self_closing.
Qed.

(** X14.  When the loop of [...FromSequence] stands at the element of a
    property of an enumeration that is not self-closing: text that is the
    text of no literal of the enumeration is reported as an unexpected
    literal, with the text in the cause and the name of the property as
    the path, and the reader left behind the text; at the end of the
    document right behind the start of the element the error has an empty
    path. *)
Theorem text_that_is_no_literal :
  forall fuel cls the node rest ns prop enumeration,
    node_NodeType node = XmlNodeType.Element ->
    node_IsEmptyElement node = false ->
    TryElementName (node :: rest) ns
    = Returns (xml_property naming (prop_name prop), None) ->
    case_of naming cls (xml_property naming (prop_name prop)) = Some prop ->
    dispatch symbol_table (beneath_optional (prop_type_annotation prop))
    = AsEnumeration enumeration ->
    (forall text rest',
        rest <> [] ->
        XmlReader.ReadContentAsString rest = Returns (text, rest') ->
        FromString enumeration text = None ->
        sequence_loop (S fuel) cls the (node :: rest) ns
        = Returns (LoopReturnNull
                     (mkError (UnexpectedEnumerationLiteral (prop_name prop)
                                 (cls_name cls) text)
                        [NameSegment (xml_property naming (prop_name prop))])
                     rest'))
    /\ (rest = [] ->
        sequence_loop (S fuel) cls the (node :: rest) ns
        = Returns (LoopReturnNull
                     (mkError (ContentAtEndOfFile (prop_name prop)
                                 (cls_name cls))
                        [])
                     [])).
Proof.
  intros fuel cls the node rest ns prop enumeration Hnode Hempty Htry Hcase
    Hdisp.
  split; [intros text rest' Hrest Hread Hliteral|intros ->];
    rewrite sequence_loop_S; unfold sequence_loop_body;
    cbn [XmlReader.NodeType XmlReader.IsEmptyElement XmlReader.Read tl];
    rewrite Hnode, Hempty; cbn [XmlNodeType.eqb]; rewrite Htry; cbn [bind];
    rewrite Hcase; unfold deserialize_property; rewrite Hdisp;
    unfold deserialize_enumeration_property.
  - destruct rest as [|n rest0]; [congruence|]. cbn [XmlReader.EOF].
    rewrite Hread, Hliteral. reflexivity.
  - reflexivity.
Qed.

Lemma find_nothing {A : Type} (f : A -> bool) (l : list A) :
  (forall x, In x l -> f x = false) -> find f l = None.
Proof.
  induction l as [|a l IH]; [reflexivity|]. intros H. cbn.
  rewrite (H a (or_introl eq_refl)). apply IH. intros x Hx. apply H.
  now right.
Qed.

(** X15.  At an element, [...FromElement] of an interface goes by the name
    of the element: with the name of one of the implementers of the
    interface it returns what [...FromElement] of that class returns at the
    same element; with a name that is the name of none of them it returns
    no instance and the error of an unexpected element, which carries the
    name and has an empty path, and leaves the reader at the element. *)
Theorem element_of_an_interface :
  forall fuel interface node rest ns elementName,
    wf_interface naming symbol_table (Some interface) = true ->
    node_NodeType node = XmlNodeType.Element ->
    TryElementName (node :: rest) ns = Returns (elementName, None) ->
    (forall name,
        In name (implementers interface) ->
        elementName = xml_class_name naming name ->
        exists cls,
          find_concrete_class symbol_table name = Some cls
          /\ InterfaceFromElement (S fuel) interface (node :: rest) ns
             = ClsFromElement fuel cls (node :: rest) ns)
    /\ ((forall name,
            In name (implementers interface) ->
            elementName <> xml_class_name naming name) ->
        InterfaceFromElement (S fuel) interface (node :: rest) ns
        = Returns (None,
                   Some (mkError (UnexpectedElement elementName) []),
                   node :: rest)).
Proof.
  intros fuel interface node rest ns elementName Hwf Hnode Htry.
  split; [intros name Hin ->|intros Hnone];
    rewrite InterfaceFromElement_S; unfold InterfaceFromElement_body;
    rewrite (Skip_at_element node rest Hnode);
    cbn [XmlReader.EOF XmlReader.NodeType]; rewrite Hnode;
    cbn [XmlNodeType.eqb negb]; rewrite Htry; cbn [bind].
  - assert (Hexists : existsb (String.eqb name) (implementers interface)
                      = true).
    { apply existsb_exists. exists name. split; [exact Hin|].
      apply String.eqb_refl. }
    rewrite (implementer_selected _ _ _ _ Hwf Hexists).
    cbn [wf_interface] in Hwf. apply andb_true_iff in Hwf.
    destruct Hwf as [_ Hfound]. rewrite forallb_forall in Hfound.
    specialize (Hfound name Hin).
    destruct (find_concrete_class symbol_table name) as [cls|];
      [|discriminate].
    exists cls. split; reflexivity.
  - replace (find _ (implementers interface)) with (@None Identifier);
      [reflexivity|].
    symmetry. apply find_nothing. intros name Hin.
    apply String.eqb_neq. intros Heq. now apply (Hnone name Hin).
Qed.


End Elements.

Section ElementsOnTheExample.

Import Reporting intermediate Xmlization Example.
Local Open Scope string_scope.

Lemma nodes_before_the_element_are_passed_over_witness :
  let passed :=
    [mkNode XmlNodeType.None "" "" "" false "";
     mkNode XmlNodeType.Comment "" "" "" false "a drawing";
     text " "] in
  (forall cls,
      ClsFromElement Example.convert Example.naming Example.symbol_table 5
        cls (passed ++ named_self_closing)%list None
      = ClsFromElement Example.convert Example.naming Example.symbol_table 5
          cls named_self_closing None)
  /\ (forall interface,
        InterfaceFromElement Example.convert Example.naming
          Example.symbol_table 5 interface (passed ++ named_self_closing)%list
          None
        = InterfaceFromElement Example.convert Example.naming
            Example.symbol_table 5 interface named_self_closing None).
Proof.
  intros passed.
  apply (@nodes_before_the_element_are_passed_over Z Example.convert
           Example.naming Example.symbol_table 5 passed named_self_closing
           None).
  repeat (apply Forall_cons; [cbn; auto|]). apply Forall_nil.
Defined.

Lemma self_closing_element_of_a_class_witness :
  ClsFromElement Example.convert Example.naming Example.symbol_table 2 Pair
    [self_closing "Pair"] None
  = return_null (mkError (RequiredPropertyMissing "a" "Pair") []) []
  /\ ClsFromElement Example.convert Example.naming Optionals.symbol_table 2
       Optionals.Note [self_closing "Note"] None
     = Returns (Some Optionals.blank, None, []).
Proof.
  split.
  - apply (@self_closing_element_of_a_class Z Example.convert Example.naming
             Example.symbol_table 0 Pair (self_closing "Pair") [] None);
      try reflexivity.
    discriminate.
  - apply (@self_closing_element_of_a_class Z Example.convert Example.naming
             Optionals.symbol_table 0 Optionals.Note (self_closing "Note")
             [] None);
      try reflexivity.
    discriminate.
Defined.

Lemma self_closing_element_of_a_property_witness :
  sequence_loop Example.convert Example.naming Example.symbol_table 1 Drawing
    all_null [self_closing "kind"; close "Drawing"] None
  = Returns (LoopReturnNull
               (mkError (NeedsContent "kind" "Drawing") [NameSegment "kind"])
               [close "Drawing"])
  /\ sequence_loop Example.convert Example.naming Example.symbol_table 1
       Drawing all_null [self_closing "outline"; close "Drawing"] None
     = Returns (LoopReturnNull
                  (mkError (SelfClosingInsteadOfElement "outline" "outline"
                              "Drawing")
                     [])
                  [close "Drawing"])
  /\ sequence_loop Example.convert Example.naming Example.symbol_table 2
       Container all_null [self_closing "items"; close "Container"] None
     = Returns (LoopDone
                  (fun name => if String.eqb name "items"
                               then Some (VList []) else None)
                  [close "Container"])
  /\ ClsFromSequence Example.convert Example.naming Example.symbol_table 3
       Container [self_closing "items"; close "Container"] false None
     = Returns (Some (VObject "Container" [Some (VList [])]), None,
                [close "Container"]).
Proof.
  split; [|split].
  - apply (@self_closing_element_of_a_property Z Example.convert
             Example.naming Example.symbol_table 0 Drawing all_null
             (self_closing "kind") [close "Drawing"] None
             (mkProperty "kind" (OurTypeAnnotation "Kind")))
      with (enumeration := Kind);
      reflexivity.
  - apply (@self_closing_element_of_a_property Z Example.convert
             Example.naming Example.symbol_table 0 Drawing all_null
             (self_closing "outline") [close "Drawing"] None
             (mkProperty "outline" (OurTypeAnnotation "Shape")))
      with (interface := mkInterface "Shape" ["Circle"; "Square"]);
      reflexivity.
  - destruct (@self_closing_element_of_a_property Z Example.convert
                Example.naming Example.symbol_table 1 Container all_null
                (self_closing "items") [close "Container"] None
                (mkProperty "items"
                   (ListTypeAnnotation (OurTypeAnnotation "Item")))
                eq_refl eq_refl eq_refl eq_refl)
      as (_ & _ & Hlist).
    destruct (Hlist (OurTypeAnnotation "Item") (ItemClass Item) eq_refl
                eq_refl)
      as [_ Hmethod].
    split; [reflexivity|].
    apply Hmethod; try reflexivity.
    + intros q [<- | []] Hq. now elim Hq.
    + discriminate.
Defined.

Lemma text_that_is_no_literal_witness :
  sequence_loop Example.convert Example.naming Example.symbol_table 1 Drawing
    all_null [start "kind"; text "third"; close "kind"; close "Drawing"]
    None
  = Returns (LoopReturnNull
               (mkError (UnexpectedEnumerationLiteral "kind" "Drawing"
                           "third")
                  [NameSegment "kind"])
               [close "kind"; close "Drawing"]).
Proof.
  apply (@text_that_is_no_literal Z Example.convert Example.naming
           Example.symbol_table 0 Drawing all_null (start "kind")
           [text "third"; close "kind"; close "Drawing"] None
           (mkProperty "kind" (OurTypeAnnotation "Kind")) Kind);
    try reflexivity.
  discriminate.
Defined.

(** [<Square><side>4</side></Square>] and [<Triangle/>] where a [Shape]
    is read. *)
Lemma element_of_an_interface_witness :
  (exists cls,
      find_concrete_class Example.symbol_table "Square" = Some cls
      /\ InterfaceFromElement Example.convert Example.naming
           Example.symbol_table 4 (mkInterface "Shape" ["Circle"; "Square"])
           [start "Square"; start "side"; text "4"; close "side";
            close "Square"]
           None
         = ClsFromElement Example.convert Example.naming Example.symbol_table
             3 cls
             [start "Square"; start "side"; text "4"; close "side";
              close "Square"]
             None)
  /\ InterfaceFromElement Example.convert Example.naming
       Example.symbol_table 1 (mkInterface "Shape" ["Circle"; "Square"])
       [self_closing "Triangle"] None
     = Returns (None, Some (mkError (UnexpectedElement "Triangle") []),
                [self_closing "Triangle"]).
Proof.
  split.
  - apply (@element_of_an_interface Z Example.convert Example.naming
             Example.symbol_table 3 (mkInterface "Shape" ["Circle"; "Square"])
             (start "Square")
             [start "side"; text "4"; close "side"; close "Square"] None
             "Square");
      try reflexivity.
    right. left. reflexivity.
  - apply (@element_of_an_interface Z Example.convert Example.naming
             Example.symbol_table 0 (mkInterface "Shape" ["Circle"; "Square"])
             (self_closing "Triangle") [] None "Triangle");
      try reflexivity.
    intros name [<- | [<- | []]]; discriminate.
Defined.


End ElementsOnTheExample.

(** ** Serialization *)

Section Serialization.

Import Reporting intermediate Xmlization.

Variable double : Type.
Variable convert : XmlConvert double.
Variable naming : Naming.
Variable symbol_table : SymbolTable.
Variables prefix ns : option string.

Hypothesis well_formed : wf_symbol_table naming symbol_table = true.
Hypothesis namespace : namespace_ok prefix ns = true.

Local Abbreviation Visit := (Visit convert naming symbol_table).
Local Abbreviation ClsToSequence := (ClsToSequence convert naming symbol_table).
Local Abbreviation in_table := (in_table symbol_table).
Local Abbreviation writes := (writes prefix ns).
Local Abbreviation startOf := (fun name => XmlWriter.startNode prefix name ns).

(** The properties of [that] are written by [...ToSequence], and [that] is
    written by [Visit] as one element, from some depth of calls on. *)
Local Abbreviation sequence_written cls that :=
  (exists inside fuel0,
      forall fuel, fuel0 <= fuel ->
                   writes (ClsToSequence fuel cls (Some that)) inside).

Local Abbreviation element_written_for cls that :=
  (exists inside fuel0,
      forall fuel,
        fuel0 <= fuel ->
        writes (Visit fuel (Some that))
          (XmlWriter.element
             (startOf (xml_class_name naming (cls_name cls))) inside)).

Lemma writes_nothing (block : WrappedXmlWriter -> Completion WrappedXmlWriter) :
  (forall writer, block writer = Returns writer) -> writes block [].
Proof.
  intros H writer. rewrite H. unfold after_emit. rewrite emit_nil.
  reflexivity.
Qed.

Lemma writes_then (first second : WrappedXmlWriter -> Completion WrappedXmlWriter)
  (a b : list XmlNode) :
  writes first a -> writes second b ->
  writes (fun writer => w <- first writer ;; second w) (a ++ b).
Proof.
  intros Ha Hb writer. rewrite Ha. unfold after_emit. cbn [bind].
  rewrite Hb. unfold after_emit. rewrite emit_app. reflexivity.
Qed.

Lemma literal_has_text (enumeration : Enumeration) (literal : Identifier) :
  existsb (fun l => String.eqb (fst l) literal) (literals enumeration) = true ->
  exists text, ToString enumeration literal = Some text.
Proof.
  unfold ToString, Identifier.
  induction (literals enumeration) as [|l ls IH]; [discriminate|].
  cbn [existsb find].
  match goal with |- context [if ?b then _ else _] => destruct b end.
  - intros _. exists (snd l). reflexivity.
  - exact IH.
Qed.

Section Deeper.

Variable depth : nat.

Hypothesis deeper :
  forall cls that,
    in_table cls ->
    valid_object symbol_table depth cls that = true ->
    sequence_written cls that /\ element_written_for cls that.

Lemma implementer_written (interface : Interface) (item : Value double) :
  valid_implementer symbol_table (valid_object symbol_table depth) interface
    item = true ->
  exists nodes fuel0,
    forall fuel, fuel0 <= fuel -> writes (Visit fuel (Some item)) nodes.
Proof.
  destruct item as [| | | | | | |name fields]; try discriminate.
  cbn [valid_implementer]. intros H. apply andb_true_iff in H.
  destruct H as [_ H].
  destruct (find_concrete_class symbol_table name) as [cls|] eqn:Hfound;
    [|discriminate].
  destruct (in_table_of_name _ _ Hfound) as [Hin _].
  destruct (@deeper _ _ Hin H) as [_ (inside & fuel0 & Hwrite)].
  eauto.
Qed.

Lemma items_written (method : ItemMethod) (items : list (Value double)) :
  match method with
  | ItemInterface i => wf_interface naming symbol_table (Some i) = true
  | ItemClass c => in_table c
  end ->
  match method with
  | ItemClass cls => forallb (valid_object symbol_table depth cls) items
  | ItemInterface interface =>
      forallb (valid_implementer symbol_table
                 (valid_object symbol_table depth) interface)
        items
  end = true ->
  exists nodes fuel0,
    forall fuel,
      fuel0 <= fuel -> writes (foreach_Visit (Visit fuel) items) nodes.
Proof.
  intros Hmethod. induction items as [|item items IH]; intros Hvalid.
  - exists [], 0. intros fuel _. now apply writes_nothing.
  - assert (Hitem : exists nodes fuel0,
               forall fuel, fuel0 <= fuel ->
                            writes (Visit fuel (Some item)) nodes).
    { destruct method as [interface|cls]; cbn [forallb] in Hvalid;
        apply andb_true_iff in Hvalid; destruct Hvalid as [Hitem _].
      - now apply (implementer_written interface).
      - destruct (@deeper _ _ Hmethod Hitem) as [_ (inside & fuel0 & Hwrite)].
        eauto. }
    assert (Hrest : exists nodes fuel0,
               forall fuel, fuel0 <= fuel ->
                            writes (foreach_Visit (Visit fuel) items) nodes).
    { apply IH. destruct method; cbn [forallb] in Hvalid;
        apply andb_true_iff in Hvalid; tauto. }
    destruct Hitem as (first & fuel1 & Hfirst).
    destruct Hrest as (others & fuel2 & Hothers).
    exists (first ++ others), (Nat.max fuel1 fuel2). intros fuel Hfuel.
    cbn [foreach_Visit]. apply writes_then; [apply Hfirst|apply Hothers];
      lia.
Qed.

Lemma value_written (prop : Property) (value : Value double) :
  wf_property symbol_table prop = true ->
  valid_property symbol_table (valid_object symbol_table depth) prop
    (Some value) = true ->
  exists nodes fuel0,
    forall fuel,
      fuel0 <= fuel ->
      writes
        (serialize_property_as_content convert naming symbol_table
           (Visit fuel) (ClsToSequence fuel) prop (Some value))
        nodes.
Proof.
  intros Hwf Hvalid. unfold wf_property in Hwf.
  cbn [valid_property] in Hvalid.
  unfold serialize_property_as_content.
  destruct (dispatch symbol_table
              (beneath_optional (prop_type_annotation prop)))
    as [a_type|enumeration|[interface|]|target|items|] eqn:Hdispatch;
    try discriminate.
  - exists (XmlWriter.element
              (startOf (xml_property naming (prop_name prop)))
              (text_nodes
                 match value with
                 | VBool b => ToString_bool convert b
                 | VLong z => ToString_long convert z
                 | VDouble d => ToString_double convert d
                 | VString s => s
                 | VBytes bytes => ToBase64String convert bytes
                 | _ => EmptyString
                 end)), 0.
    intros fuel _. unfold serialize_primitive_property_as_content.
    apply (property_written naming namespace).
    destruct a_type, value; try discriminate; cbn [write_primitive];
      apply write_text.
  - destruct value as [| | | | |name literal| |]; try discriminate.
    apply andb_true_iff in Hvalid. destruct Hvalid as [Hname Hliteral].
    destruct (literal_has_text _ _ Hliteral) as [text Htext].
    exists (XmlWriter.element
              (startOf (xml_property naming (prop_name prop)))
              (text_nodes text)), 0.
    intros fuel _. unfold serialize_enumeration_property_as_content.
    apply (property_written naming namespace).
    rewrite Hname, Htext. apply write_text.
  - destruct (implementer_written interface value Hvalid)
      as (nodes & fuel0 & Hwrite).
    exists (XmlWriter.element
              (startOf (xml_property naming (prop_name prop))) nodes), fuel0.
    intros fuel Hfuel. unfold serialize_interface_property_as_content.
    apply (property_written naming namespace). now apply Hwrite.
  - destruct (@deeper _ _ (in_table_of_dispatched_class _ _ Hdispatch) Hvalid)
      as [(inside & fuel0 & Hwrite) _].
    exists (XmlWriter.element
              (startOf (xml_property naming (prop_name prop))) inside), fuel0.
    intros fuel Hfuel.
    unfold serialize_concrete_class_property_as_sequence.
    apply (property_written naming namespace). now apply Hwrite.
  - destruct value as [| | | | | |the_list|]; try discriminate.
    destruct (deserialize_method symbol_table items) as [method|] eqn:Hmethod;
      [|discriminate].
    destruct (@wf_of_item_method naming symbol_table well_formed items method
                Hmethod) as [Hclasses Hitems].
    destruct (@items_written method the_list Hitems) as (nodes & fuel0 & Hwrite).
    { destruct method; exact Hvalid. }
    exists (XmlWriter.element
              (startOf (xml_property naming (prop_name prop))) nodes), fuel0.
    intros fuel Hfuel. unfold serialize_list_property_as_content.
    rewrite Hclasses. apply (property_written naming namespace).
    now apply Hwrite.
Qed.

Lemma properties_written (props : list Property) :
  forallb (wf_property symbol_table) props = true ->
  forall fields,
    forall2b (valid_property symbol_table (valid_object symbol_table depth))
      props fields = true ->
    exists nodes fuel0,
      forall fuel,
        fuel0 <= fuel ->
        writes
          (serialize_properties convert naming symbol_table (Visit fuel)
             (ClsToSequence fuel) props fields)
          nodes.
Proof.
  induction props as [|prop props IH]; intros Hwf fields Hvalid.
  - exists [], 0. intros fuel _. now apply writes_nothing.
  - destruct fields as [|field fields]; [discriminate|].
    cbn [forallb] in Hwf. apply andb_true_iff in Hwf.
    destruct Hwf as [Hprop Hprops].
    cbn [forall2b] in Hvalid. apply andb_true_iff in Hvalid.
    destruct Hvalid as [Hfield Hfields].
    destruct (IH Hprops fields Hfields) as (others & fuel2 & Hothers).
    assert (Hfirst : exists nodes fuel0,
               forall fuel,
                 fuel0 <= fuel ->
                 writes
                   (serialize_property_as_content convert naming
                      symbol_table (Visit fuel) (ClsToSequence fuel) prop
                      field)
                   nodes).
    { destruct field as [value|]; [now apply value_written|].
      exists [], 0. intros fuel _. apply writes_nothing. intros writer.
      apply (@serialize_null double convert naming symbol_table well_formed);
        [exact Hprop|exact Hfield]. }
    destruct Hfirst as (first & fuel1 & Hfirst).
    exists (first ++ others), (Nat.max fuel1 fuel2). intros fuel Hfuel.
    cbn [serialize_properties].
    apply writes_then; [apply Hfirst|apply Hothers]; lia.
Qed.

Lemma instance_written (cls : ConcreteClass) (that : Value double) :
  in_table cls ->
  valid_object symbol_table (S depth) cls that = true ->
  sequence_written cls that /\ element_written_for cls that.
Proof.
  intros Hin Hvalid.
  destruct (@wf_of_in_table naming symbol_table well_formed cls Hin)
    as (Hspec & _ & _ & _ & _ & Hprops).
  cbn [valid_object] in Hvalid.
  destruct that as [| | | | | | |name fields]; try discriminate.
  apply andb_true_iff in Hvalid. destruct Hvalid as [Hname Hfields].
  destruct (@properties_written (properties cls) Hprops fields Hfields)
    as (inside & fuel0 & Hwrite).
  assert (Hsequence :
           forall fuel, S fuel0 <= fuel ->
                        writes (ClsToSequence fuel cls
                                  (Some (VObject name fields)))
                          inside).
  { intros [|fuel] Hfuel; [lia|]. intros writer.
    rewrite ClsToSequence_S. unfold ClsToSequence_body.
    rewrite Hspec, Hname. apply Hwrite. lia. }
  split; [now exists inside, (S fuel0)|].
  exists inside, (S (S fuel0)). intros [|fuel] Hfuel; [lia|]. intros writer.
  rewrite Visit_S. unfold Visit_body.
  apply String.eqb_eq in Hname. subst name.
  unfold Xmlization.in_table in Hin. rewrite Hin, Hspec.
  apply (element_written namespace). intros w. apply Hsequence. lia.
Qed.

End Deeper.

Lemma written_at_depth (depth : nat) :
  forall cls that,
    in_table cls ->
    valid_object symbol_table depth cls that = true ->
    sequence_written cls that /\ element_written_for cls that.
Proof.
  induction depth as [|depth IH]; intros cls that Hin Hvalid;
    [discriminate|].
  now apply (@instance_written depth IH).
Qed.

(** X17.  Over a well-formed symbol table, [Serialize.To] does not throw for
    a valid instance of a class of the table: it returns, and what it has
    written is one element with the name of the class, added at the current
    position of the writer; what was written before is still there, and the
    elements that were open are still open. *)
Theorem a_valid_instance_is_written_as_one_element :
  forall depth cls that,
    in_table cls ->
    valid_object symbol_table depth cls that = true ->
    exists inside fuel0,
      forall fuel writer,
        fuel0 <= fuel ->
        To convert naming symbol_table fuel that writer prefix ns
        = Returns
            (XmlWriter.emit
               (XmlWriter.element
                  (startOf (xml_class_name naming (cls_name cls))) inside)
               writer).
Proof.
  intros depth cls that Hin Hvalid.
  destruct (@written_at_depth depth cls that Hin Hvalid)
    as [_ (inside & fuel0 & Hwrite)].
  exists inside, fuel0. intros fuel writer Hfuel. unfold To.
  rewrite (Hwrite fuel Hfuel). reflexivity.
Qed.



End Serialization.

Section SerializationOnTheExample.

Import Reporting intermediate Xmlization Example.
Local Open Scope string_scope.

Lemma a_valid_instance_is_written_as_one_element_witness :
  exists inside fuel0,
    forall fuel writer,
      fuel0 <= fuel ->
      Xmlization.To Example.convert Example.naming Example.symbol_table fuel a_drawing
        writer None None
      = Returns
          (XmlWriter.emit (XmlWriter.element (start "Drawing") inside)
             writer).
Proof.
  apply (@a_valid_instance_is_written_as_one_element Z Example.convert
           Example.naming Example.symbol_table None None eq_refl eq_refl 2
           Drawing a_drawing);
    reflexivity.
Defined.


End SerializationOnTheExample.

(** ** The generator of the Java structures *)

Section GeneratorOfStructures.

Import intermediate Python JavaStructure.

Variable interface_name : Identifier -> string.
Variable getter_name : Identifier -> string.
Variable setter_name : Identifier -> string.
Variable naming_method_name : Identifier -> string.
Variable argument_name : Identifier -> string.
Variable property_name : Identifier -> string.
Variable generate_type : TypeAnnotation -> string.
Variable WARNING : string.
Variables I II : string.
Variable indent : string -> string -> string.
Variable repr : string -> string.
Variable Stripped : string -> Result string.

Local Abbreviation _generate_interface :=
  (_generate_interface interface_name getter_name setter_name
     naming_method_name argument_name property_name generate_type I II
     indent Stripped).
Local Abbreviation blocks_of :=
  (blocks_of getter_name setter_name naming_method_name argument_name
     property_name generate_type I indent Stripped).
Local Abbreviation signature :=
  (signature naming_method_name argument_name generate_type I indent
     Stripped).
Local Abbreviation collect :=
  (collect interface_name getter_name setter_name naming_method_name
     argument_name property_name generate_type I II indent repr Stripped).
Local Abbreviation generate :=
  (generate interface_name getter_name setter_name naming_method_name
     argument_name property_name generate_type WARNING I II indent repr
     Stripped).

(** The interface generator hands back code and no error, if it hands back
    anything. *)
Lemma _generate_interface_answer (cls : Class) :
  match _generate_interface cls with
  | Ok (Some _, None) | Raises _ => True
  | Ok _ => False
  end.
Proof.
  unfold JavaStructure._generate_interface.
  destruct (write_extends _ _ _ _) as [extends|]; cbn [and_then];
    [|trivial].
  destruct (blocks_of cls) as [blocks|]; cbn [and_then]; [|trivial].
  destruct (if length blocks =? 0 then _ else _) as [blocks'|];
    cbn [and_then]; [|trivial].
  destruct (Stripped _) as [code|]; cbn; trivial.
Qed.

Lemma collect_answer (our_types : list OurType) :
  forall code_blocks,
    match collect our_types code_blocks [] with
    | Ok (_, []) | Raises _ => True
    | Ok _ => False
    end.
Proof.
  induction our_types as [|our_type rest IH]; intros code_blocks;
    [cbn; trivial|].
  destruct our_type as [e|c|cls|cls]; cbn [JavaStructure.collect];
    try apply IH.
  assert (H := _generate_interface_answer cls).
  destruct (_generate_interface cls) as [[[code|] [e|]]|];
    cbn [and_then]; try contradiction; try trivial.
  apply IH.
Qed.

(** X19.  [verify] accepts every symbol table.  [generate] never hands back
    a list of errors: whatever the symbol table and whatever the functions
    it calls give, it returns the text of the file and no error, and the
    text ends with a new line, or it is left by an exception. *)
Theorem generate_hands_back_code_or_raises :
  forall symbol_table package,
    verify symbol_table = Ok (Some symbol_table, None)
    /\ match generate symbol_table package with
       | Ok (Some text, None) => ends_with NEWLINE text = true
       | Ok _ => False
       | Raises _ => True
       end.
Proof.
  intros symbol_table package. split; [reflexivity|].
  unfold JavaStructure.generate.
  destruct (Stripped (IClass _ _)) as [first|]; cbn [and_then]; [|trivial].
  assert (H := collect_answer symbol_table [first]).
  destruct (collect symbol_table [first] [])
    as [[code_blocks [|e errors]]|]; cbn [and_then]; try contradiction;
    [|trivial].
  cbn [length Nat.ltb Nat.leb].
  destruct (Stripped _) as [packaged|]; cbn [and_then]; [|trivial].
  cbn [fst snd xorb negb is_None].
  destruct (ends_with NEWLINE _) eqn:Hends; [exact Hends|trivial].
Qed.

Lemma collect_of_abstract (our_types : list OurType) :
  forall code_blocks errors,
    collect our_types code_blocks errors
    = collect
        (filter (fun our_type =>
                   match our_type with
                   | AbstractClass _ => true
                   | _ => false
                   end)
           our_types)
        code_blocks errors.
Proof.
  induction our_types as [|our_type rest IH]; intros code_blocks errors;
    [reflexivity|].
  destruct our_type as [e|c|cls|cls];
    cbn [filter JavaStructure.collect]; try apply IH.
  destruct (_generate_interface cls) as [[code [e|]]|]; cbn [and_then];
    try reflexivity; [apply IH|].
  destruct code; [apply IH|reflexivity].
Qed.

(** X20.  [generate] emits code for the abstract classes only: the
    enumerations, the constrained primitives and the concrete classes of
    the symbol table make no difference to what it returns. *)
Theorem only_abstract_classes_are_generated :
  forall symbol_table package,
    generate symbol_table package
    = generate
        (filter (fun our_type =>
                   match our_type with
                   | AbstractClass _ => true
                   | _ => false
                   end)
           symbol_table)
        package.
Proof.
  intros symbol_table package. unfold JavaStructure.generate.
  destruct (Stripped (IClass _ _)) as [first|]; cbn [and_then];
    [|reflexivity].
  now rewrite collect_of_abstract.
Qed.


Section Accepting.

(** A [Stripped] that refuses no text. *)
Hypothesis accepts : forall text, Stripped text = Ok text.

Lemma for_each_accepted {A : Type} (text : A -> string) (l : list A) :
  for_each (fun a => Stripped (text a)) l = Ok (map text l).
Proof.
  induction l as [|a l IH]; [reflexivity|]. cbn [for_each].
  rewrite accepts, IH. reflexivity.
Qed.

Lemma signature_of (method : Method) :
  (length (arguments method) = 2 -> signature method = Raises AssertionError)
  /\ (length (arguments method) <> 2 ->
      exists block, signature method = Ok block).
Proof.
  unfold JavaStructure.signature. rewrite for_each_accepted.
  cbn [and_then]. rewrite length_map.
  destruct (arguments method) as [|a [|b [|c args]]]; cbn [length].
  - split; [discriminate|]. intros _. cbn. rewrite !accepts. cbn. eauto.
  - split; [discriminate|]. intros _. cbn. rewrite !accepts. cbn. eauto.
  - split; [|congruence]. intros _. reflexivity.
  - split; [discriminate|]. intros _.
    cbn [Nat.ltb Nat.leb]. rewrite accepts. cbn [and_then].
    rewrite accepts. eauto.
Qed.

Lemma for_each_raises {A B : Type} (body : A -> Result B) (l : list A)
  (raised : Raised) :
  (forall a, In a l -> body a = Raises raised \/ exists b, body a = Ok b) ->
  (exists a, In a l /\ body a = Raises raised) ->
  for_each body l = Raises raised.
Proof.
  induction l as [|a l IH]; intros Hall [x [Hin Hx]]; [destruct Hin|].
  cbn [for_each].
  destruct (Hall a (or_introl eq_refl)) as [Ha | [b Ha]]; rewrite Ha;
    [reflexivity|].
  cbn [and_then]. rewrite IH; [reflexivity| |].
  - intros y Hy. apply Hall. now right.
  - destruct Hin as [Heq | Hin]; [subst; congruence|eauto].
Qed.

Lemma for_each_returns {A B : Type} (body : A -> Result B) (l : list A) :
  (forall a, In a l -> exists b, body a = Ok b) ->
  exists bs, for_each body l = Ok bs.
Proof.
  induction l as [|a l IH]; intros Hall; [now exists []|].
  cbn [for_each]. destruct (Hall a (or_introl eq_refl)) as [b ->].
  destruct IH as [bs ->]; [intros; apply Hall; now right|].
  cbn [and_then]. eauto.
Qed.

Lemma write_extends_returns (cls : Class) :
  exists extends, write_extends interface_name II indent cls = Ok extends.
Proof.
  unfold write_extends.
  destruct (inheritances cls) as [|i [|j l]]; cbn; eauto.
Qed.

Lemma accessors_return (props : list Property) :
  exists accessors,
    for_each (getter_and_setter getter_name setter_name generate_type
                Stripped)
      props
    = Ok accessors.
Proof.
  apply for_each_returns. intros prop _. unfold getter_and_setter.
  rewrite !accepts. cbn [and_then]. eauto.
Qed.

Lemma iterations_return (props : list Property) :
  exists iterations,
    for_each (over_or_empty property_name generate_type Stripped) props
    = Ok iterations.
Proof.
  apply for_each_returns. intros prop _. unfold over_or_empty.
  destruct (prop_type_annotation prop) as [| | |[| | |]]; eauto.
  rewrite accepts. cbn [and_then]. eauto.
Qed.



Lemma code_or_assertion :
  forall cls,
    ((exists method,
         In method (methods cls)
         /\ method_specified_for method = name cls
         /\ length (arguments method) = 2) ->
     _generate_interface cls = Raises AssertionError)
    /\ ((forall method,
            In method (methods cls) ->
            method_specified_for method = name cls ->
            length (arguments method) <> 2) ->
        exists code, _generate_interface cls = Ok (Some code, None)).
Proof.
  intros cls. unfold JavaStructure._generate_interface.
  destruct (write_extends_returns cls) as [extends ->]. cbn [and_then].
  unfold JavaStructure.blocks_of.
  set (own_properties := filter _ (properties cls)).
  set (own_methods := filter _ (methods cls)).
  destruct (accessors_return own_properties) as [accessors ->].
  cbn [and_then].
  assert (Hown : forall method,
             In method own_methods
             <-> In method (methods cls)
                 /\ method_specified_for method = name cls).
  { intros method. unfold own_methods. rewrite filter_In.
    unfold specified_for_cls. now rewrite String.eqb_eq. }
  split.
  - intros (method & Hin & Hfor & Htwo).
    rewrite (@for_each_raises _ _ signature own_methods AssertionError);
      [reflexivity| |].
    + intros m _. destruct (signature_of m) as [Htwo' Hother].
      destruct (Nat.eq_dec (length (arguments m)) 2); auto.
    + exists method. split; [now apply Hown|].
      now apply (signature_of method).
  - intros Hnone.
    destruct (@for_each_returns _ _ signature own_methods) as [signatures ->].
    { intros m Hm. apply Hown in Hm. destruct Hm as [Hin Hfor].
      now apply (signature_of m), Hnone. }
    cbn [and_then].
    destruct (iterations_return own_properties) as [iterations ->].
    cbn [and_then].
    destruct (length _ =? 0); rewrite ?accepts; cbn [and_then];
      rewrite ?accepts; cbn; eauto.
Qed.


(** X22.  With a [Stripped] that refuses no text: [_generate_interface]
    is left by the assertion, and returns nothing, whenever a method
    specified for the class has exactly two arguments; when no such method
    has exactly two arguments, it returns the code of the interface and no
    error. *)
Theorem a_method_of_two_arguments_stops_the_generator :
  forall cls,
    ((exists method,
         In method (methods cls)
         /\ method_specified_for method = name cls
         /\ length (arguments method) = 2) ->
     _generate_interface cls = Raises AssertionError)
    /\ ((forall method,
            In method (methods cls) ->
            method_specified_for method = name cls ->
            length (arguments method) <> 2) ->
        exists code, _generate_interface cls = Ok (Some code, None)).
Proof. exact code_or_assertion. Qed.

Lemma ends_with_new_line (text : string) :
  ends_with NEWLINE (text ++ nl) = true.
Proof.
  induction text as [|c text IH]; [reflexivity|].
  cbn [append ends_with]. rewrite IH.
  destruct (text ++ nl)%string eqn:H; [|reflexivity].
  destruct text; discriminate.
Qed.

Lemma collect_or_assertion (our_types : list OurType) :
  forall code_blocks,
    ((exists cls method,
         In (AbstractClass cls) our_types
         /\ In method (methods cls)
         /\ method_specified_for method = name cls
         /\ length (arguments method) = 2) ->
     collect our_types code_blocks [] = Raises AssertionError)
    /\ ((forall cls method,
            In (AbstractClass cls) our_types ->
            In method (methods cls) ->
            method_specified_for method = name cls ->
            length (arguments method) <> 2) ->
        exists blocks, collect our_types code_blocks [] = Ok (blocks, [])).
Proof.
  induction our_types as [|our_type rest IH]; intros code_blocks.
  - split; [intros (cls & method & [] & _)|]. intros _. cbn. eauto.
  - assert (Hskip :
             (forall cls, our_type <> AbstractClass cls) ->
             collect (our_type :: rest) code_blocks []
             = collect rest code_blocks []).
    { intros Hother. destruct our_type as [e|c|cls|cls]; try reflexivity.
      now destruct (Hother cls). }
    destruct our_type as [e|c|cls|cls];
      try (rewrite Hskip by discriminate;
           destruct (IH code_blocks) as [Hbad Hgood]; split;
           [intros (cls' & method & [Heq | Hin] & H);
            [discriminate|apply Hbad; eauto]
           |intros Hnone; apply Hgood; intros cls' method Hin;
            apply Hnone; now right]).
    cbn [JavaStructure.collect].
    destruct (code_or_assertion cls) as [Hstop Hcode].
    assert (Hcases :
             (exists method,
                 In method (methods cls)
                 /\ method_specified_for method = name cls
                 /\ length (arguments method) = 2)
             \/ (forall method,
                    In method (methods cls) ->
                    method_specified_for method = name cls ->
                    length (arguments method) <> 2)).
    { clear. induction (methods cls) as [|m ms IHm];
        [right; intros ? []|].
      destruct (String.eqb_spec (method_specified_for m) (name cls))
        as [Hfor | Hfor];
        [destruct (Nat.eq_dec (length (arguments m)) 2) as [Htwo | Htwo]|].
      - left. exists m. cbn. auto.
      - destruct IHm as [(x & Hin & H) | Hnone].
        + left. exists x. cbn. auto.
        + right. intros x [<- | Hin]; auto.
      - destruct IHm as [(x & Hin & H) | Hnone].
        + left. exists x. cbn. auto.
        + right. intros x [<- | Hin]; [congruence|auto]. }
    destruct Hcases as [Htwo | Hnone].
    + rewrite (Hstop Htwo). cbn [and_then]. split; [reflexivity|].
      intros Hall. destruct Htwo as (method & Hin & Hfor & Htwo).
      destruct (Hall cls method (or_introl eq_refl) Hin Hfor Htwo).
    + destruct (Hcode Hnone) as [code ->]. cbn [and_then].
      destruct (IH (code_blocks ++ [code])) as [Hbad Hgood]. split.
      * intros (cls' & method & [Heq | Hin] & Hm & Hfor & Htwo).
        -- inversion Heq. subst cls'.
           destruct (Hnone method Hm Hfor Htwo).
        -- apply Hbad. eauto 6.
      * intros Hall. apply Hgood. intros cls' method Hin.
        apply Hall. now right.
Qed.

(** X23.  With a [Stripped] that refuses no text: [generate] is left by
    the assertion whenever an abstract class of the symbol table has a
    method of its own with exactly two arguments, and otherwise it returns
    the text of the file and no error; neither of its postconditions ever
    fails. *)
Theorem generate_returns_unless_two_arguments :
  forall symbol_table package,
    ((exists cls method,
         In (AbstractClass cls) symbol_table
         /\ In method (methods cls)
         /\ method_specified_for method = name cls
         /\ length (arguments method) = 2) ->
     generate symbol_table package = Raises AssertionError)
    /\ ((forall cls method,
            In (AbstractClass cls) symbol_table ->
            In method (methods cls) ->
            method_specified_for method = name cls ->
            length (arguments method) <> 2) ->
        exists text, generate symbol_table package = Ok (Some text, None)).
Proof.
  intros symbol_table package. unfold JavaStructure.generate.
  rewrite accepts. cbn [and_then].
  destruct (collect_or_assertion symbol_table [IClass I II])
    as [Hbad Hgood].
  split.
  - intros H. rewrite (Hbad H). reflexivity.
  - intros H. destruct (Hgood H) as [blocks ->]. cbn [and_then].
    cbn [length Nat.ltb Nat.leb]. rewrite accepts. cbn [and_then].
    cbn [fst snd xorb negb is_None]. rewrite ends_with_new_line. eauto.
Qed.

End Accepting.

End GeneratorOfStructures.

Section GeneratorOfStructuresOnTheExample.

Import intermediate Python JavaStructure JavaExample.
Local Open Scope string_scope.


Lemma a_method_of_two_arguments_stops_the_generator_witness :
  JavaExample._generate_interface Ordered = Raises AssertionError
  /\ exists code, JavaExample._generate_interface Visited = Ok (Some code, None).
Proof.
  split.
  - apply (@a_method_of_two_arguments_stops_the_generator as_it_is as_it_is
             as_it_is as_it_is as_it_is as_it_is JavaExample.generate_type
             "    " "        " JavaExample.indent accepted
             (fun text => eq_refl) Ordered).
    exists (mkMethod "less_than" (Some (PrimitiveTypeAnnotation BOOL))
              [mkArgument "left" (PrimitiveTypeAnnotation INT);
               mkArgument "right" (PrimitiveTypeAnnotation INT)]
              "Ordered").
    repeat split. left. reflexivity.
  - apply (@a_method_of_two_arguments_stops_the_generator as_it_is as_it_is
             as_it_is as_it_is as_it_is as_it_is JavaExample.generate_type
             "    " "        " JavaExample.indent accepted
             (fun text => eq_refl) Visited).
    intros method [<- | []] _. discriminate.
Defined.

Lemma generate_returns_unless_two_arguments_witness :
  JavaExample.generate [ConcreteClass Ordered; AbstractClass Ordered]
    "aas_core.aas3_0" = Raises AssertionError
  /\ exists text,
       JavaExample.generate [ConcreteClass Ordered; AbstractClass Visited]
         "aas_core.aas3_0" = Ok (Some text, None).
Proof.
  split.
  - apply (@generate_returns_unless_two_arguments as_it_is as_it_is as_it_is
             as_it_is as_it_is as_it_is JavaExample.generate_type
             "// generated" "    " "        " JavaExample.indent as_it_is
             accepted (fun text => eq_refl)
             [ConcreteClass Ordered; AbstractClass Ordered]
             "aas_core.aas3_0").
    exists Ordered,
      (mkMethod "less_than" (Some (PrimitiveTypeAnnotation BOOL))
         [mkArgument "left" (PrimitiveTypeAnnotation INT);
          mkArgument "right" (PrimitiveTypeAnnotation INT)]
         "Ordered").
    repeat split; [right; left; reflexivity|left; reflexivity].
  - apply (@generate_returns_unless_two_arguments as_it_is as_it_is as_it_is
             as_it_is as_it_is as_it_is JavaExample.generate_type
             "// generated" "    " "        " JavaExample.indent as_it_is
             accepted (fun text => eq_refl)
             [ConcreteClass Ordered; AbstractClass Visited]
             "aas_core.aas3_0").
    intros cls method [Heq | [Heq | []]]; [discriminate|].
    inversion Heq. subst cls. intros [<- | []] _. discriminate.
Defined.

End GeneratorOfStructuresOnTheExample.

(** ** The generator of the C# file *)

Section GeneratorOfTheFile.

Import intermediate Python XmlizationGenerator.

Variable naming_class_name : Identifier -> string.
Variable naming_interface_name : Identifier -> string.
Variable naming_variable_name : Identifier -> string.
Variable naming_property_name : Identifier -> string.
Variable naming_enum_name : Identifier -> string.
Variable generate_type : TypeAnnotation -> string.
Variable string_literal : string -> string.
Variable WARNING : string.
Variables I II III IIII IIIII : string.
Variable xml_property : Identifier -> string.
Variable indent : string -> string -> string.
Variable indent_but_first_line : string -> string -> string.
Variable Stripped : string -> Result string.
Variable ImplementationKey : string -> Result string.
Variable repr : string -> string.
Variable str : TypeAnnotation -> string.
Variable spec_impls : string -> option string.
Variable _generate_skip_whitespace_and_comments : Result string.
Variable _generate_read_whole_content_as_base_64 : Result string.
Variable _generate_extract_element_name : Result string.
Variable _generate_deserialize_impl_interface_from_element :
  Interface -> Result string.
Variable _generate_deserialize_impl_concrete_cls_from_element :
  ConcreteClass -> Result string.
Variable _generate_class_to_sequence : ConcreteClass -> Result string.
Variable _generate_visit_for_class : ConcreteClass -> Result string.
Variable _generate_wrapped_writer : Result string.

Local Abbreviation _generate_deserialize_property :=
  (_generate_deserialize_property naming_class_name naming_interface_name
     naming_variable_name naming_property_name naming_enum_name generate_type
     string_literal I II III IIII IIIII xml_property indent_but_first_line
     Stripped).
Local Abbreviation init_target_var_stmt :=
  (init_target_var_stmt naming_variable_name generate_type Stripped).
Local Abbreviation case_of_property :=
  (case_of_property naming_class_name naming_interface_name
     naming_variable_name naming_property_name naming_enum_name generate_type
     string_literal I II III IIII IIIII xml_property indent_but_first_line
     Stripped).
Local Abbreviation check_of_property :=
  (check_of_property naming_variable_name naming_property_name I II
     Stripped).
Local Abbreviation argument_of_constructor :=
  (argument_of_constructor naming_variable_name I II III repr str).
Local Abbreviation types_do_not_match := (types_do_not_match repr str).
Local Abbreviation type_errors := (type_errors repr str).
Local Abbreviation _generate_deserialize_impl_cls_from_sequence :=
  (_generate_deserialize_impl_cls_from_sequence naming_class_name
     naming_interface_name naming_variable_name naming_property_name
     naming_enum_name generate_type string_literal I II III IIII IIIII
     xml_property indent indent_but_first_line Stripped repr str).
Local Abbreviation snippets := (snippets spec_impls).
Local Abbreviation missing_snippets := (missing_snippets spec_impls).
Local Abbreviation deserialize_impl_errors :=
  (deserialize_impl_errors repr str spec_impls).
Local Abbreviation visitor_errors := (visitor_errors spec_impls).
Local Abbreviation deserialize_impl_of :=
  (deserialize_impl_of naming_class_name naming_interface_name
     naming_variable_name naming_property_name naming_enum_name generate_type
     string_literal I II III IIII IIIII xml_property indent
     indent_but_first_line Stripped ImplementationKey repr str spec_impls
     _generate_deserialize_impl_interface_from_element
     _generate_deserialize_impl_concrete_cls_from_element).
Local Abbreviation visitor_of :=
  (visitor_of ImplementationKey spec_impls _generate_class_to_sequence
     _generate_visit_for_class).
Local Abbreviation _generate_deserialize_impl :=
  (_generate_deserialize_impl naming_class_name naming_interface_name
     naming_variable_name naming_property_name naming_enum_name generate_type
     string_literal I II III IIII IIIII xml_property indent
     indent_but_first_line Stripped ImplementationKey repr str spec_impls
     _generate_skip_whitespace_and_comments
     _generate_read_whole_content_as_base_64 _generate_extract_element_name
     _generate_deserialize_impl_interface_from_element
     _generate_deserialize_impl_concrete_cls_from_element).
Local Abbreviation _generate_visitor :=
  (_generate_visitor I indent Stripped ImplementationKey spec_impls
     _generate_class_to_sequence _generate_visit_for_class).
Local Abbreviation _generate_deserialize :=
  (_generate_deserialize naming_class_name naming_interface_name
     naming_variable_name I II III indent Stripped).
Local Abbreviation _generate_serialize :=
  (_generate_serialize naming_class_name naming_interface_name
     naming_variable_name I II indent Stripped).
Local Abbreviation generate :=
  (generate naming_class_name naming_interface_name naming_variable_name
     naming_property_name naming_enum_name generate_type string_literal
     WARNING I II III IIII IIIII xml_property indent indent_but_first_line
     Stripped ImplementationKey repr str spec_impls
     _generate_skip_whitespace_and_comments
     _generate_read_whole_content_as_base_64 _generate_extract_element_name
     _generate_deserialize_impl_interface_from_element
     _generate_deserialize_impl_concrete_cls_from_element
     _generate_class_to_sequence _generate_visit_for_class
     _generate_wrapped_writer).

(** A [Stripped] that refuses no text. *)
Hypothesis accepts : forall text, Stripped text = Ok text.

(** *** The method [...FromSequence] of a class *)

Ltac accepting := repeat (progress (rewrite ?accepts; cbn [and_then])).

Lemma type_annotations_equal_refl (type_annotation : TypeAnnotation) :
  type_annotations_equal type_annotation type_annotation = true.
Proof.
  induction type_annotation as [a_type|symbol|items IH|value IH];
    cbn; auto.
  - now destruct a_type.
  - apply String.eqb_refl.
Qed.

Lemma in_property_id_set_of (prop : Property) (cls : ConcreteClass) :
  In prop (properties cls) -> in_property_id_set prop cls = true.
Proof.
  intros Hin. unfold in_property_id_set. apply existsb_exists.
  exists prop. split; [exact Hin|].
  now rewrite String.eqb_refl, type_annotations_equal_refl.
Qed.

Lemma _generate_deserialize_property_returns (symbol_table : SymbolTable)
  (prop : Property) (cls : ConcreteClass) :
  In prop (properties cls) ->
  property_is_supported symbol_table prop = true ->
  exists code,
    _generate_deserialize_property symbol_table prop cls
    = Ok (Some code, None).
Proof.
  intros Hin Hsupported.
  unfold XmlizationGenerator._generate_deserialize_property.
  rewrite (in_property_id_set_of prop cls Hin). cbn [negb].
  unfold property_is_supported in Hsupported.
  unfold _generate_deserialize_primitive_property,
    _generate_deserialize_enumeration_property,
    _generate_deserialize_interface_property,
    _generate_deserialize_cls_property,
    _generate_deserialize_list_property, try_primitive_type.
  destruct (beneath_optional (prop_type_annotation prop))
    as [a_type|name|items|value]; [| | |discriminate].
  - destruct a_type; accepting; eauto.
  - destruct (find_symbol symbol_table name) as [[e|c|a|c]|];
      [| | | |discriminate].
    + accepting. eauto.
    + destruct (constrainee c); accepting; eauto.
    + cbn [symbol_interface].
      destruct (abstract_interface a); [|discriminate].
      accepting. eauto.
    + destruct (0 <? length (concrete_descendants c)).
      * cbn [symbol_interface].
        destruct (interface c); [|discriminate].
        accepting. eauto.
      * accepting. eauto.
  - destruct items as [|name| |]; try discriminate.
    destruct (find_symbol symbol_table name) as [[e|c|a|c]|];
      try discriminate; accepting; eauto.
Qed.

Lemma init_target_var_stmts_return (props : list Property) :
  exists stmts, for_each init_target_var_stmt props = Ok stmts.
Proof.
  apply for_each_returns. intros prop _.
  unfold XmlizationGenerator.init_target_var_stmt.
  destruct (negb _); accepting; eauto.
Qed.

Lemma case_blocks_return (symbol_table : SymbolTable) (cls : ConcreteClass)
  (props : list Property) :
  (forall prop, In prop props ->
                In prop (properties cls)
                /\ property_is_supported symbol_table prop = true) ->
  forall case_blocks,
    exists case_blocks',
      for_state (case_of_property symbol_table cls) props (case_blocks, [])
      = Ok (case_blocks', []).
Proof.
  induction props as [|prop props IH]; intros Hall case_blocks;
    [cbn; eauto|].
  cbn [for_state]. unfold XmlizationGenerator.case_of_property at 1.
  destruct (Hall prop (or_introl eq_refl)) as [Hin Hsupported].
  destruct (_generate_deserialize_property_returns symbol_table prop cls Hin
              Hsupported) as [code ->].
  accepting.
  apply IH. intros q Hq. apply Hall. now right.
Qed.

Lemma checks_return (name : string) (props : list Property) :
  forall blocks,
    exists blocks',
      for_state (check_of_property name) props blocks = Ok blocks'.
Proof.
  induction props as [|prop props IH]; intros blocks; [cbn; eauto|].
  cbn [for_state]. unfold XmlizationGenerator.check_of_property at 1.
  destruct (negb _); accepting; apply IH.
Qed.

Lemma property_of_argument (cls : ConcreteClass) (arg : Argument) :
  Xmlization.names_coincide cls = true ->
  In arg (constructor_arguments cls) ->
  exists prop, properties_by_name cls (arg_name arg) = Some prop.
Proof.
  intros Hnames Hin. unfold Xmlization.names_coincide in Hnames.
  apply andb_true_iff in Hnames. destruct Hnames as [_ Hargs].
  rewrite forallb_forall in Hargs. specialize (Hargs arg Hin).
  apply existsb_exists in Hargs. destruct Hargs as (prop & Hprop & Heq).
  unfold properties_by_name.
  destruct (find _ (properties cls)) as [found|] eqn:Hfind; [eauto|].
  apply (find_none _ _ Hfind) in Hprop.
  rewrite String.eqb_sym in Hprop. congruence.
Qed.

(** The errors of the loop over the arguments of the constructor. *)
Lemma arguments_written (cls : ConcreteClass) :
  forall args,
    (forall arg, In arg args ->
                 exists prop, properties_by_name cls (arg_name arg)
                              = Some prop) ->
    forall numbers init_writer errors,
      length numbers = length args ->
      exists init_writer',
        for_state (argument_of_constructor cls) (combine numbers args)
          (init_writer, errors)
        = Ok (init_writer',
              errors
              ++ flat_map
                   (fun arg =>
                      match properties_by_name cls (arg_name arg) with
                      | Some prop =>
                          if argument_matches cls arg then []
                          else [mkError (types_do_not_match prop arg cls) []]
                      | None => []
                      end)
                   args).
Proof.
  induction args as [|arg args IH]; intros Hall numbers init_writer errors
    Hlength.
  - destruct numbers; [|discriminate]. cbn. rewrite app_nil_r. eauto.
  - destruct numbers as [|i numbers]; [discriminate|].
    cbn [combine for_state flat_map].
    unfold XmlizationGenerator.argument_of_constructor at 1.
    unfold argument_matches at 1.
    destruct (Hall arg (or_introl eq_refl)) as [prop ->].
    destruct (type_annotations_equal _ _ || type_annotations_equal _ _);
      cbn [negb and_then].
    + edestruct (IH (fun a Ha => Hall a (or_intror Ha)) numbers)
        as [init_writer' Hrest]; [now injection Hlength|].
      rewrite Hrest. cbn [app]. eauto.
    + edestruct (IH (fun a Ha => Hall a (or_intror Ha)) numbers)
        as [init_writer' Hrest]; [now injection Hlength|].
      rewrite Hrest. rewrite <- app_assoc. cbn [app]. eauto.
Qed.

(** What [_generate_deserialize_impl_cls_from_sequence] comes to for a
    class whose properties have types the generator supports. *)
Lemma from_sequence_outcome (symbol_table : SymbolTable)
  (cls : ConcreteClass) :
  constructor_arguments cls = []
  \/ forallb (property_is_supported symbol_table) (properties cls) = true ->
  if (length (constructor_arguments cls) =? 0)
     || Xmlization.names_coincide cls
  then
    match type_errors cls with
    | [] =>
        exists code,
          _generate_deserialize_impl_cls_from_sequence symbol_table cls
          = Ok (Some code, None)
    | errors =>
        _generate_deserialize_impl_cls_from_sequence symbol_table cls
        = Ok (None, Some errors)
    end
  else
    _generate_deserialize_impl_cls_from_sequence symbol_table cls
    = Raises AssertionError.
Proof.
  intros Hsupported.
  unfold XmlizationGenerator._generate_deserialize_impl_cls_from_sequence,
    XmlizationGenerator.type_errors.
  accepting.
  destruct (constructor_arguments cls) as [|arg args] eqn:Hargs.
  - cbn [length Nat.eqb flat_map orb]. accepting. eauto.
  - destruct Hsupported as [Hnone | Hsupported]; [discriminate|].
    rewrite forallb_forall in Hsupported.
    cbn [length Nat.eqb Nat.ltb Nat.leb negb orb]. accepting.
    destruct (init_target_var_stmts_return (properties cls)) as [stmts ->].
    accepting.
    destruct (@case_blocks_return symbol_table cls (properties cls)
                (fun prop Hin => conj Hin (Hsupported prop Hin)) [])
      as [case_blocks ->].
    cbn [and_then length Nat.ltb Nat.leb]. accepting.
    match goal with
    | |- context [for_state (check_of_property ?name) ?props ?given] =>
        destruct (checks_return name props given) as [blocks ->]
    end.
    cbn [and_then].
    destruct (Xmlization.names_coincide cls) eqn:Hnames; cbn [negb];
      [|reflexivity].
    assert (Hall : forall a,
               In a (arg :: args) ->
               exists prop, properties_by_name cls (arg_name a) = Some prop).
    { intros a Ha. apply property_of_argument; [exact Hnames|].
      now rewrite Hargs. }
    match goal with
    | |- context [for_state (argument_of_constructor cls)
                    (combine ?numbers ?arguments) (?written, ?given)] =>
        destruct (@arguments_written cls arguments Hall numbers written given)
          as [init_writer Hwritten]
    end.
    { cbn [length]. now rewrite length_seq. }
    rewrite Hwritten. cbn [and_then app].
    destruct (flat_map _ (arg :: args)) as [|e errors];
      cbn [length Nat.ltb Nat.leb].
    + accepting. eauto.
    + reflexivity.
Qed.

(** What it hands back for a class for which its assertions hold. *)
Lemma from_sequence_answer (symbol_table : SymbolTable)
  (cls : ConcreteClass) :
  assertions_hold symbol_table cls = true ->
  match type_errors cls with
  | [] =>
      exists code,
        _generate_deserialize_impl_cls_from_sequence symbol_table cls
        = Ok (Some code, None)
  | errors =>
      _generate_deserialize_impl_cls_from_sequence symbol_table cls
      = Ok (None, Some errors)
  end.
Proof.
  intros Hassertions. unfold assertions_hold in Hassertions.
  assert (Houtcome := from_sequence_outcome symbol_table cls).
  destruct (length (constructor_arguments cls) =? 0) eqn:Hzero;
    cbn [orb] in Hassertions, Houtcome.
  - apply Houtcome. left.
    destruct (constructor_arguments cls); [reflexivity|discriminate].
  - apply andb_true_iff in Hassertions.
    destruct Hassertions as [Hsupported Hnames].
    rewrite Hnames in Houtcome. apply Houtcome. now right.
Qed.

(** X26.  With a [Stripped] that refuses no text.  For a class whose
    constructor takes no argument, [_generate_deserialize_impl_cls_from_sequence]
    hands back code and no error.  For a class whose constructor takes
    arguments and whose properties have types the generator supports: if
    the names of the properties and of the arguments do not coincide, the
    function is left by its assertion; if they coincide, it hands back one
    error for every argument whose type is neither the type of the
    property of its name nor that type made optional, in the order of the
    arguments, and no code, and when there is no such argument it hands
    back the code and no error. *)
Theorem a_constructor_of_other_types_is_an_error :
  forall symbol_table cls,
    (constructor_arguments cls = [] ->
     exists code,
       _generate_deserialize_impl_cls_from_sequence symbol_table cls
       = Ok (Some code, None))
    /\ (constructor_arguments cls <> [] ->
        forallb (property_is_supported symbol_table) (properties cls) = true ->
        (Xmlization.names_coincide cls = false ->
         _generate_deserialize_impl_cls_from_sequence symbol_table cls
         = Raises AssertionError)
        /\ (Xmlization.names_coincide cls = true ->
            match
              flat_map
                (fun arg =>
                   match properties_by_name cls (arg_name arg) with
                   | Some prop =>
                       if type_annotations_equal (arg_type_annotation arg)
                            (prop_type_annotation prop)
                          || type_annotations_equal
                               (beneath_optional (arg_type_annotation arg))
                               (prop_type_annotation prop)
                       then []
                       else [mkError (types_do_not_match prop arg cls) []]
                   | None => []
                   end)
                (constructor_arguments cls)
            with
            | [] =>
                exists code,
                  _generate_deserialize_impl_cls_from_sequence symbol_table
                    cls
                  = Ok (Some code, None)
            | errors =>
                _generate_deserialize_impl_cls_from_sequence symbol_table cls
                = Ok (None, Some errors)
            end)).
Proof.
  intros symbol_table cls.
  assert (Houtcome := from_sequence_outcome symbol_table cls).
  split.
  - intros Hnone. rewrite Hnone in Houtcome.
    cbn [length Nat.eqb orb] in Houtcome.
    unfold XmlizationGenerator.type_errors in Houtcome.
    rewrite Hnone in Houtcome. apply Houtcome. now left.
  - intros Hsome Hsupported.
    destruct (constructor_arguments cls) as [|arg args] eqn:Hargs;
      [congruence|].
    cbn [length Nat.eqb orb] in Houtcome.
    split; intros Hnames; rewrite Hnames in Houtcome.
    + apply Houtcome. now right.
    + specialize (Houtcome (or_intror Hsupported)).
      unfold XmlizationGenerator.type_errors in Houtcome.
      rewrite Hargs in Houtcome.
      erewrite flat_map_ext; [exact Houtcome|].
      intros a. unfold argument_matches.
      now destruct (properties_by_name cls (arg_name a)).
Qed.

(** *** The file *)

(** The functions the generator calls return, and the constructor of the
    keys refuses no text. *)
Hypothesis accepts_keys : forall text, ImplementationKey text = Ok text.
Hypothesis skip_returns :
  exists block, _generate_skip_whitespace_and_comments = Ok block.
Hypothesis read_returns :
  exists block, _generate_read_whole_content_as_base_64 = Ok block.
Hypothesis extract_returns :
  exists block, _generate_extract_element_name = Ok block.
Hypothesis interface_from_element_returns :
  forall interface,
    exists block,
      _generate_deserialize_impl_interface_from_element interface = Ok block.
Hypothesis cls_from_element_returns :
  forall cls,
    exists block,
      _generate_deserialize_impl_concrete_cls_from_element cls = Ok block.
Hypothesis to_sequence_returns :
  forall cls, exists block, _generate_class_to_sequence cls = Ok block.
Hypothesis visit_returns :
  forall cls, exists block, _generate_visit_for_class cls = Ok block.

Lemma keys_accepted (keys : list string) :
  for_each ImplementationKey keys = Ok keys.
Proof.
  induction keys as [|key keys IH]; [reflexivity|]. cbn [for_each].
  rewrite accepts_keys, IH. reflexivity.
Qed.

Lemma snippets_collected (symbol : Symbol) (keys : list string) :
  forall collected,
    exists blocks,
      snippets symbol keys collected
      = (blocks, snd collected ++ missing_snippets symbol keys).
Proof.
  unfold XmlizationGenerator.snippets, XmlizationGenerator.missing_snippets.
  induction keys as [|key keys IH]; intros [blocks errors].
  - exists blocks. cbn. now rewrite app_nil_r.
  - cbn [fold_left filter]. destruct (spec_impls key) as [block|];
      cbn [is_None].
    + destruct (IH (append_block block (blocks, errors))) as [blocks' ->].
      exists blocks'. reflexivity.
    + destruct (IH (append_error (snippet_is_missing symbol key)
                      (blocks, errors))) as [blocks' ->].
      exists blocks'. cbn [append_error fst snd map].
      now rewrite <- app_assoc.
Qed.

Lemma emitted_class_of (symbol_table : SymbolTable) (cls : ConcreteClass) :
  In (SymConcreteClass cls) symbol_table ->
  is_implementation_specific cls = false ->
  In cls (emitted_classes symbol_table).
Proof.
  intros Hin Hspec. unfold emitted_classes. apply in_flat_map.
  exists (SymConcreteClass cls). split; [exact Hin|].
  rewrite Hspec. now left.
Qed.

Lemma deserialize_impl_of_collected (symbol_table : SymbolTable)
  (symbol : Symbol) :
  (forall cls, symbol = SymConcreteClass cls ->
               is_implementation_specific cls = false ->
               assertions_hold symbol_table cls = true) ->
  forall collected,
    exists blocks,
      deserialize_impl_of symbol_table symbol collected
      = Ok (blocks, snd collected ++ deserialize_impl_errors symbol).
Proof.
  intros Hassertions [blocks errors].
  unfold XmlizationGenerator.deserialize_impl_of,
    XmlizationGenerator.deserialize_impl_errors.
  destruct symbol as [e|c|a|cls]; cbn [is_class andb snd];
    try (exists blocks; now rewrite app_nil_r).
  - destruct (symbol_is_implementation_specific (SymAbstractClass a)).
    + rewrite keys_accepted. cbn [and_then].
      destruct (snippets_collected (SymAbstractClass a)
                  (deserialize_impl_keys (SymAbstractClass a))
                  (blocks, errors)) as [blocks' ->].
      eexists; reflexivity.
    + cbn [and_then]. rewrite app_nil_r.
      destruct (symbol_interface (SymAbstractClass a)) as [interface|];
        [|cbn [and_then]; eexists; reflexivity].
      destruct (interface_from_element_returns interface) as [block ->].
      cbn [and_then append_block fst snd]. eexists; reflexivity.
  - destruct (symbol_is_implementation_specific (SymConcreteClass cls))
      eqn:Hspec.
    + rewrite keys_accepted. cbn [and_then].
      destruct (snippets_collected (SymConcreteClass cls)
                  (deserialize_impl_keys (SymConcreteClass cls))
                  (blocks, errors)) as [blocks' ->].
      eexists; reflexivity.
    + assert (Hanswer := from_sequence_answer symbol_table cls
                           (Hassertions cls eq_refl Hspec)).
      destruct (type_errors cls) as [|e underlying].
      * destruct Hanswer as [block ->]. rewrite app_nil_r.
        cbn [and_then append_block fst snd].
        destruct (symbol_interface (SymConcreteClass cls)) as [interface|].
        -- destruct (interface_from_element_returns interface)
             as [block' ->].
           cbn [and_then append_block fst snd].
           destruct (cls_from_element_returns cls) as [block'' ->].
           cbn [and_then append_block fst snd]. eexists; reflexivity.
        -- cbn [and_then].
           destruct (cls_from_element_returns cls) as [block'' ->].
           cbn [and_then append_block fst snd]. eexists; reflexivity.
      * rewrite Hanswer. cbn [and_then append_error fst snd].
        destruct (symbol_interface (SymConcreteClass cls)) as [interface|].
        -- destruct (interface_from_element_returns interface)
             as [block' ->].
           cbn [and_then append_block fst snd].
           destruct (cls_from_element_returns cls) as [block'' ->].
           cbn [and_then append_block fst snd]. eexists; reflexivity.
        -- cbn [and_then].
           destruct (cls_from_element_returns cls) as [block'' ->].
           cbn [and_then append_block fst snd]. eexists; reflexivity.
Qed.

Lemma visitor_of_collected (symbol : Symbol) :
  forall collected,
    exists blocks,
      visitor_of symbol collected
      = Ok (blocks, snd collected ++ visitor_errors symbol).
Proof.
  intros [blocks errors].
  unfold XmlizationGenerator.visitor_of, XmlizationGenerator.visitor_errors.
  destruct symbol as [e|c|a|cls]; cbn [snd];
    try (exists blocks; now rewrite app_nil_r).
  destruct (symbol_is_implementation_specific (SymConcreteClass cls)).
  - rewrite keys_accepted. cbn [and_then].
    destruct (snippets_collected (SymConcreteClass cls)
                (visitor_keys (SymConcreteClass cls)) (blocks, errors))
      as [blocks' ->].
    eexists; reflexivity.
  - rewrite app_nil_r.
    destruct (to_sequence_returns cls) as [to_sequence ->].
    cbn [and_then].
    destruct (visit_returns cls) as [visit ->].
    cbn [and_then append_block fst snd]. eexists; reflexivity.
Qed.

Lemma for_state_collected (body : Symbol -> Collected -> Result Collected)
  (errors_of : Symbol -> list Error) :
  forall symbols,
    (forall symbol collected,
        In symbol symbols ->
        exists blocks,
          body symbol collected
          = Ok (blocks, snd collected ++ errors_of symbol)) ->
    forall collected,
      exists blocks,
        for_state body symbols collected
        = Ok (blocks, snd collected ++ flat_map errors_of symbols).
Proof.
  induction symbols as [|symbol rest IH]; intros Hbody [blocks errors].
  - exists blocks. cbn. now rewrite app_nil_r.
  - cbn [for_state flat_map].
    destruct (Hbody symbol (blocks, errors) (or_introl eq_refl))
      as [blocks' ->].
    cbn [and_then snd].
    destruct (IH (fun s c Hs => Hbody s c (or_intror Hs))
                (blocks', errors ++ errors_of symbol)) as [blocks'' ->].
    exists blocks''. cbn [snd]. now rewrite <- app_assoc.
Qed.

Lemma _generate_deserialize_impl_answer (symbol_table : SymbolTable) :
  forallb (assertions_hold symbol_table) (emitted_classes symbol_table)
  = true ->
  match flat_map deserialize_impl_errors symbol_table with
  | [] => exists code, _generate_deserialize_impl symbol_table
                       = Ok (Some code, None)
  | errors => _generate_deserialize_impl symbol_table = Ok (None, Some errors)
  end.
Proof.
  intros Hassertions. rewrite forallb_forall in Hassertions.
  unfold XmlizationGenerator._generate_deserialize_impl.
  destruct skip_returns as [skip ->]. destruct read_returns as [read ->].
  destruct extract_returns as [extract ->]. cbn [and_then].
  destruct (@for_state_collected (deserialize_impl_of symbol_table)
              deserialize_impl_errors symbol_table)
    with (collected := ([skip; read; extract], @nil Error))
    as [blocks ->].
  { intros symbol collected Hin.
    apply deserialize_impl_of_collected.
    intros cls -> Hspec. apply Hassertions.
    now apply emitted_class_of. }
  cbn [and_then snd app].
  destruct (flat_map _ symbol_table) as [|e errors];
    cbn [length Nat.ltb Nat.leb].
  - rewrite accepts. cbn [and_then]. eauto.
  - reflexivity.
Qed.

Lemma _generate_visitor_answer (symbol_table : SymbolTable) :
  match flat_map visitor_errors symbol_table with
  | [] => exists code, _generate_visitor symbol_table = Ok (Some code, None)
  | errors => _generate_visitor symbol_table = Ok (None, Some errors)
  end.
Proof.
  unfold XmlizationGenerator._generate_visitor.
  destruct (@for_state_collected visitor_of visitor_errors symbol_table)
    with (collected := (@nil string, @nil Error))
    as [blocks ->].
  { intros symbol collected _. apply visitor_of_collected. }
  cbn [and_then snd app].
  destruct (flat_map _ symbol_table) as [|e errors];
    cbn [length Nat.ltb Nat.leb].
  - rewrite accepts. cbn. eauto.
  - reflexivity.
Qed.

Lemma _generate_deserialize_returns (symbol_table : SymbolTable) :
  exists code, _generate_deserialize symbol_table = Ok code.
Proof.
  unfold XmlizationGenerator._generate_deserialize.
  assert (Hloop : forall blocks,
             exists blocks',
               for_state
                 (deserialize_of naming_class_name naming_interface_name I II
                    III Stripped)
                 symbol_table blocks
               = Ok blocks').
  { induction symbol_table as [|symbol rest IH]; intros blocks;
      [cbn; eauto|].
    cbn [for_state]. unfold deserialize_of at 1, _generate_deserialize_from.
    destruct symbol as [e|c|a|cls]; cbn [and_then]; try apply IH;
      destruct (symbol_interface _); rewrite ?accepts; cbn [and_then];
      rewrite ?accepts; cbn [and_then]; apply IH. }
  destruct (Hloop []) as [blocks ->]. cbn [and_then].
  rewrite accepts. eauto.
Qed.

Lemma _generate_serialize_returns (symbol_table : SymbolTable) :
  exists code, _generate_serialize symbol_table = Ok code.
Proof.
  unfold XmlizationGenerator._generate_serialize.
  rewrite ?accepts. cbn [and_then]. rewrite ?accepts. cbn [and_then].
  rewrite ?accepts. eauto.
Qed.

(** X24.  When the functions [generate] calls return, the constructors
    refuse no text and the assertions of
    [_generate_deserialize_impl_cls_from_sequence] hold for the classes it
    is called for, [generate] reports these errors and no other.  For
    every implementation-specific class, abstract or concrete, one error
    for each of its two snippets of [DeserializeImplementation] that is
    missing; for every other concrete class with an argument of the
    constructor whose type does not match, one error that the code of the
    class could not be generated, with one error for every such argument
    beneath it; these in the order of the symbols; then, for every
    implementation-specific concrete class, one error for each of its two
    snippets of [VisitorWithWriter] that is missing.  If there is such an
    error, [generate] returns the errors and no code; if there is none it
    returns no error: it returns the code, or is left by an exception. *)
Theorem a_missing_snippet_is_an_error :
  forall symbol_table namespace,
    forallb (assertions_hold symbol_table) (emitted_classes symbol_table)
    = true ->
    match flat_map deserialize_impl_errors symbol_table
          ++ flat_map visitor_errors symbol_table with
    | [] =>
        match generate symbol_table namespace with
        | Ok (Some _, None) | Raises _ => True
        | Ok _ => False
        end
    | errors => generate symbol_table namespace = Ok (None, Some errors)
    end.
Proof.
  intros symbol_table namespace Hassertions.
  unfold XmlizationGenerator.generate.
  assert (Himpl := _generate_deserialize_impl_answer symbol_table
                     Hassertions).
  assert (Hvisitor := _generate_visitor_answer symbol_table).
  destruct (_generate_deserialize_returns symbol_table) as [deserialize ->].
  destruct (_generate_serialize_returns symbol_table) as [serialize ->].
  destruct (flat_map deserialize_impl_errors symbol_table) as [|e errors].
  - destruct Himpl as [impl ->]. cbn [and_then]. rewrite accepts.
    cbn [and_then append_block fst snd app].
    destruct (flat_map visitor_errors symbol_table) as [|e errors].
    + destruct Hvisitor as [visitor ->].
      cbn [and_then append_block fst snd app length Nat.ltb Nat.leb].
      destruct _generate_wrapped_writer as [wrapped|]; cbn [and_then];
        [|trivial].
      rewrite ?accepts. cbn [and_then]. rewrite ?accepts. cbn [and_then].
      rewrite ?accepts. cbn [and_then].
      destruct (existsb _ _); [trivial|].
      unfold ensure. cbn [fst snd is_None negb xorb].
      now rewrite ends_with_new_line.
    + rewrite Hvisitor. cbn [and_then fst snd app length Nat.ltb Nat.leb].
      reflexivity.
  - rewrite Himpl. cbn [and_then]. rewrite accepts.
    cbn [and_then append_block fst snd app].
    destruct (flat_map visitor_errors symbol_table) as [|e' errors'].
    + destruct Hvisitor as [visitor ->].
      cbn [and_then append_block fst snd app length Nat.ltb Nat.leb].
      now rewrite app_nil_r.
    + rewrite Hvisitor. cbn [and_then fst snd app length Nat.ltb Nat.leb].
      reflexivity.
Qed.

End GeneratorOfTheFile.

Section GeneratorOfTheFileOnTheExample.

Import intermediate Python XmlizationGenerator SnippetsExample.
Local Open Scope string_scope.

(** [Plain] has no argument; [Renamed] has an argument that is no property;
    the argument [size] of [Sized] is a text and the property a number,
    while its argument [label] is the property made optional; the
    arguments of [Named] are its properties. *)
Lemma a_constructor_of_other_types_is_an_error_witness :
  (exists code,
      SnippetsExample._generate_deserialize_impl_cls_from_sequence
        SnippetsExample.symbol_table Plain
      = Ok (Some code, None))
  /\ SnippetsExample._generate_deserialize_impl_cls_from_sequence
       SnippetsExample.symbol_table Renamed
     = Raises AssertionError
  /\ SnippetsExample._generate_deserialize_impl_cls_from_sequence
       SnippetsExample.symbol_table Sized
     = Ok (None,
           Some
             [mkError
                ("Expected type annotation for property 'size' "
                 ++ "and constructor argument 'size' "
                 ++ "of the class 'Sized' to have matching types, "
                 ++ "but they do not: "
                 ++ "property type is int "
                 ++ "and argument type is str. "
                 ++ "Hence we do not know how to generate the call "
                 ++ "to the constructor in the JSON de-serialization.")
                []])
  /\ exists code,
       SnippetsExample._generate_deserialize_impl_cls_from_sequence
         Example.symbol_table Example.Named
       = Ok (Some code, None).
Proof.
  assert (H := fun symbol_table cls =>
                 @a_constructor_of_other_types_is_an_error as_it_is as_it_is
                   as_it_is as_it_is as_it_is SnippetsExample.str as_it_is
                   "    " "        " "            " "                "
                   "                    " as_it_is SnippetsExample.indent
                   SnippetsExample.indent accepted SnippetsExample.repr
                   SnippetsExample.str (fun text => eq_refl) symbol_table
                   cls).
  split; [exact (proj1 (H SnippetsExample.symbol_table Plain) eq_refl)|].
  split.
  { apply (H SnippetsExample.symbol_table Renamed);
      [discriminate|reflexivity|reflexivity]. }
  split.
  { exact (proj2 (proj2 (H SnippetsExample.symbol_table Sized)
                    ltac:(discriminate) eq_refl)
             eq_refl). }
  exact (proj2 (proj2 (H Example.symbol_table Example.Named)
                  ltac:(discriminate) eq_refl)
           eq_refl).
Defined.

(** Of the four snippets of [Special] one is at hand, of the two of
    [Peculiar] none, and the constructor of [Sized] takes a text for the
    number. *)
Lemma a_missing_snippet_is_an_error_witness :
  SnippetsExample.generate SnippetsExample.symbol_table "AasCore.Aas3_0"
  = Ok (None,
        Some
          [mkError
             ("The xmlization snippet is missing for the "
              ++ "implementation-specific class Special: "
              ++ "Xmlization/DeserializeImplementation/Special_from_element.cs")
             [];
           mkError
             ("The xmlization snippet is missing for the "
              ++ "implementation-specific class Special: "
              ++ "Xmlization/DeserializeImplementation/Special_from_sequence.cs")
             [];
           mkError
             ("The xmlization snippet is missing for the "
              ++ "implementation-specific class Peculiar: "
              ++ "Xmlization/DeserializeImplementation/Peculiar_from_element.cs")
             [];
           mkError
             ("The xmlization snippet is missing for the "
              ++ "implementation-specific class Peculiar: "
              ++ "Xmlization/DeserializeImplementation/Peculiar_from_sequence.cs")
             [];
           mkError
             "Failed to generate the XML deserialization code for the class Sized"
             [mkError
                ("Expected type annotation for property 'size' "
                 ++ "and constructor argument 'size' "
                 ++ "of the class 'Sized' to have matching types, "
                 ++ "but they do not: "
                 ++ "property type is int "
                 ++ "and argument type is str. "
                 ++ "Hence we do not know how to generate the call "
                 ++ "to the constructor in the JSON de-serialization.")
                []];
           mkError
             ("The xmlization snippet is missing for the "
              ++ "implementation-specific class Special: "
              ++ "Xmlization/VisitorWithWriter/Special_to_sequence.cs")
             []]).
Proof.
  exact (@a_missing_snippet_is_an_error as_it_is as_it_is as_it_is as_it_is
           as_it_is SnippetsExample.str as_it_is "// generated" "    "
           "        " "            " "                "
           "                    " as_it_is SnippetsExample.indent
           SnippetsExample.indent accepted accepted SnippetsExample.repr
           SnippetsExample.str SnippetsExample.spec_impls
           (Ok "// skip") (Ok "// read") (Ok "// name")
           (fun _ => Ok "// interface from element")
           (fun _ => Ok "// class from element")
           (fun _ => Ok "// to sequence") (fun _ => Ok "// visit")
           (Ok "// wrapped writer")
           (fun text => eq_refl) (fun text => eq_refl)
           (ex_intro _ "// skip" eq_refl) (ex_intro _ "// read" eq_refl)
           (ex_intro _ "// name" eq_refl)
           (fun _ => ex_intro _ "// interface from element" eq_refl)
           (fun _ => ex_intro _ "// class from element" eq_refl)
           (fun _ => ex_intro _ "// to sequence" eq_refl)
           (fun _ => ex_intro _ "// visit" eq_refl)
           SnippetsExample.symbol_table "AasCore.Aas3_0" eq_refl).
Defined.

End GeneratorOfTheFileOnTheExample.
